(** * Accounts-payable analysis: cleaning, features, aggregates

    A shallow embedding of the tabular pipeline of the repository
    ([ap_cleaning.py], [app.py], [ap_kpis.py], [ap_reports.py]) and the
    properties its specification states about it.

    Modelling conventions.
    - A pandas cell is a value of [cell]: missing ([NaN], which also stands
      for [NaT] and [None]), text, a number, a timestamp, or a category of
      [pd.cut].  Text is the sequence of the bytes of its UTF-8 encoding.
      Floating-point numbers are idealised as exact rationals ([Q]), and
      sums are exact: what is stated about a sum holds of the figure the
      code computes up to the rounding of [float64] addition.
      Timestamps are nanoseconds since the epoch ([Z]), as in
      [datetime64[ns]].
    - A [DataFrame] is the list of its column names and the list of its
      rows; a row is a record with one field per column the code reads.
      A field whose column is not listed in [columns] is not part of the
      frame.
    - Vectorised expressions are kept vectorised: a column is a list, a
      mask is a list of booleans, [|] and [&] are element-wise.
    - What pandas does when it turns text into a number or a date, or a
      number or a date into text, is not fixed here: these conversions are
      the fields of the class [Coercions], and every general theorem holds
      for all of them.  They are applied cell by cell; pandas reads the
      dates of a column of text in one format, which it infers from the
      column, so that properties which convert the same text in two
      columns are stated for datetime columns, on which a conversion
      changes nothing.  [pandas_std] is one concrete instance, used to
      run the code on explicit tables.
    - Python exceptions are values of [exn], carried by [result]. *)

From Stdlib Require Import List ZArith QArith Qreduction String Ascii Bool Lia
  Permutation Sorted DecimalString.
Import ListNotations.

Set Implicit Arguments.
Close Scope Q_scope.

(* ------------------------------------------------------------------ *)
(** * Exceptions *)

Inductive exn : Type :=
| KeyError (column : string)
| FileNotFoundError (msg : string)
| PermissionError
| ZeroDivisionError.

Inductive result (A : Type) : Type :=
| Ok (a : A)
| Raise (e : exn).

Arguments Ok {A} a.
Arguments Raise {A} e.

Definition bind {A B} (m : result A) (k : A -> result B) : result B :=
  match m with
  | Ok a => k a
  | Raise e => Raise e
  end.

Notation "x <- m ;; k" := (bind m (fun x => k))
  (at level 61, m at next level, right associativity).

(* ------------------------------------------------------------------ *)
(** * Text *)

Open Scope string_scope.

(** A string is the sequence of the bytes of its UTF-8 encoding. *)

(** The one-byte characters for which [str.isspace()] holds: U+0009 to
    U+000D and U+001C to U+0020. *)
Definition is_space (c : ascii) : bool :=
  let n := nat_of_ascii c in
  (Nat.leb 9 n && Nat.leb n 13) || (Nat.leb 28 n && Nat.leb n 32).

(** The number of bytes of the white-space character a text begins with,
    0 when it begins with none.  Beside the one-byte characters,
    [str.isspace()] holds of U+0085 and U+00A0 (two bytes) and of U+1680,
    U+2000 to U+200A, U+2028, U+2029, U+202F, U+205F and U+3000 (three
    bytes). *)
Definition space_width (s : string) : nat :=
  match s with
  | EmptyString => 0
  | String a r =>
      if is_space a then 1
      else
        let x := nat_of_ascii a in
        match r with
        | EmptyString => 0
        | String b r' =>
            let y := nat_of_ascii b in
            if Nat.eqb x 194 && (Nat.eqb y 133 || Nat.eqb y 160) then 2
            else
              match r' with
              | EmptyString => 0
              | String c _ =>
                  let z := nat_of_ascii c in
                  if (Nat.eqb x 225 && Nat.eqb y 154 && Nat.eqb z 128)
                     || (Nat.eqb x 226 && Nat.eqb y 128
                         && ((Nat.leb 128 z && Nat.leb z 138)
                             || Nat.eqb z 168 || Nat.eqb z 169 || Nat.eqb z 175))
                     || (Nat.eqb x 226 && Nat.eqb y 129 && Nat.eqb z 159)
                     || (Nat.eqb x 227 && Nat.eqb y 128 && Nat.eqb z 128)
                  then 3 else 0
              end
        end
  end.

Fixpoint lstrip (s : string) : string :=
  match s with
  | EmptyString => EmptyString
  | String _ r =>
      match space_width s with
      | 0 => s
      | 1 => lstrip r
      | 2 => match r with String _ r2 => lstrip r2 | _ => s end
      | _ => match r with String _ (String _ r3) => lstrip r3 | _ => s end
      end
  end.

(** The text holds white space only. *)
Fixpoint all_space (s : string) : bool :=
  match s with
  | EmptyString => true
  | String _ r =>
      match space_width s with
      | 0 => false
      | 1 => all_space r
      | 2 => match r with String _ r2 => all_space r2 | _ => false end
      | _ => match r with String _ (String _ r3) => all_space r3 | _ => false end
      end
  end.

(** The text without the white space it ends with.  A byte inside a
    character of several bytes begins no white-space character, so the
    test is made at the beginning of characters only. *)
Fixpoint rstrip (s : string) : string :=
  match s with
  | EmptyString => EmptyString
  | String c r => if all_space s then EmptyString else String c (rstrip r)
  end.

(** [str.strip()] *)
Definition strip (s : string) : string := rstrip (lstrip s).

Definition lower_ascii (c : ascii) : ascii :=
  let n := nat_of_ascii c in
  if Nat.leb 65 n && Nat.leb n 90 then ascii_of_nat (n + 32) else c.

(** [str.lower()] on ASCII letters *)
Fixpoint lower (s : string) : string :=
  match s with
  | EmptyString => EmptyString
  | String c r => String (lower_ascii c) (lower r)
  end.

(** [s.endswith(suf)] *)
Definition endswith (suf s : string) : bool :=
  let n := String.length s in
  let k := String.length suf in
  Nat.leb k n && (substring (n - k) k s =? suf).

(** The digits 0 to 9.  (The [\d] of a regular expression also matches
    the decimal digits of other scripts; these are not modelled, and the
    properties of [_parse_terms_days] are stated for ASCII text.) *)
Definition is_digit (c : ascii) : bool :=
  let n := nat_of_ascii c in Nat.leb 48 n && Nat.leb n 57.

Definition digit_val (c : ascii) : Z := Z.of_nat (nat_of_ascii c - 48).

(** Decimal rendering of an integer, as [str(int)] *)
Definition str_int (z : Z) : string := NilZero.string_of_int (Z.to_int z).

Close Scope string_scope.

(* ------------------------------------------------------------------ *)
(** * Cells *)

(** The labels of the aging buckets, in category order. *)
Inductive bucket : Type := Current | B0_30 | B31_60 | B61_90 | Over90.

Inductive cell : Type :=
| NaN
| Txt (s : string)
| Num (q : Q)
| Ts (t : Z)
| Cat (b : bucket).

(** The textual coercions of pandas, applied to one cell. *)
Class Coercions : Type := {
  parse_number : string -> option Q;      (* [pd.to_numeric] on text *)
  parse_datetime : string -> option Z;    (* [pd.to_datetime] on text *)
  number_to_datetime : Q -> option Z;     (* [pd.to_datetime] on a number *)
  datetime_to_number : Z -> option Q;     (* [pd.to_numeric] on a timestamp *)
  str_number : Q -> string;               (* [str] of a number *)
  str_timestamp : Z -> string             (* [str] of a timestamp *)
}.

Definition bucket_label (b : bucket) : string :=
  match b with
  | Current => "Current"
  | B0_30 => "0–30"
  | B31_60 => "31–60"
  | B61_90 => "61–90"
  | Over90 => ">90"
  end.

Definition isna (c : cell) : bool :=
  match c with NaN => true | _ => false end.

Definition notna (c : cell) : bool := negb (isna c).

Section Coerce.
Context {P : Coercions}.

(** [pd.to_numeric(_, errors="coerce")], one cell *)
Definition to_numeric (c : cell) : cell :=
  match c with
  | NaN => NaN
  | Num q => Num q
  | Txt s => match parse_number s with Some q => Num q | None => NaN end
  | Ts t => match datetime_to_number t with Some q => Num q | None => NaN end
  | Cat _ => NaN
  end.

(** [pd.to_datetime(_, errors="coerce")], one cell *)
Definition to_datetime (c : cell) : cell :=
  match c with
  | NaN => NaN
  | Ts t => Ts t
  | Txt s => match parse_datetime s with Some t => Ts t | None => NaN end
  | Num q => match number_to_datetime q with Some t => Ts t | None => NaN end
  | Cat _ => NaN
  end.

(** [.astype(str)], one cell of an object or numeric column.  A missing
    value becomes the text [nan], as in pandas up to 2.x; later versions
    keep it missing, and what is stated about the key of a row is stated
    there for rows whose key fields are all present. *)
Definition astype_str (c : cell) : string :=
  match c with
  | NaN => "nan"
  | Txt s => s
  | Num q => str_number q
  | Ts t => str_timestamp t
  | Cat b => bucket_label b
  end.

(** [.astype(str)], one cell of a [datetime64] column *)
Definition astype_str_dt (c : cell) : string :=
  match c with
  | Ts t => str_timestamp t
  | _ => "NaT"
  end.
End Coerce.

(** Comparisons of cells as pandas evaluates them on numeric and datetime
    columns: a comparison with a missing value is [False]. *)
Definition num_gt0 (c : cell) : bool :=
  match c with Num q => negb (Qle_bool q 0%Q) | _ => false end.

Definition num_le0 (c : cell) : bool :=
  match c with Num q => Qle_bool q 0%Q | _ => false end.

Definition ts_lt (a b : cell) : bool :=
  match a, b with Ts x, Ts y => (x <? y)%Z | _, _ => false end.

Definition ts_ge (a b : cell) : bool :=
  match a, b with Ts x, Ts y => (y <=? x)%Z | _, _ => false end.

(* ------------------------------------------------------------------ *)
(** * Columns and frames *)

(** Element-wise combination of two columns. *)
Fixpoint zip_with {A B C} (f : A -> B -> C) (a : list A) (b : list B) : list C :=
  match a, b with
  | x :: a', y :: b' => f x y :: zip_with f a' b'
  | _, _ => []
  end.

Definition s_or (a b : list bool) : list bool := zip_with orb a b.
Definition s_and (a b : list bool) : list bool := zip_with andb a b.
Definition s_not (a : list bool) : list bool := map negb a.

(** [int(mask.sum())] *)
Definition s_count (a : list bool) : nat := List.length (filter (fun b => b) a).

(** Boolean indexing [df[mask]] / [df.loc[mask]]. *)
Fixpoint loc {A} (mask : list bool) (l : list A) : list A :=
  match mask, l with
  | b :: m, x :: l' => if b then x :: loc m l' else loc m l'
  | _, _ => []
  end.

Record row : Type := mkRow {
  APID : cell;
  Vendor : cell;
  InvoiceDate : cell;
  DueDate : cell;
  PaidDate : cell;
  Amount : cell;
  Currency : cell;
  Status : cell;
  Terms : cell;
  IsPaid : bool;
  DaysPastDue : Z;
  AgingBucket : cell
}.

Record frame : Type := mkFrame {
  columns : list string;
  rows : list row
}.

(** [c in df.columns] *)
Definition has (c : string) (df : frame) : bool :=
  existsb (String.eqb c) (columns df).

(** [df[c]] for the column read by the projection [f] *)
Definition col {A} (f : row -> A) (df : frame) : list A := map f (rows df).

(** Adding a column name when a column is assigned. *)
Definition with_column (c : string) (cs : list string) : list string :=
  if existsb (String.eqb c) cs then cs else cs ++ [c].

Definition set_Amount (c : cell) (r : row) : row :=
  mkRow (APID r) (Vendor r) (InvoiceDate r) (DueDate r) (PaidDate r) c
        (Currency r) (Status r) (Terms r) (IsPaid r) (DaysPastDue r) (AgingBucket r).

Definition set_Currency (c : cell) (r : row) : row :=
  mkRow (APID r) (Vendor r) (InvoiceDate r) (DueDate r) (PaidDate r) (Amount r)
        c (Status r) (Terms r) (IsPaid r) (DaysPastDue r) (AgingBucket r).

Definition set_dates (i d p : cell) (r : row) : row :=
  mkRow (APID r) (Vendor r) i d p (Amount r)
        (Currency r) (Status r) (Terms r) (IsPaid r) (DaysPastDue r) (AgingBucket r).

Definition set_features (paid : bool) (dpd : Z) (bucket : cell) (r : row) : row :=
  mkRow (APID r) (Vendor r) (InvoiceDate r) (DueDate r) (PaidDate r) (Amount r)
        (Currency r) (Status r) (Terms r) paid dpd bucket.

(** The loop [for c in ["InvoiceDate","DueDate","PaidDate"]: if c in
    df.columns: df[c] = pd.to_datetime(df[c], errors="coerce")], which the
    three scripts share, on one row of [df]. *)
Definition convert_dates {P : Coercions} (df : frame) (r : row) : row :=
  let conv (c : string) (x : cell) :=
    if has c df then to_datetime x else x in
  set_dates (conv "InvoiceDate"%string (InvoiceDate r))
            (conv "DueDate"%string (DueDate r))
            (conv "PaidDate"%string (PaidDate r)) r.

(** [x in xs] for strings / [Series.isin] *)
Definition isin (xs : list string) (s : string) : bool :=
  existsb (String.eqb s) xs.

(** [Series.duplicated(keep=False)]: every member of a group of two or more
    equal values is marked. *)
Definition duplicated_all (keys : list string) : list bool :=
  map (fun k => Nat.leb 2 (count_occ string_dec keys k)) keys.

(** [Series.duplicated(keep="first")]: a value is marked when it occurred
    earlier in the column. *)
Fixpoint duplicated_first (seen keys : list string) : list bool :=
  match keys with
  | [] => []
  | k :: ks => isin seen k :: duplicated_first (k :: seen) ks
  end.

(** Indexing a column that may be absent: [df[c]] raises [KeyError]. *)
Definition require (c : string) (df : frame) : result unit :=
  if has c df then Ok tt else Raise (KeyError c).

(* ------------------------------------------------------------------ *)
(** * [ap_cleaning.py] *)

Module ap_cleaning.

Definition ALLOWED_CCY : list string :=
  ["USD"; "EUR"; "GBP"; "CAD"; "AUD"; "JPY"]%string.

(** The counts printed after cleaning. *)
Record dq_summary : Type := mkSummary {
  missing_APID : nat;
  amount_zero_negative_or_na : nat;
  invalid_invoice_date : nat;
  invalid_due_date : nat;
  due_before_invoice_count : nat;
  invalid_currency : nat;
  duplicates : nat
}.

Record cleaning_output : Type := mkOutput {
  df_clean : frame;
  rows_total : nat;
  rows_removed : nat;
  rows_cleaned : nat;
  dq_cleaned : dq_summary
}.

Section Defs.
Context {P : Coercions}.

(** [df_chk]: the copy of the raw table whose date columns are
    converted (lines 63-65). *)
Definition df_chk (df_raw : frame) : frame :=
  mkFrame (columns df_raw) (map (convert_dates df_raw) (rows df_raw)).

Definition apid_missing (df : frame) : list bool :=
  s_or (map isna (col APID df))
       (map (fun s => String.eqb (strip s) "") (map astype_str (col APID df))).

Definition amt_num (df : frame) : list cell := map to_numeric (col Amount df).

Definition amt_invalid (df : frame) : list bool :=
  s_or (map isna (amt_num df)) (map num_le0 (amt_num df)).

Definition inv_invoice (df : frame) : list bool := map isna (col InvoiceDate df).
Definition inv_due (df : frame) : list bool := map isna (col DueDate df).
Definition invalid_dates (df : frame) : list bool :=
  s_or (inv_invoice df) (inv_due df).

Definition due_before_invoice (df : frame) : list bool :=
  zip_with ts_lt (col DueDate df) (col InvoiceDate df).

Definition ccy_invalid (df : frame) : list bool :=
  s_not (map (isin ALLOWED_CCY) (map strip (map astype_str (col Currency df)))).

Definition sep (a b : string) : string := (a ++ "|" ++ b)%string.

(** The composite key of lines 79-84, on a table whose [InvoiceDate] is
    a [datetime64] column. *)
Definition compkey (df : frame) : list string :=
  zip_with sep
    (zip_with sep
       (zip_with sep (map astype_str (col APID df))
                     (map astype_str (col Vendor df)))
       (map astype_str_dt (col InvoiceDate df)))
    (map astype_str (col Amount df)).

Definition is_dup (df : frame) : list bool := duplicated_all (compkey df).

(** Lines 104-111, on [df_chk]. *)
Definition drop_mask (df : frame) : list bool :=
  s_or (s_or (s_or (s_or (s_or (apid_missing df) (amt_invalid df))
                         (invalid_dates df))
                   (due_before_invoice df))
             (ccy_invalid df))
       (is_dup df).

(** Line 115: [df_raw.loc[~drop_mask]]. *)
Definition kept (df_raw : frame) : list row :=
  loc (s_not (drop_mask (df_chk df_raw))) (rows df_raw).

(** The composite key of lines 140-145: computed on the cleaned table,
    whose [InvoiceDate] column holds the raw cells. *)
Definition compkey_clean (df : frame) : list string :=
  zip_with sep
    (zip_with sep
       (zip_with sep (map astype_str (col APID df))
                     (map astype_str (col Vendor df)))
       (map astype_str (col InvoiceDate df)))
    (map astype_str (col Amount df)).

(** Lines 133-146. *)
Definition summary_cleaned (df : frame) : dq_summary :=
  mkSummary
    (s_count (map isna (col APID df))
     + s_count (map (fun s => String.eqb (strip s) "")
                    (map astype_str (col APID df))))
    (s_count (map num_le0 (map to_numeric (col Amount df))))
    (s_count (map isna (map to_datetime (col InvoiceDate df))))
    (s_count (map isna (map to_datetime (col DueDate df))))
    (s_count (zip_with ts_lt (map to_datetime (col DueDate df))
                             (map to_datetime (col InvoiceDate df))))
    (s_count (s_not (map (isin ALLOWED_CCY)
                         (map strip (map astype_str (col Currency df))))))
    (s_count (duplicated_all (compkey_clean df))).

(** [main], from the table read from the spreadsheet to the table handed
    to [safe_save_csv]. *)
Definition main (df_raw : frame) : result cleaning_output :=
  _ <- require "APID" df_raw ;;
  _ <- require "Amount" df_raw ;;
  _ <- require "InvoiceDate" df_raw ;;
  _ <- require "DueDate" df_raw ;;
  _ <- require "Currency" df_raw ;;
  _ <- require "Vendor" df_raw ;;
  let mask := drop_mask (df_chk df_raw) in
  let clean :=
    mkFrame (columns df_raw)
            (map (fun r => set_Amount (to_numeric (Amount r)) r) (kept df_raw)) in
  Ok (mkOutput clean
               (List.length (rows df_raw))
               (s_count mask)
               (List.length (rows clean))
               (summary_cleaned clean)).
End Defs.

End ap_cleaning.

(* ------------------------------------------------------------------ *)
(** * [app.py]: the cleaning of the dashboard *)

(** [df[mask]] and column assignment on a frame. *)
Definition select (mask : list bool) (df : frame) : frame :=
  mkFrame (columns df) (loc mask (rows df)).

Definition assign (f : row -> row) (df : frame) : frame :=
  mkFrame (columns df) (map f (rows df)).

Module app.

Definition ALLOWED_CCY : list string :=
  ["USD"; "EUR"; "GBP"; "CAD"; "AUD"; "JPY"]%string.

Section Defs.
Context {P : Coercions}.

(** Step 1: [APID] present. *)
Definition step_apid (df : frame) : frame :=
  select (s_and (map notna (col APID df))
                (map (fun s => negb (String.eqb (strip s) ""))
                     (map astype_str (col APID df)))) df.

(** Step 2: [Amount] numeric and > 0. *)
Definition step_amount (df : frame) : frame :=
  let df := assign (fun r => set_Amount (to_numeric (Amount r)) r) df in
  select (map num_gt0 (col Amount df)) df.

(** Step 3: dates converted and valid. *)
Definition step_dates (df : frame) : frame :=
  let df := assign (convert_dates df) df in
  select (s_and (map notna (col InvoiceDate df)) (map notna (col DueDate df))) df.

(** Step 4: [DueDate >= InvoiceDate]. *)
Definition step_order (df : frame) : frame :=
  select (zip_with ts_ge (col DueDate df) (col InvoiceDate df)) df.

(** Step 5: allowed currency, when the column exists. *)
Definition step_currency (df : frame) : frame :=
  if has "Currency" df then
    let df := assign (fun r => set_Currency (Txt (strip (astype_str (Currency r)))) r) df in
    select (map (fun c => isin ALLOWED_CCY (astype_str c)) (col Currency df)) df
  else df.

Definition sep (a b : string) : string := (a ++ "|" ++ b)%string.

(** The column [CompositeKey] of step 6. *)
Definition CompositeKey (df : frame) : list string :=
  zip_with sep
    (zip_with sep
       (zip_with sep (map astype_str (col APID df))
                     (map astype_str (col Vendor df)))
       (map astype_str_dt (col InvoiceDate df)))
    (map astype_str (col Amount df)).

(** Step 6: [drop_duplicates(subset="CompositeKey", keep="first")]. *)
Definition step_dedup (df : frame) : frame :=
  select (s_not (duplicated_first [] (CompositeKey df))) df.

(** The table on which step 6 computes its key: steps 1 to 5. *)
Definition _clean_valid (df : frame) : frame :=
  step_currency (step_order (step_dates (step_amount (step_apid df)))).

Definition _clean (df : frame) : result frame :=
  _ <- require "APID" df ;;
  _ <- require "Amount" df ;;
  _ <- require "InvoiceDate" df ;;
  _ <- require "DueDate" df ;;
  _ <- require "Vendor" df ;;
  Ok (step_dedup (_clean_valid df)).
End Defs.

End app.

(* ------------------------------------------------------------------ *)
(** * Feature derivation ([_ensure_features] of [ap_kpis.py] and of
      [ap_reports.py], which are the same text) *)

Definition ns_per_day : Z := 86400000000000.

(** [Timestamp.normalize()]: midnight of the same day. *)
Definition normalize (t : Z) : Z := (t - t mod ns_per_day)%Z.

(** [(a - b).dt.days] on datetime columns: whole days of the difference,
    rounded down; missing when either side is.  (On a column that is not
    a datetime column pandas raises; the functions below are applied to
    converted columns.) *)
Definition sub_days (a b : cell) : option Z :=
  match a, b with
  | Ts x, Ts y => Some ((x - y) / ns_per_day)%Z
  | _, _ => None
  end.

(** [.fillna(0)] then [.clip(lower=0)] on one value. *)
Definition fillna0 (v : option Z) : Z :=
  match v with Some d => d | None => 0%Z end.

Definition clip_lower0 (d : Z) : Z := Z.max 0 d.

(** [pd.cut(x, bins=[-1, 0, 30, 60, 90, inf], labels=[...])]: intervals
    open on the left and closed on the right. *)
Definition cut (d : Z) : cell :=
  if (d <=? -1)%Z then NaN
  else if (d <=? 0)%Z then Cat Current
  else if (d <=? 30)%Z then Cat B0_30
  else if (d <=? 60)%Z then Cat B31_60
  else if (d <=? 90)%Z then Cat B61_90
  else Cat Over90.

Section Features.
Context {P : Coercions}.

(** [_safe_to_datetime(df, ["InvoiceDate","DueDate","PaidDate"])] *)
Definition _safe_to_datetime (df : frame) : frame :=
  assign (convert_dates df) df.

(** The column [IsPaid]. *)
Definition is_paid_col (df : frame) : list bool :=
  let c0 := map (fun _ => false) (rows df) in
  let c1 := if has "Status" df
            then s_or c0 (map (fun s => String.eqb (lower s) "paid")
                              (map astype_str (col Status df)))
            else c0 in
  if has "PaidDate" df then s_or c1 (map notna (col PaidDate df)) else c1.

(** The column [DaysPastDue], given [today] and the column [IsPaid]. *)
Definition days_past_due_col (today : Z) (paid : list bool) (df : frame) : list Z :=
  if has "DueDate" df then
    let dpd_today := map (fun d => sub_days (Ts today) d) (col DueDate df) in
    let dpd_paid :=
      if has "PaidDate" df
      then zip_with sub_days (col PaidDate df) (col DueDate df)
      else map (fun _ => None) (rows df) in
    let where_ :=
      zip_with (fun (p : bool) (v : option Z * option Z) =>
                  if p then fst v else snd v)
               paid (zip_with pair dpd_paid dpd_today) in
    map clip_lower0 (map fillna0 where_)
  else map (fun _ => 0%Z) (rows df).

(** The column [AgingBucket]: synthesised only when absent. *)
Definition aging_bucket_col (dpd : list Z) (df : frame) : list cell :=
  if has "AgingBucket" df then col AgingBucket df else map cut dpd.

Definition _ensure_features (now : Z) (df : frame) : frame :=
  let today := normalize now in
  let paid := is_paid_col df in
  let dpd := days_past_due_col today paid df in
  let bucket := aging_bucket_col dpd df in
  mkFrame
    (with_column "AgingBucket"
       (with_column "DaysPastDue" (with_column "IsPaid" (columns df))))
    (zip_with (fun (r : row) (f : bool * Z * cell) =>
                 set_features (fst (fst f)) (snd (fst f)) (snd f) r)
              (rows df)
              (zip_with pair (zip_with pair paid dpd) bucket)).
End Features.

(* ------------------------------------------------------------------ *)
(** * Sorting *)

Section Sort.
Variable A : Type.
Variable leb : A -> A -> bool.

Fixpoint insert_sorted (x : A) (l : list A) : list A :=
  match l with
  | [] => [x]
  | y :: l' => if leb x y then x :: l else y :: insert_sorted x l'
  end.

(** A stable sort by [leb].  ([sort_values] does not promise the order of
    equal keys; nothing below depends on it.) *)
Fixpoint sort_by (l : list A) : list A :=
  match l with
  | [] => []
  | x :: l' => insert_sorted x (sort_by l')
  end.
End Sort.

(** [sorted(paths)] for [PosixPath]: the order of the code points. *)
Definition sorted (names : list string) : list string := sort_by String.leb names.

(* ------------------------------------------------------------------ *)
(** * The loader *)

(** What the file system holds for the pipeline: the entries of
    [data/raw] with, for each, the table [pd.read_excel] reads from it, and
    the table [pd.read_csv] reads from [data/processed/ap_clean.csv] when
    that file exists. *)
Record disk : Type := mkDisk {
  raw_dir : list (string * frame);
  clean_csv : option frame
}.

(** [RAW.glob("*.xlsx")] on a POSIX file system, where names are matched
    as they are written. *)
Definition glob_xlsx (d : disk) : list string :=
  filter (endswith ".xlsx") (map fst (raw_dir d)).

Fixpoint read_excel (name : string) (entries : list (string * frame)) : frame :=
  match entries with
  | [] => mkFrame [] []
  | (n, f) :: rest => if String.eqb n name then f else read_excel name rest
  end.

(** [find_excel] of [ap_cleaning.py], on a POSIX file system *)
Definition find_excel (d : disk) : result string :=
  match sorted (glob_xlsx d) with
  | [] => Raise (FileNotFoundError "No Excel file found in data/raw/")
  | f :: _ => Ok f
  end.

(** The same for either flavour of [pathlib].  [Path.glob] matches and
    [sorted] compares the names after the case normalisation of the
    flavour, [normcase]: the identity for [PosixPath], lower-casing for
    [WindowsPath].  The path returned is the name as the directory has
    it. *)
Definition glob_xlsx_on (normcase : string -> string) (d : disk) : list string :=
  filter (fun n => endswith ".xlsx" (normcase n)) (map fst (raw_dir d)).

Definition sorted_on (normcase : string -> string) (names : list string) :
  list string :=
  sort_by (fun a b => String.leb (normcase a) (normcase b)) names.

Definition find_excel_on (normcase : string -> string) (d : disk) : result string :=
  match sorted_on normcase (glob_xlsx_on normcase d) with
  | [] => Raise (FileNotFoundError "No Excel file found in data/raw/")
  | f :: _ => Ok f
  end.

(** [load_clean_or_raw] up to the date conversion, as in both [ap_kpis.py]
    and [ap_reports.py]: the cleaned table when it exists, else the first
    spreadsheet (chosen as on a POSIX file system; which spreadsheet it is
    matters to no property below). *)
Definition load_table {P : Coercions} (d : disk) : result frame :=
  match clean_csv d with
  | Some df => Ok (_safe_to_datetime df)
  | None =>
      match sorted (glob_xlsx d) with
      | [] => Raise (FileNotFoundError "No cleaned CSV or raw Excel found.")
      | f :: _ => Ok (_safe_to_datetime (read_excel f (raw_dir d)))
      end
  end.

(* ------------------------------------------------------------------ *)
(** * Aggregation *)

Definition bucket_rank (b : bucket) : Z :=
  match b with
  | Current => 0 | B0_30 => 1 | B31_60 => 2 | B61_90 => 3 | Over90 => 4
  end.

(** Equality of group keys; a missing key equals nothing. *)
Definition key_eqb (a b : cell) : bool :=
  match a, b with
  | Txt s, Txt t => String.eqb s t
  | Num p, Num q => Qeq_bool p q
  | Ts x, Ts y => (x =? y)%Z
  | Cat x, Cat y => (bucket_rank x =? bucket_rank y)%Z
  | _, _ => false
  end.

Definition kind_rank (c : cell) : Z :=
  match c with Num _ => 0 | Ts _ => 1 | Txt _ => 2 | Cat _ => 3 | NaN => 4 end.

(** Order of group keys: by value inside one kind (category order for
    categories), by kind otherwise. *)
Definition key_leb (a b : cell) : bool :=
  match a, b with
  | Txt s, Txt t => String.leb s t
  | Num p, Num q => Qle_bool p q
  | Ts x, Ts y => (x <=? y)%Z
  | Cat x, Cat y => (bucket_rank x <=? bucket_rank y)%Z
  | _, _ => (kind_rank a <=? kind_rank b)%Z
  end.

(** The distinct keys of a column, missing ones left out
    ([groupby(..., dropna=True)]). *)
Fixpoint unique (keys : list cell) : list cell :=
  match keys with
  | [] => []
  | k :: ks =>
      if isna k then unique ks
      else k :: filter (fun y => negb (key_eqb y k)) (unique ks)
  end.

(** [Series.sum()] of a numeric column: missing values are skipped.  The
    sum is the exact one: pandas adds [float64] values and rounds, so that
    its result agrees with this one up to rounding only. *)
Fixpoint series_sum (s : list cell) : Q :=
  match s with
  | [] => 0%Q
  | Num q :: s' => (q + series_sum s')%Q
  | _ :: s' => series_sum s'
  end.

(** The column has dtype [float64]: numbers and missing values only. *)
Definition numeric_cell (c : cell) : bool :=
  match c with Num _ | NaN => true | _ => false end.

Record group : Type := mkGroup {
  g_key : cell;
  g_amount : Q;
  g_count : nat
}.

(** [df.groupby(key).agg(Amount=("Amount","sum"), Count=(key,"size"))]:
    one line per observed key, in key order.  For a categorical key pandas
    before 3.0 also lists the categories no row has, with sum 0 and count
    0; these lines are left out here. *)
Definition groupby_agg (key : row -> cell) (rws : list row) : list group :=
  map (fun k =>
         let members := filter (fun r => key_eqb (key r) k) rws in
         mkGroup k (series_sum (map Amount members)) (List.length members))
      (sort_by key_leb (unique (map key rws))).

Definition total_amount (gs : list group) : Q :=
  fold_right (fun g acc => (g_amount g + acc)%Q) 0%Q gs.

Module ap_reports.
Section Defs.
Context {P : Coercions}.

Definition load_clean_or_raw (now : Z) (d : disk) : result frame :=
  df <- load_table d ;;
  Ok (_ensure_features now df).

(** [report_aging_open]: the table written to [aging_open.csv]. *)
Definition report_aging_open (df : frame) : result (list group) :=
  _ <- require "IsPaid" df ;;
  _ <- require "AgingBucket" df ;;
  _ <- require "Amount" df ;;
  let open_df := select (s_not (col IsPaid df)) df in
  Ok (sort_by (fun a b => key_leb (g_key a) (g_key b))
              (groupby_agg AgingBucket (rows open_df))).

(** [report_top_vendors]: the table written to [top_vendors.csv]. *)
Definition report_top_vendors (df : frame) (top_n : nat) : result (list group) :=
  _ <- require "Vendor" df ;;
  _ <- require "Amount" df ;;
  Ok (firstn top_n
        (sort_by (fun a b => Qle_bool (g_amount b) (g_amount a))
                 (groupby_agg Vendor (rows df)))).
End Defs.
End ap_reports.

(* ------------------------------------------------------------------ *)
(** * [ap_kpis.py] *)

Inductive pyval : Type :=
| PyNone
| PyInt (z : Z)
| PyFloat (q : Q)
| PyNaN
| PyStr (s : string).

(** The dictionary [kpis], in insertion order. *)
Definition put (k : string) (v : pyval) (d : list (string * pyval)) :
  list (string * pyval) := d ++ [(k, v)].

Fixpoint get (k : string) (d : list (string * pyval)) : option pyval :=
  match d with
  | [] => None
  | (k', v) :: d' => if String.eqb k' k then Some v else get k d'
  end.

(** Division of two Python floats. *)
Definition py_div (x y : Q) : result Q :=
  if Qeq_bool y 0%Q then Raise ZeroDivisionError else Ok (x / y)%Q.

Fixpoint somes {A} (l : list (option A)) : list A :=
  match l with
  | [] => []
  | Some x :: l' => x :: somes l'
  | None :: l' => somes l'
  end.

Definition sumZ (l : list Z) : Z := fold_right Z.add 0%Z l.

(** [Series.mean()]: missing values skipped; not-a-number when nothing is
    left. *)
Definition mean (l : list (option Z)) : pyval :=
  match somes l with
  | [] => PyNaN
  | vs => PyFloat (inject_Z (sumZ vs) / inject_Z (Z.of_nat (List.length vs)))%Q
  end.

(** [Series.median()], likewise. *)
Definition median (l : list (option Z)) : pyval :=
  let vs := sort_by Z.leb (somes l) in
  let n := List.length vs in
  match n with
  | O => PyNaN
  | _ =>
      if Nat.odd n then PyFloat (inject_Z (nth (n / 2) vs 0%Z))
      else PyFloat ((inject_Z (nth (n / 2 - 1) vs 0%Z)
                     + inject_Z (nth (n / 2) vs 0%Z)) / 2)%Q
  end.

(** The first maximal run of decimal digits of a text, as a number. *)
Fixpoint digits_prefix (s : string) (acc : Z) : Z :=
  match s with
  | String c r => if is_digit c then digits_prefix r (10 * acc + digit_val c)%Z else acc
  | EmptyString => acc
  end.

Fixpoint first_int (s : string) : option Z :=
  match s with
  | EmptyString => None
  | String c r => if is_digit c then Some (digits_prefix s 0%Z) else first_int r
  end.

Definition between (lo hi : Z) (v : option Z) : bool :=
  match v with
  | Some x => (lo <=? x)%Z && (x <=? hi)%Z
  | None => false
  end.

Module ap_kpis.
Section Defs.
Context {P : Coercions}.

Definition load_clean_or_raw (d : disk) : result frame := load_table d.

Definition _parse_terms_days (s : cell) : option Z :=
  if isna s then None else first_int (astype_str s).

Definition float_sum (has_amount : bool) (s : list cell) : pyval :=
  if has_amount then PyFloat (series_sum s) else PyNone.

(** Lines 82-84. *)
Definition pct_overdue (overdue_amount open_amount : pyval) : result pyval :=
  match open_amount with
  | PyFloat o =>
      if Qeq_bool o 0%Q then Ok PyNone
      else match overdue_amount with
           | PyFloat v => q <- py_div v o ;; Ok (PyFloat (q * 100)%Q)
           | _ => Ok PyNone
           end
  | _ => Ok PyNone
  end.

(** Lines 87-93. *)
Definition vendor_kpis (df : frame) (k : list (string * pyval)) :
  list (string * pyval) :=
  if has "Vendor" df && has "Amount" df then
    let vendor_sum :=
      sort_by (fun a b => Qle_bool (g_amount b) (g_amount a))
              (groupby_agg Vendor (rows df)) in
    let top10 := total_amount (firstn 10 vendor_sum) in
    let total_amt := total_amount vendor_sum in
    let k := put "top10_vendor_share_pct"
                 (if Qeq_bool total_amt 0%Q then PyNone
                  else PyFloat (top10 / total_amt * 100)%Q) k in
    let k := put "top_vendor_name"
                 (match vendor_sum with
                  | g :: _ => PyStr (astype_str (g_key g))
                  | [] => PyNone
                  end) k in
    put "top_vendor_amount"
        (match vendor_sum with
         | g :: _ => PyFloat (g_amount g)
         | [] => PyNone
         end) k
  else k.

(** Lines 96-101. *)
Definition days_to_pay_kpis (df : frame) (k : list (string * pyval)) :
  list (string * pyval) :=
  if has "InvoiceDate" df && has "PaidDate" df then
    let paid := loc (col IsPaid df) (rows df) in
    let DaysToPay := map (fun r => sub_days (PaidDate r) (InvoiceDate r)) paid in
    match paid with
    | [] => k
    | _ => put "days_to_pay_median" (median DaysToPay)
               (put "days_to_pay_avg" (mean DaysToPay) k)
    end
  else k.

(** Lines 104-109. *)
Definition delay_kpis (df : frame) (k : list (string * pyval)) :
  list (string * pyval) :=
  if has "DueDate" df && has "PaidDate" df then
    let paid2 := loc (col IsPaid df) (rows df) in
    let DelayVsDue := map (fun r => sub_days (PaidDate r) (DueDate r)) paid2 in
    let late := filter (fun v => match v with Some d => (0 <? d)%Z | None => false end)
                       DelayVsDue in
    match paid2 with
    | [] => k
    | _ => put "delay_vs_due_pct_late"
               (PyFloat (inject_Z (Z.of_nat (List.length late))
                         / inject_Z (Z.of_nat (List.length paid2)) * 100)%Q)
               (put "delay_vs_due_avg" (mean DelayVsDue) k)
    end
  else k.

(** Lines 112-115. *)
Definition cash_out_kpis (today : Z) (open_mask : list bool) (df : frame)
  (k : list (string * pyval)) : list (string * pyval) :=
  if has "DueDate" df && has "Amount" df then
    let horizon := map (fun d => sub_days d (Ts today)) (col DueDate df) in
    let due_in n := series_sum (loc (s_and open_mask (map (between 0 n) horizon))
                                    (col Amount df)) in
    put "cash_out_next_30" (PyFloat (due_in 30%Z))
        (put "cash_out_next_7" (PyFloat (due_in 7%Z)) k)
  else k.

(** Lines 127-131. *)
Definition terms_kpis (df : frame) (k : list (string * pyval)) :
  list (string * pyval) :=
  if has "Terms" df then
    let terms_days := map _parse_terms_days (col Terms df) in
    match somes terms_days with
    | [] => k
    | _ => put "terms_days_median" (median terms_days)
               (put "terms_days_avg" (mean terms_days) k)
    end
  else k.

(** Lines 66-131 of [main]: the dictionary [kpis] of a featured table.
    The currency breakdown, which goes to a file of its own and not into
    [kpis], is left out. *)
Definition compute_kpis (now : Z) (df : frame) : result (list (string * pyval)) :=
  let today := normalize now in
  let has_amount := has "Amount" df in
  let k := put "invoices_total" (PyInt (Z.of_nat (List.length (rows df)))) [] in
  let k := put "amount_total" (float_sum has_amount (col Amount df)) k in
  let open_mask := s_not (col IsPaid df) in
  let overdue_mask :=
    s_and open_mask (map (fun d => (0 <? d)%Z) (col DaysPastDue df)) in
  let k := put "open_count" (PyInt (Z.of_nat (s_count open_mask))) k in
  let open_amount := float_sum has_amount (loc open_mask (col Amount df)) in
  let k := put "open_amount" open_amount k in
  let k := put "overdue_count" (PyInt (Z.of_nat (s_count overdue_mask))) k in
  let overdue_amount := float_sum has_amount (loc overdue_mask (col Amount df)) in
  let k := put "overdue_amount" overdue_amount k in
  pct <- pct_overdue overdue_amount open_amount ;;
  let k := put "pct_overdue_amount" pct k in
  let k := vendor_kpis df k in
  let k := days_to_pay_kpis df k in
  let k := delay_kpis df k in
  let k := cash_out_kpis today open_mask df k in
  Ok (terms_kpis df k).

Definition main (now : Z) (d : disk) : result (list (string * pyval)) :=
  df <- load_clean_or_raw d ;;
  compute_kpis now (_ensure_features now df).
End Defs.
End ap_kpis.

(* ------------------------------------------------------------------ *)
(** * [safe_save_csv]: the file system and its locks *)

Record path : Type := mkPath {
  parent : string;
  stem : string;
  suffix : string
}.

Definition path_eqb (p q : path) : bool :=
  String.eqb (parent p) (parent q) && String.eqb (stem p) (stem q)
  && String.eqb (suffix p) (suffix q).

(** [p.with_suffix(s)] and [p.with_name(p.stem + extra + p.suffix)] *)
Definition with_suffix (s : string) (p : path) : path :=
  mkPath (parent p) (stem p) s.

Definition with_stem_extra (extra : string) (p : path) : path :=
  mkPath (parent p) (stem p ++ extra)%string (suffix p).

Definition path_str (p : path) : string :=
  (parent p ++ "/" ++ stem p ++ suffix p)%string.

(** What the function does to the outside world, in order. *)
Inductive event : Type :=
| EvWrite (p : path)              (* [df.to_csv(p)] completed *)
| EvReplace (src dst : path)      (* [os.replace(src, dst)] completed *)
| EvUnlink (p : path)             (* [p.unlink()] completed *)
| EvSleep (seconds : Q)           (* [time.sleep] *)
| EvPrint (msg : string).         (* [print] *)

(** How one pass through the [try] block ends.  A [PermissionError] comes
    either from writing the temporary file or from replacing the
    destination; the handler then removes the temporary file when it
    exists, and that removal may fail too (the failure is swallowed).
    Exceptions of other kinds are not caught by the function and are not
    part of this model. *)
Inductive attempt : Type :=
| Replaced
| WriteLocked (unlink_ok : bool)
| ReplaceLocked (unlink_ok : bool).

Record env : Type := mkEnv {
  attempts : nat -> attempt;   (* the outcome of the i-th pass *)
  fallback_locked : bool;      (* does the write of the fallback file fail *)
  clock : Z                    (* [int(time.time())] after the loop *)
}.

Section SafeSave.
Variable content : Type.

Record world : Type := mkWorld {
  files : path -> option content;
  trace : list event
}.

Definition fs_write (p : path) (c : content) (w : world) : world :=
  mkWorld (fun q => if path_eqb q p then Some c else files w q)
          (trace w ++ [EvWrite p]).

Definition fs_replace (src dst : path) (w : world) : world :=
  mkWorld (fun q => if path_eqb q dst then files w src
                    else if path_eqb q src then None else files w q)
          (trace w ++ [EvReplace src dst]).

Definition fs_unlink (p : path) (w : world) : world :=
  mkWorld (fun q => if path_eqb q p then None else files w q)
          (trace w ++ [EvUnlink p]).

Definition log (e : event) (w : world) : world :=
  mkWorld (files w) (trace w ++ [e]).

(** The [except PermissionError] handler (lines 34-39). *)
Definition handler (tmp : path) (unlink_ok : bool) (sleep_s : Q) (w : world) : world :=
  let w := match files w tmp with
           | Some _ => if unlink_ok then fs_unlink tmp w else w
           | None => w
           end in
  log (EvSleep sleep_s) w.

(** The loop [for i in range(retries)], from pass [i] on, with [todo]
    passes left: the world reached, and whether a pass returned. *)
Fixpoint retry_loop (e : env) (df : content) (tmp out_path : path) (sleep_s : Q)
  (todo i : nat) (w : world) : world * bool :=
  match todo with
  | O => (w, false)
  | S todo' =>
      match attempts e i with
      | Replaced =>
          (fs_replace tmp out_path (fs_write tmp df w), true)
      | WriteLocked u =>
          retry_loop e df tmp out_path sleep_s todo' (S i) (handler tmp u sleep_s w)
      | ReplaceLocked u =>
          retry_loop e df tmp out_path sleep_s todo' (S i)
                     (handler tmp u sleep_s (fs_write tmp df w))
      end
  end.

Definition fallback_path (e : env) (out_path : path) : path :=
  with_stem_extra ("_" ++ str_int (clock e)) out_path.

Definition warning (out_path fallback : path) : string :=
  ("[WARN] Could not write to " ++ path_str out_path
   ++ " (locked). Saved to fallback: " ++ path_str fallback)%string.

Definition safe_save_csv (e : env) (df : content) (out_path : path)
  (retries : nat) (sleep_s : Q) (w : world) : result unit * world :=
  let tmp := with_suffix ".tmp" out_path in
  let '(w, returned) := retry_loop e df tmp out_path sleep_s retries 0 w in
  if returned then (Ok tt, w)
  else
    let fallback := fallback_path e out_path in
    if fallback_locked e then (Raise PermissionError, w)
    else (Ok tt, log (EvPrint (warning out_path fallback)) (fs_write fallback df w)).
End SafeSave.

Arguments mkWorld {content} files trace.
Arguments files {content} w p.
Arguments trace {content} w.

(** The defaults of the signature. *)
Definition default_retries : nat := 5.
Definition default_sleep_s : Q := (1 # 2)%Q.

(* ------------------------------------------------------------------ *)
(** * One concrete reading of the coercions

    Enough of pandas to run the code on explicit tables: plain decimal
    literals, ISO dates, and the usual renderings.  Text outside these
    forms is answered as not convertible. *)

Module Std.

Fixpoint scan_digits (s : string) (acc : Z) (n : nat) : Z * nat * string :=
  match s with
  | String c r =>
      if is_digit c then scan_digits r (10 * acc + digit_val c)%Z (S n)
      else (acc, n, s)
  | EmptyString => (acc, n, s)
  end.

Definition signed (neg : bool) (q : Q) : Q := if neg then (- q)%Q else q.

(** An optional sign, digits, and an optional point followed by digits;
    at least one digit in all. *)
Definition parse_decimal (s : string) : option Q :=
  let s := strip s in
  let '(neg, s) :=
    match s with
    | String "-" r => (true, r)
    | String "+" r => (false, r)
    | _ => (false, s)
    end in
  let '(ip, ni, rest) := scan_digits s 0%Z 0 in
  match rest with
  | EmptyString =>
      if Nat.eqb ni 0 then None else Some (signed neg (inject_Z ip))
  | String "." r =>
      let '(fp, nf, rest') := scan_digits r 0%Z 0 in
      match rest' with
      | EmptyString =>
          if Nat.eqb (ni + nf) 0 then None
          else Some (signed neg
                       (Qred (Qmake (ip * 10 ^ Z.of_nat nf + fp)
                                    (Z.to_pos (10 ^ Z.of_nat nf)))))
      | _ => None
      end
  | _ => None
  end.

(** Days since 1970-01-01 of a civil date, and back. *)
Definition days_from_civil (y m d : Z) : Z :=
  let y := if (m <=? 2)%Z then (y - 1)%Z else y in
  let era := (y / 400)%Z in
  let yoe := (y - era * 400)%Z in
  let mp := if (2 <? m)%Z then (m - 3)%Z else (m + 9)%Z in
  let doy := ((153 * mp + 2) / 5 + d - 1)%Z in
  let doe := (yoe * 365 + yoe / 4 - yoe / 100 + doy)%Z in
  (era * 146097 + doe - 719468)%Z.

Definition civil_from_days (z : Z) : Z * Z * Z :=
  let z := (z + 719468)%Z in
  let era := (z / 146097)%Z in
  let doe := (z - era * 146097)%Z in
  let yoe := ((doe - doe / 1460 + doe / 36524 - doe / 146096) / 365)%Z in
  let doy := (doe - (365 * yoe + yoe / 4 - yoe / 100))%Z in
  let mp := ((5 * doy + 2) / 153)%Z in
  let d := (doy - (153 * mp + 2) / 5 + 1)%Z in
  let m := if (mp <? 10)%Z then (mp + 3)%Z else (mp - 9)%Z in
  let y := (yoe + era * 400)%Z in
  (if (m <=? 2)%Z then (y + 1)%Z else y, m, d).

Definition all_digits (s : string) : bool :=
  let '(_, n, rest) := scan_digits s 0%Z 0 in
  Nat.eqb n (String.length s) && String.eqb rest "".

Definition number_of (s : string) : Z :=
  let '(v, _, _) := scan_digits s 0%Z 0 in v.

(** [YYYY-MM-DD] *)
Definition parse_iso_date (s : string) : option Z :=
  let s := strip s in
  let ys := substring 0 4 s in
  let ms := substring 5 2 s in
  let ds := substring 8 2 s in
  if Nat.eqb (String.length s) 10
     && String.eqb (substring 4 1 s) "-" && String.eqb (substring 7 1 s) "-"
     && all_digits ys && all_digits ms && all_digits ds
  then
    let y := number_of ys in
    let m := number_of ms in
    let d := number_of ds in
    let days := days_from_civil y m d in
    let '(y', m', d') := civil_from_days days in
    if (y =? y')%Z && (m =? m')%Z && (d =? d')%Z
    then Some (days * ns_per_day)%Z else None
  else None.

Definition pad (width : nat) (z : Z) : string :=
  let s := str_int z in
  (string_of_list_ascii (repeat "0"%char (width - String.length s)) ++ s)%string.

(** Date only at midnight, date and time otherwise. *)
Definition render_timestamp (t : Z) : string :=
  let days := (t / ns_per_day)%Z in
  let secs := ((t mod ns_per_day) / 1000000000)%Z in
  let '(y, m, d) := civil_from_days days in
  let date := (pad 4 y ++ "-" ++ pad 2 m ++ "-" ++ pad 2 d)%string in
  if (t mod ns_per_day =? 0)%Z then date
  else (date ++ " " ++ pad 2 (secs / 3600) ++ ":" ++ pad 2 (secs / 60 mod 60)
        ++ ":" ++ pad 2 (secs mod 60))%string.

Fixpoint frac_digits (fuel : nat) (r d : Z) : string :=
  match fuel with
  | O => EmptyString
  | S fuel' =>
      let r10 := (10 * r)%Z in
      (str_int (r10 / d) ++
       (if (r10 mod d =? 0)%Z then EmptyString else frac_digits fuel' (r10 mod d) d))%string
  end.

(** The rendering of a float: [100.0], [100.5], [-0.25]. *)
Definition render_number (q : Q) : string :=
  let q := Qred q in
  let n := Z.abs (Qnum q) in
  let d := Zpos (Qden q) in
  ((if (Qnum q <? 0)%Z then "-" else "")
   ++ str_int (n / d) ++ "." ++ frac_digits 17 (n mod d) d)%string.

Definition integral_number (q : Q) : option Z :=
  let q := Qred q in
  if Pos.eqb (Qden q) 1 then Some (Qnum q) else None.

Definition no_number (t : Z) : option Q := None.

End Std.

Definition pandas_std : Coercions := {|
  parse_number := Std.parse_decimal;
  parse_datetime := Std.parse_iso_date;
  number_to_datetime := Std.integral_number;
  datetime_to_number := Std.no_number;
  str_number := Std.render_number;
  str_timestamp := Std.render_timestamp
|}.

(* ------------------------------------------------------------------ *)
(** * Row-wise reading of the cleaning masks

    The masks of [ap_cleaning.main] are built column by column; these are
    the same tests on one row of [df_chk]. *)

Section RowWise.
Context {P : Coercions}.

Definition row_apid_missing (r : row) : bool :=
  isna (APID r) || String.eqb (strip (astype_str (APID r))) "".

Definition row_amt_invalid (r : row) : bool :=
  isna (to_numeric (Amount r)) || num_le0 (to_numeric (Amount r)).

Definition row_dates_invalid (r : row) : bool :=
  isna (InvoiceDate r) || isna (DueDate r).

Definition row_due_before (r : row) : bool :=
  ts_lt (DueDate r) (InvoiceDate r).

Definition row_ccy_invalid (r : row) : bool :=
  negb (isin ap_cleaning.ALLOWED_CCY (strip (astype_str (Currency r)))).

Definition row_invalid (r : row) : bool :=
  row_apid_missing r || row_amt_invalid r || row_dates_invalid r
  || row_due_before r || row_ccy_invalid r.

(** The composite key of one row of [df_chk]. *)
Definition row_key (r : row) : string :=
  ap_cleaning.sep
    (ap_cleaning.sep
       (ap_cleaning.sep (astype_str (APID r)) (astype_str (Vendor r)))
       (astype_str_dt (InvoiceDate r)))
    (astype_str (Amount r)).

(** The composite key of one row of the cleaned table, as the check
    after cleaning computes it. *)
Definition row_key_clean (r : row) : string :=
  ap_cleaning.sep
    (ap_cleaning.sep
       (ap_cleaning.sep (astype_str (APID r)) (astype_str (Vendor r)))
       (astype_str (InvoiceDate r)))
    (astype_str (Amount r)).

Definition row_dropped (table : list row) (r : row) : bool :=
  row_invalid r
  || Nat.leb 2 (count_occ string_dec (map row_key table) (row_key r)).

(** The record-level invariants of a clean record, on a row of the
    cleaned table. *)
Definition clean_record (r : row) : Prop :=
  isna (APID r) = false
  /\ strip (astype_str (APID r)) <> EmptyString
  /\ (exists q, Amount r = Num q /\ to_numeric (Amount r) = Num q /\ (0 < q)%Q)
  /\ (exists i d, to_datetime (InvoiceDate r) = Ts i
                  /\ to_datetime (DueDate r) = Ts d /\ (i <= d)%Z)
  /\ isin ap_cleaning.ALLOWED_CCY (strip (astype_str (Currency r))) = true.

End RowWise.

(** ** Row-wise reading of the derived columns *)

Section FeatureRows.
Context {P : Coercions}.

Definition row_is_paid (df : frame) (r : row) : bool :=
  (has "Status" df && String.eqb (lower (astype_str (Status r))) "paid")
  || (has "PaidDate" df && notna (PaidDate r)).

Definition row_days_past_due (today : Z) (df : frame) (r : row) : Z :=
  if has "DueDate" df then
    clip_lower0
      (fillna0
         (if row_is_paid df r
          then (if has "PaidDate" df then sub_days (PaidDate r) (DueDate r) else None)
          else sub_days (Ts today) (DueDate r)))
  else 0%Z.

Definition row_bucket (today : Z) (df : frame) (r : row) : cell :=
  if has "AgingBucket" df then AgingBucket r
  else cut (row_days_past_due today df r).

Definition featured_row (today : Z) (df : frame) (r : row) : row :=
  set_features (row_is_paid df r) (row_days_past_due today df r)
               (row_bucket today df r) r.
End FeatureRows.

(** ** Vocabulary of the aggregation properties *)

(** The value a cell adds to [Series.sum()]. *)
Definition amt (c : cell) : Q :=
  match c with Num q => q | _ => 0%Q end.

(** The open invoices of a featured table: [df.loc[~df["IsPaid"]]]. *)
Definition open_rows (df : frame) : list row :=
  loc (s_not (col IsPaid df)) (rows df).

(** How many of the keys [U] equal the key [k]. *)
Definition matches (k : cell) (U : list cell) : nat :=
  List.length (filter (key_eqb k) U).

(** A sum of amounts in which every row counts [w r] times. *)
Fixpoint wsum (w : row -> nat) (rws : list row) : Q :=
  match rws with
  | [] => 0%Q
  | r :: rws' => (inject_Z (Z.of_nat (w r)) * amt (Amount r) + wsum w rws')%Q
  end.

(** The sums of one key column's groups, over a list of keys. *)
Definition sum_groups (key : row -> cell) (U : list cell) (rws : list row) : Q :=
  fold_right
    (fun k acc =>
       (series_sum (map Amount (filter (fun r => key_eqb (key r) k) rws)) + acc)%Q)
    0%Q U.

(** Conservation of sums, as the specification words it, for the table
    derived from [df0] at the time [now] and the default [top_n]. *)
Definition sums_conserved {P : Coercions} (now : Z) (df0 : frame) : Prop :=
  let df := _ensure_features now (_safe_to_datetime df0) in
  (forall gs, ap_reports.report_aging_open df = Ok gs ->
              (total_amount gs == series_sum (map Amount (open_rows df)))%Q)
  /\ (forall gs, ap_reports.report_top_vendors df 10 = Ok gs ->
                 (total_amount gs == series_sum (col Amount df))%Q).

(** ** Vocabulary of the KPI properties *)

(** The first seven entries of [kpis], [pct] being the value computed for
    [pct_overdue_amount]. *)
Definition base_kpis (df : frame) (pct : pyval) : list (string * pyval) :=
  [("invoices_total"%string, PyInt (Z.of_nat (List.length (rows df))));
   ("amount_total"%string, ap_kpis.float_sum (has "Amount" df) (col Amount df));
   ("open_count"%string, PyInt (Z.of_nat (s_count (s_not (col IsPaid df)))));
   ("open_amount"%string,
    ap_kpis.float_sum (has "Amount" df)
                      (loc (s_not (col IsPaid df)) (col Amount df)));
   ("overdue_count"%string,
    PyInt (Z.of_nat (s_count (s_and (s_not (col IsPaid df))
                                    (map (fun d => (0 <? d)%Z) (col DaysPastDue df))))));
   ("overdue_amount"%string,
    ap_kpis.float_sum (has "Amount" df)
                      (loc (s_and (s_not (col IsPaid df))
                                  (map (fun d => (0 <? d)%Z) (col DaysPastDue df)))
                           (col Amount df)));
   ("pct_overdue_amount"%string, pct)].

(** ** Vocabulary of the write properties *)

(** The delays slept and the paths written in a stretch of the trace. *)
Definition sleeps_of (t : list event) : list Q :=
  flat_map (fun ev => match ev with EvSleep s => [s] | _ => [] end) t.

Definition writes_of (t : list event) : list path :=
  flat_map (fun ev => match ev with EvWrite p => [p] | _ => [] end) t.

Definition prints_of (t : list event) : list string :=
  flat_map (fun ev => match ev with EvPrint m => [m] | _ => [] end) t.

(** ** Explicit tables *)

Definition raw_columns : list string :=
  ["APID"; "Vendor"; "InvoiceDate"; "DueDate"; "PaidDate"; "Amount"; "Currency";
   "Status"; "Terms"]%string.

(** 2024-01-01 and 2024-01-31, at midnight. *)
Definition jan01 : Z := (19723 * ns_per_day)%Z.
Definition jan31 : Z := (19753 * ns_per_day)%Z.

(** An unpaid invoice in USD, invoiced on 2024-01-01 and due on
    2024-01-31. *)
Definition invoice (apid vendor : string) (amount : cell) : row :=
  mkRow (Txt apid) (Txt vendor) (Ts jan01) (Ts jan31) NaN amount (Txt "USD")
        NaN NaN false 0%Z NaN.

(** A spreadsheet whose [Amount] cells are text cells: [100], [100.0] and
    [abc].  The third cell is no number, so [pd.read_excel] cannot turn
    the column into numbers and hands it over as it is, a column of text.
    The first two invoices differ only in how the amount is typed. *)
Definition text_amounts : frame :=
  mkFrame raw_columns
          [invoice "A1" "Acme" (Txt "100"); invoice "A1" "Acme" (Txt "100.0");
           invoice "A2" "Bolt" (Txt "abc")].

(** 2024-03-01, at half past nine in the morning. *)
Definition mar01_morning : Z := (19783 * ns_per_day + 34200000000000)%Z.

(** One open invoice due on 2024-01-31, as text, the way [read_csv] hands
    dates over. *)
Definition one_open_invoice : frame :=
  mkFrame raw_columns
          [mkRow (Txt "A1") (Txt "Acme") (Txt "2024-01-01") (Txt "2024-01-31") NaN
                 (Num 100) (Txt "USD") NaN NaN false 0%Z NaN].

(** Eleven open invoices of 1 USD, each from another vendor. *)
Definition eleven_vendors : frame :=
  mkFrame raw_columns
          (map (fun v => invoice v v (Num 1))
               ["V01"; "V02"; "V03"; "V04"; "V05"; "V06"; "V07"; "V08"; "V09";
                "V10"; "V11"]%string).

(** Two open invoices of 1 USD, one of them without a vendor. *)
Definition vendor_missing : frame :=
  mkFrame raw_columns
          [invoice "A1" "Acme" (Num 1);
           mkRow (Txt "A2") NaN (Ts jan01) (Ts jan31) NaN (Num 1) (Txt "USD")
                 NaN NaN false 0%Z NaN].

(** A table that brings its own [AgingBucket] column, blank on one of its
    two open invoices. *)
Definition bucket_given : frame :=
  mkFrame (raw_columns ++ ["AgingBucket"%string])
          [mkRow (Txt "A1") (Txt "Acme") (Ts jan01) (Ts jan31) NaN (Num 1) (Txt "USD")
                 NaN NaN false 0%Z (Txt "Current");
           mkRow (Txt "A2") (Txt "Acme") (Ts jan01) (Ts jan31) NaN (Num 1) (Txt "USD")
                 NaN NaN false 0%Z NaN].

(** The row derived from [one_open_invoice] on 2024-03-01: thirty days
    past due. *)
Definition thirty_days_late : row :=
  mkRow (Txt "A1") (Txt "Acme") (Ts jan01) (Ts jan31) NaN (Num 100) (Txt "USD")
        NaN NaN false 30%Z (Cat B0_30).

(** One invoice, paid on its due date. *)
Definition one_paid_invoice : frame :=
  mkFrame raw_columns
          [mkRow (Txt "A1") (Txt "Acme") (Ts jan01) (Ts jan31) (Ts jan31) (Num 100)
                 (Txt "USD") (Txt "Paid") (Txt "Net 30") false 0%Z NaN].

(** [data/processed/ap_clean.csv] *)
Definition out_csv : path := mkPath "data/processed" "ap_clean" ".csv".

(** The destination is held open by a viewer for the whole run: every pass
    writes the temporary file and fails to replace the destination. *)
Definition viewer_holds_destination : env :=
  mkEnv (fun _ => ReplaceLocked true) false 1700000000%Z.

(** The destination is released after two failed passes. *)
Definition released_after_two : env :=
  mkEnv (fun i => if Nat.ltb i 2 then ReplaceLocked true else Replaced) false
        1700000000%Z.

Definition empty_world : world frame := mkWorld (fun _ => None) [].

(** The same invoice entered twice. *)
Definition twins : frame :=
  mkFrame raw_columns
          [invoice "A1" "Acme" (Num 100); invoice "A1" "Acme" (Num 100)].

(** A raw directory with two spreadsheets and a text file, and no cleaned
    table yet; the same directory once a cleaned table exists. *)
Definition raw_only : disk :=
  mkDisk [("b.xlsx"%string, twins); ("notes.txt"%string, mkFrame [] []);
          ("a.xlsx"%string, one_open_invoice)]
         None.

Definition with_cache : disk :=
  mkDisk (raw_dir raw_only) (Some one_paid_invoice).

(** ** Vocabulary of the further properties *)

(** The columns [ap_cleaning.main] indexes without asking, in the order in
    which it reaches them. *)
Definition REQUIRED_BY_CLEANER : list string :=
  ["APID"; "Amount"; "InvoiceDate"; "DueDate"; "Currency"; "Vendor"]%string.

Definition first_missing (cols : list string) (df : frame) : option string :=
  find (fun c => negb (has c df)) cols.

(** Three invoices that differ in the amount: 0, -5 and 100.5. *)
Definition three_amounts : frame :=
  mkFrame raw_columns
          [invoice "A1" "Acme" (Num 0); invoice "A2" "Acme" (Num (-5));
           invoice "A3" "Acme" (Num (201 # 2))].

(** A table that has no [Currency] column. *)
Definition no_currency_column : frame :=
  mkFrame ["APID"; "Vendor"; "InvoiceDate"; "DueDate"; "Amount"]%string
          [invoice "A1" "Acme" (Num 100)].

(** The invoice of 100.5 alone. *)
Definition single_clean : frame :=
  mkFrame raw_columns [invoice "A3" "Acme" (Num (201 # 2))].

(** What a row of the dashboard's cleaned table looks like, in a table with
    the columns of [df]: the key fields are there, the amount is a
    positive number, both dates are timestamps in order, and the columns
    the cleaning rewrites hold what it writes. *)
Definition dashboard_record {P : Coercions} (df : frame) (r : row) : Prop :=
  (isna (APID r) = false /\ strip (astype_str (APID r)) <> EmptyString)
  /\ (exists q, Amount r = Num q /\ (0 < q)%Q)
  /\ (exists i d, InvoiceDate r = Ts i /\ DueDate r = Ts d /\ (i <= d)%Z)
  /\ (has "PaidDate" df = true -> to_datetime (PaidDate r) = PaidDate r)
  /\ (has "Currency" df = true ->
      exists s, Currency r = Txt s /\ isin app.ALLOWED_CCY s = true).

(** ** [compute_features] of [app.py]

    The dashboard derives the same three columns as [_ensure_features], by
    a text of its own: it indexes [DueDate] without asking, takes 0 where
    there is no [PaidDate] column, does not fill missing day counts, and
    always recomputes [AgingBucket].  [DaysPastDue] is a float column there
    and may hold a missing value, so the three columns are given beside
    the rows. *)
Record derived : Type := mkDerived {
  d_paid : bool;
  d_days : option Z;
  d_bucket : cell
}.

(** [pd.cut] of a float column: a missing value falls in no bin. *)
Definition cut_opt (v : option Z) : cell :=
  match v with Some d => cut d | None => NaN end.

Definition compute_features {P : Coercions} (now : Z) (df : frame) :
  result (list derived) :=
  let paid := is_paid_col df in
  let today := normalize now in
  _ <- require "DueDate" df ;;
  let dpd_today := map (fun d => sub_days (Ts today) d) (col DueDate df) in
  let dpd_paid :=
    if has "PaidDate" df
    then zip_with sub_days (col PaidDate df) (col DueDate df)
    else map (fun _ => Some 0%Z) (rows df) in
  let arr :=
    zip_with (fun (p : bool) (v : option Z * option Z) =>
                if p then fst v else snd v)
             paid (zip_with pair dpd_paid dpd_today) in
  let arr := map (option_map clip_lower0) arr in
  Ok (zip_with (fun (p : bool) (d : option Z) => mkDerived p d (cut_opt d)) paid arr).

(** One row of [compute_features]. *)
Definition derived_row {P : Coercions} (today : Z) (df : frame) (r : row) : derived :=
  let d := option_map clip_lower0
             (if row_is_paid df r
              then (if has "PaidDate" df then sub_days (PaidDate r) (DueDate r)
                    else Some 0%Z)
              else sub_days (Ts today) (DueDate r)) in
  mkDerived (row_is_paid df r) d (cut_opt d).

(** The rank of a bucket cell in the category order; a cell that is no
    bucket has none. *)
Definition cell_rank (c : cell) : option Z :=
  match c with Cat b => Some (bucket_rank b) | _ => None end.

(** An invoice marked as paid that has no payment date, due on
    2024-01-31. *)
Definition paid_without_date : frame :=
  mkFrame raw_columns
          [mkRow (Txt "A1") (Txt "Acme") (Ts jan01) (Ts jan31) NaN (Num 100)
                 (Txt "USD") (Txt "Paid") NaN false 0%Z NaN].

(** A table without a [DueDate] column. *)
Definition no_due_date : frame :=
  mkFrame ["APID"; "Vendor"; "InvoiceDate"; "Amount"]%string
          [invoice "A1" "Acme" (Num 100)].

(** 2024-04-15, at midnight. *)
Definition apr15 : Z := (19828 * ns_per_day)%Z.

(** ** [report_cash_weekly] of [ap_reports.py] *)

(** [Timestamp.to_period("W").start_time]: the weeks of pandas run from
    Monday to Sunday, and 1970-01-01 was a Thursday. *)
Definition week_start (t : Z) : Z :=
  let d := (t / ns_per_day)%Z in
  ((d - (d + 3) mod 7) * ns_per_day)%Z.

(** The column [DueWeek].  The [.dt] accessor exists on a datetime column,
    which is what [load_clean_or_raw] hands over: a time stamp or a
    missing value in every cell. *)
Definition due_week (c : cell) : cell :=
  match c with Ts t => Ts (week_start t) | _ => NaN end.

(** The table written to [cash_weekly.csv]: one line per week, with the
    columns [DueWeek] and [Amount]. *)
Definition report_cash_weekly (df : frame) : result (list (cell * Q)) :=
  _ <- require "IsPaid" df ;;
  let open_df := select (s_not (col IsPaid df)) df in
  _ <- require "DueDate" open_df ;;
  _ <- require "Amount" open_df ;;
  let grp := groupby_agg (fun r => due_week (DueDate r)) (rows open_df) in
  Ok (sort_by (fun a b => key_leb (fst a) (fst b))
              (map (fun g => (g_key g, g_amount g)) grp)).

(** ** Vocabulary of the report properties *)

Definition total_count (gs : list group) : nat :=
  fold_right (fun g acc => g_count g + acc) 0 gs.

Definition total_of (ws : list (cell * Q)) : Q :=
  fold_right (fun w acc => (snd w + acc)%Q) 0%Q ws.

(** Largest amount first. *)
Definition descending (gs : list group) : Prop :=
  StronglySorted (fun a b => (g_amount b <= g_amount a)%Q) gs.

(** Keys in their order, and no key on two lines. *)
Definition key_order (ks : list cell) : Prop :=
  StronglySorted (fun a b => key_leb a b = true) ks.

Definition each_key_once (ks : list cell) : Prop :=
  forall k, matches k ks <= 1.

(** A cell of a datetime column. *)
Definition datetime_cell (c : cell) : bool :=
  match c with Ts _ | NaN => true | _ => false end.

(** A time stamp that falls on a Monday at midnight. *)
Definition monday_midnight (m : Z) : Prop :=
  (m mod ns_per_day = 0)%Z /\ ((m / ns_per_day + 3) mod 7 = 0)%Z.

(** Three open invoices of Acme due on Wednesday 2024-01-31, on Friday
    2024-02-02 and on Monday 2024-02-05, and one of Bolt without a due
    date. *)
Definition due_in_two_weeks : frame :=
  mkFrame raw_columns
          [mkRow (Txt "A1") (Txt "Acme") (Ts jan01) (Ts jan31) NaN (Num 10)
                 (Txt "USD") NaN NaN false 0%Z NaN;
           mkRow (Txt "A2") (Txt "Acme") (Ts jan01) (Ts (19755 * ns_per_day)) NaN (Num 20)
                 (Txt "USD") NaN NaN false 0%Z NaN;
           mkRow (Txt "A3") (Txt "Acme") (Ts jan01) (Ts (19758 * ns_per_day)) NaN (Num 40)
                 (Txt "USD") NaN NaN false 0%Z NaN;
           mkRow (Txt "A4") (Txt "Bolt") (Ts jan01) NaN NaN (Num 80)
                 (Txt "USD") NaN NaN false 0%Z NaN].

(** ** Vocabulary of the further KPI properties *)

(** A cell of an [Amount] column that holds no negative amount. *)
Definition nonneg_cell (c : cell) : bool :=
  match c with Num q => Qle_bool 0 q | NaN => true | _ => false end.

(** Two invoices due on 2024-01-31 and one due on 2024-03-05; the second
    is paid. *)
Definition three_invoices : frame :=
  mkFrame raw_columns
          [mkRow (Txt "A1") (Txt "Acme") (Ts jan01) (Ts jan31) NaN (Num 10)
                 (Txt "USD") NaN (Txt "Net 30") false 0%Z NaN;
           mkRow (Txt "A2") (Txt "Acme") (Ts jan01) (Ts jan31) (Ts jan31) (Num 20)
                 (Txt "USD") (Txt "Paid") (Txt "Net 30") false 0%Z NaN;
           mkRow (Txt "A3") (Txt "Bolt") (Ts jan01) (Ts (19787 * ns_per_day)) NaN (Num 30)
                 (Txt "USD") NaN (Txt "2% 10, net 45") false 0%Z NaN].

(** ** Vocabulary of the terms, write and loader properties *)

Fixpoint all_chars (p : ascii -> bool) (s : string) : bool :=
  match s with
  | EmptyString => true
  | String c r => p c && all_chars p r
  end.

Definition starts_with_digit (s : string) : bool :=
  match s with String c _ => is_digit c | EmptyString => false end.

(** The destination already holds an older table. *)
Definition world_with_old_table : world frame :=
  mkWorld (fun q => if path_eqb q out_csv then Some twins else None) [].

(** The directory of [raw_only], listed in another order. *)
Definition raw_only_reordered : disk :=
  mkDisk [("a.xlsx"%string, one_open_invoice); ("b.xlsx"%string, twins);
          ("notes.txt"%string, mkFrame [] [])]
         None.

(** One invoice whose dates are still text, one of them not a date. *)
Definition dates_as_text : frame :=
  mkFrame raw_columns
          [mkRow (Txt "A1") (Txt "Acme") (Txt "2024-01-01") (Txt "soon") NaN
                 (Num 100) (Txt "USD") NaN NaN false 0%Z NaN].

(** ** Typed columns and plain text *)

(** Both date columns the cleaner tests are datetime columns, as
    [pd.read_excel] delivers a column of date cells: converting such a
    column again, whole or in part, changes nothing. *)
Definition date_columns_typed (df : frame) : bool :=
  forallb datetime_cell (col InvoiceDate df)
  && forallb datetime_cell (col DueDate df).

(** A text of ASCII characters only. *)
Definition ascii_text (s : string) : bool :=
  all_chars (fun c => Nat.ltb (nat_of_ascii c) 128) s.

(** ** The wording of the specification, where the code departs from it *)

(** The division-by-zero policy, for the days from invoice to payment: an
    average over an empty population is reported as null. *)
Definition undefined_is_null {P : Coercions} (now : Z) (df0 : frame) : Prop :=
  let df := _ensure_features now (_safe_to_datetime df0) in
  forall k,
    ap_kpis.compute_kpis now df = Ok k ->
    somes (map (fun r => sub_days (PaidDate r) (InvoiceDate r))
               (loc (col IsPaid df) (rows df))) = [] ->
    get "days_to_pay_avg" k = Some PyNone.

(** One open invoice and nothing else: nobody has paid. *)
Definition nobody_paid : frame :=
  mkFrame raw_columns [invoice "A1" "Acme" (Num 100)].

(** The writer never fails and never loses the table. *)
Definition saved_in_every_outcome (content : Type) (e : env) (df : content)
  (out_path : path) (w : world content) : Prop :=
  let res := safe_save_csv e df out_path default_retries default_sleep_s w in
  fst res = Ok tt
  /\ (files (snd res) out_path = Some df
      \/ files (snd res) (fallback_path e out_path) = Some df).

(** The destination is held open for the whole run and the fallback file
    cannot be written either. *)
Definition everything_locked : env :=
  mkEnv (fun _ => ReplaceLocked true) true 1700000000%Z.

(** The loader picks the first name in the order of the code points among
    the names that end in [.xlsx] as they are written, and fails exactly
    when no name ends so. *)
Definition picks_first_in_code_point_order (normcase : string -> string) (d : disk) :
  Prop :=
  (forall f, find_excel_on normcase d = Ok f ->
             endswith ".xlsx" f = true
             /\ forall g, In g (map fst (raw_dir d)) -> endswith ".xlsx" g = true ->
                          String.leb f g = true)
  /\ ((exists msg, find_excel_on normcase d = Raise (FileNotFoundError msg))
      <-> (forall g, In g (map fst (raw_dir d)) -> endswith ".xlsx" g = false)).

(** Two directories of a Windows machine. *)
Definition mixed_case_dir : disk :=
  mkDisk [("B.xlsx"%string, twins); ("a.xlsx"%string, one_open_invoice)] None.

Definition upper_case_dir : disk :=
  mkDisk [("REPORT.XLSX"%string, twins)] None.



(* ================================================================== *)
(** * Properties *)

(** ** Lists and columns *)

Lemma zip_with_map {A B C D} (f : B -> C -> D) (g : A -> B) (h : A -> C) (l : list A) :
  zip_with f (map g l) (map h l) = map (fun x => f (g x) (h x)) l.
Proof.
  induction l as [|x l IH]; simpl; [reflexivity | now rewrite IH].
Qed.

Lemma zip_with_map_l {A B C D} (f : B -> C -> D) (g : A -> B) (l : list A) (m : list C) :
  zip_with f (map g l) m = zip_with (fun x y => f (g x) y) l m.
Proof.
  revert m; induction l as [|x l IH]; intros [|y m]; simpl; try reflexivity.
  now rewrite IH.
Qed.

Lemma loc_map_filter {A} (p : A -> bool) (l : list A) :
  loc (map p l) l = filter p l.
Proof.
  induction l as [|x l IH]; simpl; [reflexivity|].
  destruct (p x); now rewrite IH.
Qed.

Lemma loc_map_map {A B} (p : A -> bool) (f : A -> B) (l : list A) :
  loc (map p l) (map f l) = map f (filter p l).
Proof.
  induction l as [|x l IH]; simpl; [reflexivity|].
  destruct (p x); simpl; now rewrite IH.
Qed.

Lemma s_count_map {A} (p : A -> bool) (l : list A) :
  s_count (map p l) = List.length (filter p l).
Proof.
  unfold s_count. induction l as [|x l IH]; simpl; [reflexivity|].
  destruct (p x); simpl; now rewrite IH.
Qed.

Ltac rowwise :=
  unfold s_or, s_and, s_not, col;
  repeat (rewrite ?map_map, ?zip_with_map).

Lemma filter_none {A} (p : A -> bool) (l : list A) :
  (forall x, In x l -> p x = false) -> filter p l = [].
Proof.
  induction l as [|x l IH]; simpl; intros H; [reflexivity|].
  rewrite (H x (or_introl eq_refl)). apply IH. intros y Hy. apply H. now right.
Qed.

Lemma filter_all {A} (p : A -> bool) (l : list A) :
  (forall x, In x l -> p x = true) -> filter p l = l.
Proof.
  induction l as [|x l IH]; simpl; intros H; [reflexivity|].
  rewrite (H x (or_introl eq_refl)). f_equal. apply IH. intros y Hy. apply H. now right.
Qed.

Lemma count_occ_map_filter_le {A} (key : A -> string) (p : A -> bool) (l : list A) k :
  count_occ string_dec (map key (filter p l)) k
  <= count_occ string_dec (map key l) k.
Proof.
  induction l as [|x l IH]; simpl; [lia|].
  destruct (p x); simpl; destruct (string_dec (key x) k); lia.
Qed.

(** A filter that keeps only rows whose key occurs once leaves distinct
    keys. *)
Lemma NoDup_keys_filter {A} (key : A -> string) (p : A -> bool) (l : list A) :
  (forall x, In x l -> p x = true ->
             count_occ string_dec (map key l) (key x) <= 1) ->
  NoDup (map key (filter p l)).
Proof.
  intros H. apply (NoDup_count_occ string_dec). intros k.
  destruct (in_dec string_dec k (map key (filter p l))) as [Hin|Hout].
  - apply in_map_iff in Hin. destruct Hin as [x [<- Hx]].
    apply filter_In in Hx. destruct Hx as [Hx Hp].
    pose proof (count_occ_map_filter_le key p l (key x)).
    specialize (H x Hx Hp). lia.
  - apply (count_occ_not_In string_dec) in Hout. lia.
Qed.

(** ** The batch cleaner, row by row *)

Section CleaningFacts.
Context {P : Coercions}.

Lemma to_numeric_idem (c : cell) : to_numeric (to_numeric c) = to_numeric c.
Proof.
  destruct c as [|s|q|t|b]; simpl; try reflexivity.
  - destruct (parse_number s); reflexivity.
  - destruct (datetime_to_number t); reflexivity.
Qed.

Lemma to_datetime_idem (c : cell) : to_datetime (to_datetime c) = to_datetime c.
Proof.
  destruct c as [|s|q|t|b]; simpl; try reflexivity.
  - destruct (parse_datetime s); reflexivity.
  - destruct (number_to_datetime q); reflexivity.
Qed.

Lemma to_numeric_cases (c : cell) :
  to_numeric c = NaN \/ exists q, to_numeric c = Num q.
Proof.
  destruct c as [|s|q|t|b]; simpl; eauto.
  - destruct (parse_number s); eauto.
  - destruct (datetime_to_number t); eauto.
Qed.

Lemma to_datetime_cases (c : cell) :
  to_datetime c = NaN \/ exists t, to_datetime c = Ts t.
Proof.
  destruct c as [|s|q|t|b]; simpl; eauto.
  - destruct (parse_datetime s); eauto.
  - destruct (number_to_datetime q); eauto.
Qed.

Lemma rows_df_chk (df : frame) :
  rows (ap_cleaning.df_chk df) = map (convert_dates df) (rows df).
Proof. reflexivity. Qed.

Lemma compkey_rowwise (df : frame) :
  ap_cleaning.compkey df = map row_key (rows df).
Proof. unfold ap_cleaning.compkey. rowwise. reflexivity. Qed.

Lemma compkey_clean_rowwise (df : frame) :
  ap_cleaning.compkey_clean df = map row_key_clean (rows df).
Proof. unfold ap_cleaning.compkey_clean. rowwise. reflexivity. Qed.

Lemma drop_mask_rowwise (df : frame) :
  ap_cleaning.drop_mask df = map (row_dropped (rows df)) (rows df).
Proof.
  unfold ap_cleaning.drop_mask, ap_cleaning.is_dup, duplicated_all.
  rewrite compkey_rowwise.
  unfold ap_cleaning.apid_missing, ap_cleaning.amt_invalid, ap_cleaning.amt_num,
    ap_cleaning.invalid_dates, ap_cleaning.inv_invoice, ap_cleaning.inv_due,
    ap_cleaning.due_before_invoice, ap_cleaning.ccy_invalid.
  rowwise. reflexivity.
Qed.

(** Line 115, row by row: the rows of the raw table that no mask marks. *)
Lemma kept_rowwise (df : frame) :
  ap_cleaning.kept df
  = filter (fun r => negb (row_dropped (map (convert_dates df) (rows df))
                                       (convert_dates df r)))
           (rows df).
Proof.
  unfold ap_cleaning.kept. rewrite drop_mask_rowwise, rows_df_chk.
  unfold s_not. rewrite !map_map. apply loc_map_filter.
Qed.

Lemma main_ok (df : frame) (out : ap_cleaning.cleaning_output) :
  ap_cleaning.main df = Ok out ->
  has "InvoiceDate" df = true /\ has "DueDate" df = true
  /\ rows (ap_cleaning.df_clean out)
     = map (fun r => set_Amount (to_numeric (Amount r)) r) (ap_cleaning.kept df)
  /\ ap_cleaning.rows_removed out
     = s_count (ap_cleaning.drop_mask (ap_cleaning.df_chk df))
  /\ columns (ap_cleaning.df_clean out) = columns df.
Proof.
  unfold ap_cleaning.main, require.
  destruct (has "APID" df); [|discriminate].
  destruct (has "Amount" df); [|discriminate].
  destruct (has "InvoiceDate" df); [|discriminate].
  destruct (has "DueDate" df); [|discriminate].
  destruct (has "Currency" df); [|discriminate].
  destruct (has "Vendor" df); [|discriminate].
  simpl. intros H. injection H as <-. simpl. auto 6.
Qed.

Lemma main_returns (df : frame) :
  forallb (fun c => has c df)
          ["APID"; "Amount"; "InvoiceDate"; "DueDate"; "Currency"; "Vendor"]%string
  = true ->
  exists out, ap_cleaning.main df = Ok out.
Proof.
  simpl. rewrite !andb_true_iff. intros (H1 & H2 & H3 & H4 & H5 & H6 & _).
  unfold ap_cleaning.main, require. rewrite H1, H2, H3, H4, H5, H6. simpl.
  eexists. reflexivity.
Qed.

(** Every record-level invariant holds of every row of the cleaned
    table. *)
Lemma cleaned_rows_are_clean_records (df : frame) (out : ap_cleaning.cleaning_output) :
  ap_cleaning.main df = Ok out ->
  Forall clean_record (rows (ap_cleaning.df_clean out)).
Proof.
  intros H. destruct (main_ok _ H) as (Hi & Hd & Hrows & _ & _).
  rewrite Hrows, kept_rowwise. apply Forall_forall. intros r' Hr'.
  apply in_map_iff in Hr'. destruct Hr' as [r [<- Hr]].
  apply filter_In in Hr. destruct Hr as [_ Hr].
  apply negb_true_iff in Hr. unfold row_dropped in Hr.
  apply orb_false_iff in Hr. destruct Hr as [Hr _].
  unfold row_invalid in Hr. rewrite !orb_false_iff in Hr.
  destruct Hr as ((((Ha & Hm) & Hdt) & Hb) & Hc).
  unfold row_apid_missing in Ha. apply orb_false_iff in Ha. destruct Ha as [Ha1 Ha2].
  unfold row_amt_invalid in Hm. apply orb_false_iff in Hm. destruct Hm as [Hm1 Hm2].
  unfold row_dates_invalid in Hdt. apply orb_false_iff in Hdt. destruct Hdt as [Hd1 Hd2].
  unfold row_due_before, row_ccy_invalid in *.
  unfold convert_dates in *. simpl in *. rewrite Hi, Hd in *.
  unfold clean_record. simpl. repeat split.
  - exact Ha1.
  - intros E. rewrite E in Ha2. discriminate.
  - rewrite to_numeric_idem.
    destruct (to_numeric_cases (Amount r)) as [E|[q E]]; rewrite E in *;
      simpl in *; [discriminate|].
    exists q. repeat split.
    destruct (Qle_bool q 0) eqn:Eq; [discriminate|].
    apply Qnot_le_lt. intros Hle. apply Qle_bool_iff in Hle. congruence.
  - destruct (to_datetime_cases (InvoiceDate r)) as [E|[i E]]; rewrite E in *;
      simpl in *; [discriminate|].
    destruct (to_datetime_cases (DueDate r)) as [E'|[d E']]; rewrite E' in *;
      simpl in *; [discriminate|].
    exists i, d. repeat split. apply Z.ltb_ge in Hb. exact Hb.
  - apply negb_false_iff in Hc. exact Hc.
Qed.

(** The surviving raw rows have pairwise distinct composite keys, the key
    being the one the cleaner computes before it drops anything. *)
Lemma kept_keys_distinct (df : frame) :
  NoDup (map (fun r => row_key (convert_dates df r)) (ap_cleaning.kept df)).
Proof.
  rewrite kept_rowwise. apply NoDup_keys_filter.
  intros r Hr Hp. apply negb_true_iff in Hp. unfold row_dropped in Hp.
  apply orb_false_iff in Hp. destruct Hp as [_ Hp].
  rewrite map_map in Hp. apply Nat.leb_gt in Hp. lia.
Qed.
End CleaningFacts.

(** ** Duplicates *)

Lemma count_occ_two_positions (l : list string) (i j : nat) (k : string) :
  i <> j -> nth_error l i = Some k -> nth_error l j = Some k ->
  2 <= count_occ string_dec l k.
Proof.
  revert i j. induction l as [|x l IH]; intros i j Hij Hi Hj.
  - destruct i; discriminate.
  - simpl. destruct i as [|i], j as [|j]; simpl in *.
    + congruence.
    + injection Hi as ->. destruct (string_dec k k); [|congruence].
      apply nth_error_In in Hj.
      apply (count_occ_In string_dec) in Hj. lia.
    + injection Hj as ->. destruct (string_dec k k); [|congruence].
      apply nth_error_In in Hi.
      apply (count_occ_In string_dec) in Hi. lia.
    + assert (i <> j) by congruence.
      specialize (IH i j H Hi Hj). destruct (string_dec x k); lia.
Qed.


Section DuplicateClaims.
Context {P : Coercions}.

Lemma CompositeKey_rowwise (df : frame) :
  app.CompositeKey df = map row_key (rows df).
Proof. unfold app.CompositeKey. rowwise. reflexivity. Qed.


(** C2. When two or more rows of the input carry the same composite key,
    the drop mask of the batch cleaner marks every one of them, whatever
    their other fields are, and no row of the cleaned table comes from a
    row with that key. *)
Theorem C2_whole_duplicate_group_is_dropped
  (df : frame) (i j : nat) (k : string) :
  i <> j ->
  nth_error (ap_cleaning.compkey (ap_cleaning.df_chk df)) i = Some k ->
  nth_error (ap_cleaning.compkey (ap_cleaning.df_chk df)) j = Some k ->
  nth_error (ap_cleaning.drop_mask (ap_cleaning.df_chk df)) i = Some true
  /\ nth_error (ap_cleaning.drop_mask (ap_cleaning.df_chk df)) j = Some true
  /\ Forall (fun r => row_key (convert_dates df r) <> k) (ap_cleaning.kept df)
  /\ forall out, ap_cleaning.main df = Ok out ->
       Forall (fun r' => exists r, In r (rows df)
                            /\ r' = set_Amount (to_numeric (Amount r)) r
                            /\ row_key (convert_dates df r) <> k)
              (rows (ap_cleaning.df_clean out)).
Proof.
  intros Hij Hi Hj.
  assert (Hcount : 2 <= count_occ string_dec
                          (ap_cleaning.compkey (ap_cleaning.df_chk df)) k)
    by (eapply count_occ_two_positions; eauto).
  rewrite compkey_rowwise in Hi, Hj, Hcount.
  assert (Hmask : forall n, nth_error (map row_key (rows (ap_cleaning.df_chk df))) n = Some k ->
                  nth_error (ap_cleaning.drop_mask (ap_cleaning.df_chk df)) n = Some true).
  { intros n Hn. rewrite drop_mask_rowwise.
    rewrite nth_error_map in Hn |- *.
    destruct (nth_error (rows (ap_cleaning.df_chk df)) n) as [r|]; [|discriminate].
    simpl in *. injection Hn as Hn. unfold row_dropped. rewrite Hn.
    apply Nat.leb_le in Hcount. rewrite Hcount. now rewrite orb_true_r. }
  assert (Hkept : Forall (fun r => row_key (convert_dates df r) <> k)
                         (ap_cleaning.kept df)).
  { rewrite kept_rowwise. apply Forall_forall. intros r Hr.
    apply filter_In in Hr. destruct Hr as [_ Hr].
    apply negb_true_iff in Hr. unfold row_dropped in Hr.
    apply orb_false_iff in Hr. destruct Hr as [_ Hr].
    apply Nat.leb_gt in Hr. intros E. rewrite E in Hr.
    rewrite rows_df_chk in Hcount. lia. }
  repeat split; auto.
  intros out Hout. destruct (main_ok _ Hout) as (_ & _ & Hrows & _ & _).
  rewrite Hrows. apply Forall_forall. intros r' Hr'.
  apply in_map_iff in Hr'. destruct Hr' as [r [<- Hr]].
  exists r. repeat split.
  - unfold ap_cleaning.kept in Hr.
    clear - Hr. revert Hr.
    generalize (s_not (ap_cleaning.drop_mask (ap_cleaning.df_chk df))).
    induction (rows df) as [|x l IH]; intros [|b m]; simpl; try tauto.
    destruct b; simpl; intros H; [destruct H|]; eauto.
  - rewrite Forall_forall in Hkept. now apply Hkept.
Qed.

End DuplicateClaims.

(** ** The cleaned table and its composite keys *)

Section Recleaning.
Context {P : Coercions}.

Lemma set_Amount_same (r : row) : set_Amount (Amount r) r = r.
Proof. destruct r; reflexivity. Qed.

Lemma clean_record_not_invalid (df : frame) (r : row) :
  has "InvoiceDate" df = true -> has "DueDate" df = true ->
  clean_record r -> row_invalid (convert_dates df r) = false.
Proof.
  intros Hi Hd (Ha & Hs & (q & Hq & Hn & Hpos) & (i & d & Ei & Ed & Hle) & Hc).
  assert (Hq0 : Qle_bool q 0 = false).
  { destruct (Qle_bool q 0) eqn:E; [|reflexivity].
    apply Qle_bool_iff in E. exfalso. apply (Qlt_not_le _ _ Hpos E). }
  apply String.eqb_neq in Hs. apply Z.ltb_ge in Hle.
  unfold row_invalid, row_apid_missing, row_amt_invalid, row_dates_invalid,
    row_due_before, row_ccy_invalid, convert_dates.
  cbn [APID Amount InvoiceDate DueDate Currency set_dates].
  rewrite Hi, Hd, Ha, Hs, Hn, Ei, Ed, Hc.
  cbn [isna num_le0 ts_lt orb negb]. rewrite Hq0, Hle. reflexivity.
Qed.

(** A table whose rows satisfy the record invariants and whose composite
    keys are pairwise distinct is a fixed point of the cleaner: the mask
    marks nothing and the cleaned table is the table itself. *)
Lemma recleaning_a_clean_table (t : frame) :
  forallb (fun c => has c t)
          ["APID"; "Amount"; "InvoiceDate"; "DueDate"; "Currency"; "Vendor"]%string
  = true ->
  Forall clean_record (rows t) ->
  NoDup (ap_cleaning.compkey (ap_cleaning.df_chk t)) ->
  exists out, ap_cleaning.main t = Ok out
              /\ ap_cleaning.df_clean out = t
              /\ ap_cleaning.rows_removed out = 0.
Proof.
  intros Hcols Hrec Hnd.
  destruct (main_returns t Hcols) as [out Hout].
  destruct (main_ok _ Hout) as (Hi & Hd & Hrows & Hrem & Hc).
  assert (Hnone : forall r, In r (rows t) ->
            row_dropped (map (convert_dates t) (rows t)) (convert_dates t r) = false).
  { intros r Hr. unfold row_dropped. apply orb_false_iff. split.
    - apply clean_record_not_invalid; auto.
      rewrite Forall_forall in Hrec. now apply Hrec.
    - apply Nat.leb_gt. rewrite compkey_rowwise, rows_df_chk in Hnd.
      rewrite (NoDup_count_occ string_dec) in Hnd.
      specialize (Hnd (row_key (convert_dates t r))). lia. }
  exists out. repeat split; auto.
  - destruct (ap_cleaning.df_clean out) as [cs rs]. destruct t as [ct rt].
    simpl in *. subst cs. f_equal. rewrite Hrows, kept_rowwise. simpl.
    rewrite filter_all by (intros r Hr; apply negb_true_iff; now apply Hnone).
    rewrite <- (map_id rt) at 2. apply map_ext_in. intros r Hr.
    rewrite Forall_forall in Hrec. destruct (Hrec r Hr) as (_ & _ & (q & Hq & Hn & _) & _).
    rewrite Hn, <- Hq. apply set_Amount_same.
  - rewrite Hrem, drop_mask_rowwise, rows_df_chk, map_map, s_count_map.
    rewrite filter_none; [reflexivity|]. intros r Hr. now apply Hnone.
Qed.
End Recleaning.

(** C1. On the table of [text_amounts], whose [Amount] column is text
    because one of its cells is no number, the first two invoices differ
    only in the text of the amount ([100] and [100.0]).  The batch cleaner
    marks neither, since the keys it compares are built from the raw text,
    and marks the third row for its amount; the two rows survive, their
    amounts are then converted to the same number, and the cleaned table
    holds two rows with one composite key, which the cleaner's own check
    after cleaning counts as two duplicates.  The dashboard's cleaning,
    which converts the amount before it builds the key, keeps one of the
    two. *)
Theorem C1_equal_amounts_typed_differently_both_survive :
  @ap_cleaning.compkey pandas_std (@ap_cleaning.df_chk pandas_std text_amounts)
  = ["A1|Acme|2024-01-01|100"; "A1|Acme|2024-01-01|100.0";
     "A2|Bolt|2024-01-01|abc"]%string
  /\ @ap_cleaning.amt_invalid pandas_std (@ap_cleaning.df_chk pandas_std text_amounts)
     = [false; false; true]
  /\ @ap_cleaning.drop_mask pandas_std (@ap_cleaning.df_chk pandas_std text_amounts)
     = [false; false; true]
  /\ exists out,
       @ap_cleaning.main pandas_std text_amounts = Ok out
       /\ rows (ap_cleaning.df_clean out)
          = [invoice "A1" "Acme" (Num 100); invoice "A1" "Acme" (Num 100)]
       /\ @ap_cleaning.compkey_clean pandas_std (ap_cleaning.df_clean out)
          = ["A1|Acme|2024-01-01|100.0"; "A1|Acme|2024-01-01|100.0"]%string
       /\ ap_cleaning.duplicates (ap_cleaning.dq_cleaned out) = 2
       /\ @app._clean pandas_std text_amounts
          = Ok (mkFrame raw_columns [invoice "A1" "Acme" (Num 100)]).
Proof.
  split; [vm_compute; reflexivity|]. split; [vm_compute; reflexivity|].
  split; [vm_compute; reflexivity|].
  eexists. split; [vm_compute; reflexivity|].
  repeat split; vm_compute; reflexivity.
Qed.

(** C5. Cleaning the table of [C1] and then cleaning the result again
    removes rows the second time: the first run removes the row whose
    amount is no number and keeps the two invoices of 100, the second run
    marks both as duplicates and returns an empty table. *)
Theorem C5_second_cleaning_run_removes_rows :
  exists out1 out2,
    @ap_cleaning.main pandas_std text_amounts = Ok out1
    /\ ap_cleaning.rows_removed out1 = 1
    /\ rows (ap_cleaning.df_clean out1)
       = [invoice "A1" "Acme" (Num 100); invoice "A1" "Acme" (Num 100)]
    /\ @ap_cleaning.drop_mask pandas_std
         (@ap_cleaning.df_chk pandas_std (ap_cleaning.df_clean out1)) = [true; true]
    /\ @ap_cleaning.main pandas_std (ap_cleaning.df_clean out1) = Ok out2
    /\ ap_cleaning.rows_removed out2 = 2
    /\ rows (ap_cleaning.df_clean out2) = [].
Proof.
  eexists. eexists. split; [vm_compute; reflexivity|].
  split; [vm_compute; reflexivity|]. split; [vm_compute; reflexivity|].
  split; [vm_compute; reflexivity|]. split; [vm_compute; reflexivity|].
  split; vm_compute; reflexivity.
Qed.

(** The duplicated invoice of [twins]: each row passes every validity test
    on its own, both carry one key, and both are dropped. *)
Lemma C2_witness :
  (map (@row_invalid pandas_std) (rows (@ap_cleaning.df_chk pandas_std twins))
   = [false; false])
  /\ nth_error (@ap_cleaning.drop_mask pandas_std (@ap_cleaning.df_chk pandas_std twins)) 0
     = Some true
  /\ nth_error (@ap_cleaning.drop_mask pandas_std (@ap_cleaning.df_chk pandas_std twins)) 1
     = Some true.
Proof.
  split; [vm_compute; reflexivity|].
  pose proof (@C2_whole_duplicate_group_is_dropped pandas_std twins 0 1
                "A1|Acme|2024-01-01|100.0"%string) as H.
  destruct H as (H0 & H1 & _).
  - lia.
  - vm_compute; reflexivity.
  - vm_compute; reflexivity.
  - split; assumption.
Defined.



(** ** Feature derivation, row by row *)

Lemma zip_with_map_r {A B C} (f : A -> B -> C) (g : A -> B) (l : list A) :
  zip_with f l (map g l) = map (fun x => f x (g x)) l.
Proof.
  induction l as [|x l IH]; simpl; [reflexivity | now rewrite IH].
Qed.

Lemma Z_max_0_nonneg (d : Z) : (0 <= Z.max 0 d)%Z.
Proof. lia. Qed.

Section FeatureFacts.
Context {P : Coercions}.

Lemma is_paid_col_rowwise (df : frame) :
  is_paid_col df = map (row_is_paid df) (rows df).
Proof.
  unfold is_paid_col, row_is_paid.
  destruct (has "Status" df), (has "PaidDate" df); rowwise;
    apply map_ext; intros r; simpl; try reflexivity.
  now rewrite orb_false_r.
Qed.

Lemma days_past_due_col_rowwise (today : Z) (df : frame) :
  days_past_due_col today (is_paid_col df) df
  = map (row_days_past_due today df) (rows df).
Proof.
  unfold days_past_due_col, row_days_past_due. rewrite is_paid_col_rowwise.
  destruct (has "DueDate" df); [|reflexivity].
  destruct (has "PaidDate" df); rowwise; apply map_ext; intros r; simpl;
    destruct (row_is_paid df r); reflexivity.
Qed.

Lemma ensure_features_rowwise (now : Z) (df : frame) :
  rows (_ensure_features now df)
  = map (featured_row (normalize now) df) (rows df).
Proof.
  unfold _ensure_features, aging_bucket_col, featured_row, row_bucket.
  cbn [rows]. rewrite days_past_due_col_rowwise, is_paid_col_rowwise.
  destruct (has "AgingBucket" df); rowwise; rewrite zip_with_map_r;
    apply map_ext; intros r; reflexivity.
Qed.

Lemma has_safe_to_datetime (c : string) (df : frame) :
  has c (_safe_to_datetime df) = has c df.
Proof. reflexivity. Qed.

(** C3. After feature derivation [DaysPastDue] is never negative: on a
    paid row it is the number of whole days from [DueDate] to [PaidDate],
    on an open row the number of whole days from [DueDate] to today, in
    both cases raised to 0 when negative, and it is 0 when a date it needs
    is missing. *)
Theorem C3_days_past_due (now : Z) (df : frame) (r : row) :
  In r (rows (_ensure_features now (_safe_to_datetime df))) ->
  (0 <= DaysPastDue r)%Z
  /\ (has "DueDate" df = true -> has "PaidDate" df = true -> IsPaid r = true ->
      forall p d, PaidDate r = Ts p -> DueDate r = Ts d ->
                  DaysPastDue r = Z.max 0 ((p - d) / ns_per_day))
  /\ (has "DueDate" df = true -> IsPaid r = false ->
      forall d, DueDate r = Ts d ->
                DaysPastDue r = Z.max 0 ((normalize now - d) / ns_per_day))
  /\ (has "DueDate" df = false \/ DueDate r = NaN
      \/ (IsPaid r = true /\ (has "PaidDate" df = false \/ PaidDate r = NaN)) ->
      DaysPastDue r = 0%Z).
Proof.
  rewrite ensure_features_rowwise. intros Hin.
  apply in_map_iff in Hin. destruct Hin as [r0 [<- _]].
  unfold featured_row, row_days_past_due. rewrite !has_safe_to_datetime.
  cbn [DaysPastDue IsPaid PaidDate DueDate set_features].
  set (paid := row_is_paid (_safe_to_datetime df) r0).
  repeat split.
  - destruct (has "DueDate" df); [apply Z_max_0_nonneg | lia].
  - intros Hd Hp Hpaid p d Ep Ed. rewrite Hd, Hp, Hpaid, Ep, Ed. reflexivity.
  - intros Hd Hpaid d Ed. rewrite Hd, Hpaid, Ed. reflexivity.
  - intros [Hd | [Ed | [Hpaid [Hp | Ep]]]].
    + rewrite Hd. reflexivity.
    + destruct (has "DueDate" df); [|reflexivity]. rewrite Ed.
      destruct paid; [destruct (has "PaidDate" df)|]; try reflexivity.
      destruct (PaidDate r0); reflexivity.
    + destruct (has "DueDate" df); [|reflexivity]. rewrite Hpaid, Hp. reflexivity.
    + destruct (has "DueDate" df); [|reflexivity]. rewrite Hpaid, Ep.
      destruct (has "PaidDate" df); reflexivity.
Qed.

(** C4. The aging bucket is [cut] of [DaysPastDue], with bins open on the
    left and closed on the right at -1, 0, 30, 60, 90 and no upper end, so
    that 0 is [Current], 30 is [0-30], 60 is [31-60], 90 is [61-90] and 91
    or more is [>90]; feature derivation computes it only when the table
    has no [AgingBucket] column and otherwise leaves the column as it
    is.  The featured table has the rows of the input, in their order and
    unchanged but for the three derived columns, so that every input row
    gets its bucket. *)
Theorem C4_aging_bucket (now : Z) (df : frame) :
  (cut 0 = Cat Current /\ cut 30 = Cat B0_30 /\ cut 60 = Cat B31_60
   /\ cut 90 = Cat B61_90 /\ forall d, (91 <= d)%Z -> cut d = Cat Over90)
  /\ (forall d,
        ((d <= -1)%Z -> cut d = NaN)
        /\ ((-1 < d <= 0)%Z -> cut d = Cat Current)
        /\ ((0 < d <= 30)%Z -> cut d = Cat B0_30)
        /\ ((30 < d <= 60)%Z -> cut d = Cat B31_60)
        /\ ((60 < d <= 90)%Z -> cut d = Cat B61_90)
        /\ ((90 < d)%Z -> cut d = Cat Over90))
  /\ (has "AgingBucket" df = false ->
      forall r, In r (rows (_ensure_features now df)) ->
                AgingBucket r = cut (DaysPastDue r))
  /\ (has "AgingBucket" df = true ->
      col AgingBucket (_ensure_features now df) = col AgingBucket df)
  /\ List.length (rows (_ensure_features now df)) = List.length (rows df)
  /\ map (set_features false 0%Z NaN) (rows (_ensure_features now df))
     = map (set_features false 0%Z NaN) (rows df)
  /\ (has "AgingBucket" df = false ->
      col AgingBucket (_ensure_features now df)
      = map cut (col DaysPastDue (_ensure_features now df)))
  /\ has "AgingBucket" (_ensure_features now df) = true.
Proof.
  assert (Hcut : forall d,
        ((d <= -1)%Z -> cut d = NaN)
        /\ ((-1 < d <= 0)%Z -> cut d = Cat Current)
        /\ ((0 < d <= 30)%Z -> cut d = Cat B0_30)
        /\ ((30 < d <= 60)%Z -> cut d = Cat B31_60)
        /\ ((60 < d <= 90)%Z -> cut d = Cat B61_90)
        /\ ((90 < d)%Z -> cut d = Cat Over90)).
  { intros d. unfold cut.
    destruct (Z.leb_spec d (-1)), (Z.leb_spec d 0), (Z.leb_spec d 30),
      (Z.leb_spec d 60), (Z.leb_spec d 90);
      repeat split; intros; try reflexivity; lia. }
  split; [|split; [exact Hcut|split; [|split; [|split; [|split; [|split]]]]]].
  - repeat split; try reflexivity. intros d Hd. apply Hcut. lia.
  - intros Hno r Hin. rewrite ensure_features_rowwise in Hin.
    apply in_map_iff in Hin. destruct Hin as [r0 [<- _]].
    unfold featured_row, row_bucket. rewrite Hno. reflexivity.
  - intros Hyes. unfold col. rewrite ensure_features_rowwise, map_map.
    apply map_ext. intros r. unfold featured_row, row_bucket. rewrite Hyes.
    reflexivity.
  - rewrite ensure_features_rowwise. apply length_map.
  - rewrite ensure_features_rowwise, map_map. apply map_ext. intros r.
    reflexivity.
  - intros Hno. unfold col. rewrite ensure_features_rowwise, !map_map.
    apply map_ext. intros r. unfold featured_row, row_bucket. rewrite Hno.
    reflexivity.
  - unfold has, _ensure_features. cbn [columns]. unfold with_column at 1.
    destruct (existsb (String.eqb "AgingBucket")
                (with_column "DaysPastDue" (with_column "IsPaid" (columns df))))
      eqn:E; [exact E|].
    rewrite existsb_app. cbn [existsb]. rewrite String.eqb_refl.
    now rewrite orb_true_r.
Qed.
End FeatureFacts.

(** ** Sorting and grouping *)

Lemma insert_sorted_perm {A} (leb : A -> A -> bool) (x : A) (l : list A) :
  Permutation (insert_sorted leb x l) (x :: l).
Proof.
  induction l as [|y l IH]; simpl; [apply Permutation_refl|].
  destruct (leb x y); [apply Permutation_refl|].
  apply Permutation_trans with (y :: x :: l); [now apply perm_skip | apply perm_swap].
Qed.

Lemma sort_by_perm {A} (leb : A -> A -> bool) (l : list A) :
  Permutation (sort_by leb l) l.
Proof.
  induction l as [|x l IH]; simpl; [apply Permutation_refl|].
  apply Permutation_trans with (x :: sort_by leb l);
    [apply insert_sorted_perm | now apply perm_skip].
Qed.

Lemma total_amount_perm (gs gs' : list group) :
  Permutation gs gs' -> (total_amount gs == total_amount gs')%Q.
Proof.
  induction 1; simpl.
  - reflexivity.
  - rewrite IHPermutation. reflexivity.
  - ring.
  - etransitivity; eassumption.
Qed.

Lemma key_eqb_refl (k : cell) : isna k = false -> key_eqb k k = true.
Proof.
  destruct k as [|s|q|t|b]; simpl; intros H; try discriminate.
  - apply String.eqb_refl.
  - apply Qeq_bool_refl.
  - apply Z.eqb_refl.
  - apply Z.eqb_refl.
Qed.

Lemma key_eqb_sym (a b : cell) : key_eqb a b = key_eqb b a.
Proof.
  destruct a, b; simpl; try reflexivity.
  - apply String.eqb_sym.
  - apply Qeq_bool_comm.
  - apply Z.eqb_sym.
  - apply Z.eqb_sym.
Qed.

Lemma key_eqb_trans (a b c : cell) :
  key_eqb a b = true -> key_eqb b c = true -> key_eqb a c = true.
Proof.
  destruct a, b, c; simpl; try discriminate.
  - rewrite !String.eqb_eq. congruence.
  - apply Qeq_bool_trans.
  - rewrite !Z.eqb_eq. congruence.
  - rewrite !Z.eqb_eq. congruence.
Qed.

Lemma key_eqb_na_l (k : cell) : key_eqb NaN k = false.
Proof. reflexivity. Qed.

Lemma key_eqb_false_trans (k x y : cell) :
  key_eqb k x = false -> key_eqb k y = true -> key_eqb y x = false.
Proof.
  intros Hkx Hky. destruct (key_eqb y x) eqn:E; [|reflexivity].
  rewrite (key_eqb_trans _ _ _ Hky E) in Hkx. discriminate.
Qed.

(** A key equal to some key of the column has exactly one representative
    among the distinct keys; any other key has none. *)
Lemma matches_unique (k : cell) (keys : list cell) :
  matches k (unique keys) = if existsb (key_eqb k) keys then 1 else 0.
Proof.
  unfold matches. induction keys as [|x ks IH]; simpl; [reflexivity|].
  destruct (isna x) eqn:Hx.
  - destruct x; try discriminate.
    rewrite (key_eqb_sym k NaN), key_eqb_na_l. simpl. exact IH.
  - simpl. destruct (key_eqb k x) eqn:Hkx; simpl.
    + rewrite filter_none; [reflexivity|].
      intros y Hy. apply filter_In in Hy. destruct Hy as [_ Hy].
      apply negb_true_iff in Hy.
      destruct (key_eqb k y) eqn:Hky; [|reflexivity].
      rewrite key_eqb_sym in Hky.
      rewrite (key_eqb_trans _ _ _ Hky Hkx) in Hy. discriminate.
    + rewrite <- IH. f_equal.
      clear IH. induction (unique ks) as [|y U IHU]; simpl; [reflexivity|].
      destruct (key_eqb y x) eqn:Hyx; simpl.
      * destruct (key_eqb k y) eqn:Hky; [|exact IHU].
        rewrite (key_eqb_false_trans _ _ _ Hkx Hky) in Hyx. discriminate.
      * destruct (key_eqb k y); [now rewrite IHU | exact IHU].
Qed.

Lemma series_sum_cons (c : cell) (s : list cell) :
  (series_sum (c :: s) == amt c + series_sum s)%Q.
Proof. destruct c; simpl; ring. Qed.

Lemma Qnat_succ (n : nat) :
  (inject_Z (Z.of_nat (S n)) == 1 + inject_Z (Z.of_nat n))%Q.
Proof.
  rewrite Nat2Z.inj_succ. unfold Z.succ. rewrite inject_Z_plus. ring.
Qed.

Lemma sum_groups_nil (key : row -> cell) (U : list cell) :
  (sum_groups key U [] == 0)%Q.
Proof.
  induction U as [|k U IH]; simpl; [reflexivity|]. rewrite IH. ring.
Qed.

Lemma sum_groups_cons (key : row -> cell) (U : list cell) (r : row) (rws : list row) :
  (sum_groups key U (r :: rws)
   == inject_Z (Z.of_nat (matches (key r) U)) * amt (Amount r)
      + sum_groups key U rws)%Q.
Proof.
  unfold matches. induction U as [|k U IH]; simpl.
  - ring.
  - rewrite IH. destruct (key_eqb (key r) k); cbn [map List.length].
    + rewrite series_sum_cons, Qnat_succ. ring.
    + ring.
Qed.

Lemma sum_groups_wsum (key : row -> cell) (U : list cell) (rws : list row) :
  (sum_groups key U rws == wsum (fun r => matches (key r) U) rws)%Q.
Proof.
  induction rws as [|r rws IH]; simpl.
  - apply sum_groups_nil.
  - rewrite sum_groups_cons, IH. reflexivity.
Qed.

Lemma wsum_ext_in (w w' : row -> nat) (rws : list row) :
  (forall r, In r rws -> w r = w' r) -> wsum w rws = wsum w' rws.
Proof.
  induction rws as [|r rws IH]; simpl; intros H; [reflexivity|].
  rewrite (H r (or_introl eq_refl)), IH; [reflexivity|].
  intros x Hx. apply H. now right.
Qed.

Lemma wsum_indicator (p : row -> bool) (rws : list row) :
  (wsum (fun r => if p r then 1%nat else 0%nat) rws
   == series_sum (map Amount (filter p rws)))%Q.
Proof.
  induction rws as [|r rws IH]; simpl; [reflexivity|].
  destruct (p r); cbn [map].
  - rewrite series_sum_cons, IH. simpl. ring.
  - rewrite IH. simpl. ring.
Qed.

Lemma total_amount_groups (key : row -> cell) (U : list cell) (rws : list row) :
  (total_amount
     (map (fun k =>
             let members := filter (fun r => key_eqb (key r) k) rws in
             mkGroup k (series_sum (map Amount members)) (List.length members)) U)
   == sum_groups key U rws)%Q.
Proof.
  induction U as [|k U IH]; simpl; [reflexivity|]. rewrite IH. reflexivity.
Qed.

(** The sums of the groups of a key column add up to the sum over the rows
    that have a key. *)
Lemma groupby_conserves_sum (key : row -> cell) (rws : list row) :
  (total_amount (groupby_agg key rws)
   == series_sum (map Amount (filter (fun r => notna (key r)) rws)))%Q.
Proof.
  unfold groupby_agg.
  rewrite (total_amount_perm
             (Permutation_map _ (sort_by_perm key_leb (unique (map key rws))))).
  rewrite total_amount_groups, sum_groups_wsum.
  rewrite (wsum_ext_in _ (fun r => if notna (key r) then 1 else 0)).
  - apply wsum_indicator.
  - intros r Hr. rewrite matches_unique. unfold notna.
    destruct (isna (key r)) eqn:Hna; simpl.
    + destruct (key r); try discriminate.
      replace (existsb (key_eqb NaN) (map key rws)) with false; [reflexivity|].
      symmetry. clear. induction (map key rws); simpl; auto.
    + replace (existsb (key_eqb (key r)) (map key rws)) with true; [reflexivity|].
      symmetry. apply existsb_exists. exists (key r). split.
      * now apply in_map.
      * now apply key_eqb_refl.
Qed.

Lemma groupby_length (key : row -> cell) (rws : list row) :
  List.length (groupby_agg key rws) = List.length (unique (map key rws)).
Proof.
  unfold groupby_agg. rewrite length_map.
  apply Permutation_length, sort_by_perm.
Qed.

(** ** The reports *)

Lemma with_column_same (c : string) (cs : list string) :
  existsb (String.eqb c) (with_column c cs) = true.
Proof.
  unfold with_column. destruct (existsb (String.eqb c) cs) eqn:E; [exact E|].
  rewrite existsb_app. simpl. rewrite String.eqb_refl. now rewrite orb_true_r.
Qed.

Lemma with_column_mono (x c : string) (cs : list string) :
  existsb (String.eqb x) cs = true -> existsb (String.eqb x) (with_column c cs) = true.
Proof.
  unfold with_column. intros H. destruct (existsb (String.eqb c) cs); [exact H|].
  rewrite existsb_app, H. reflexivity.
Qed.

Lemma clip_lower0_cut (d : Z) : isna (cut (clip_lower0 d)) = false.
Proof.
  unfold cut, clip_lower0.
  destruct (Z.leb_spec (Z.max 0 d) (-1)); [lia|].
  repeat match goal with |- context [if ?b then _ else _] => destruct b end;
    reflexivity.
Qed.

Section ReportFacts.
Context {P : Coercions}.

Lemma has_ensure_features (now : Z) (df : frame) :
  has "IsPaid" (_ensure_features now df) = true
  /\ has "AgingBucket" (_ensure_features now df) = true
  /\ forall c, has c df = true -> has c (_ensure_features now df) = true.
Proof.
  unfold has, _ensure_features. cbn [columns]. repeat split.
  - apply with_column_mono, with_column_mono, with_column_same.
  - apply with_column_same.
  - intros c H. now apply with_column_mono, with_column_mono, with_column_mono.
Qed.

Lemma open_rows_filter (df : frame) :
  open_rows df = filter (fun r => negb (IsPaid r)) (rows df).
Proof.
  unfold open_rows, s_not, col. rewrite map_map. apply loc_map_filter.
Qed.

(** A bucket synthesised by feature derivation is never missing. *)
Lemma synthesised_bucket_present (now : Z) (df : frame) (r : row) :
  has "AgingBucket" df = false ->
  In r (rows (_ensure_features now df)) -> notna (AgingBucket r) = true.
Proof.
  intros Hno Hin. rewrite ensure_features_rowwise in Hin.
  apply in_map_iff in Hin. destruct Hin as [r0 [<- _]].
  unfold featured_row, row_bucket, row_days_past_due, notna. rewrite Hno.
  cbn [AgingBucket set_features].
  destruct (has "DueDate" df); [|reflexivity].
  now rewrite clip_lower0_cut.
Qed.

Lemma report_aging_open_ok (df : frame) :
  has "IsPaid" df = true -> has "AgingBucket" df = true -> has "Amount" df = true ->
  ap_reports.report_aging_open df
  = Ok (sort_by (fun a b => key_leb (g_key a) (g_key b))
                (groupby_agg AgingBucket (open_rows df))).
Proof.
  intros H1 H2 H3. unfold ap_reports.report_aging_open, require.
  rewrite H1, H2, H3. reflexivity.
Qed.

Lemma report_top_vendors_ok (df : frame) (top_n : nat) :
  has "Vendor" df = true -> has "Amount" df = true ->
  ap_reports.report_top_vendors df top_n
  = Ok (firstn top_n
          (sort_by (fun a b => Qle_bool (g_amount b) (g_amount a))
                   (groupby_agg Vendor (rows df)))).
Proof.
  intros H1 H2. unfold ap_reports.report_top_vendors, require.
  rewrite H1, H2. reflexivity.
Qed.

(** C6, as the code has it, all sums being taken exactly (without the
    rounding of [float64] addition).  For a table with a numeric [Amount]
    column: the amounts of the aging view add up to the total amount of
    the open invoices that have a bucket, hence to the total open amount
    whenever feature derivation synthesised the bucket; the amounts of all
    vendor groups add up to the total amount of the rows that have a
    vendor, and the top-vendors view, which keeps the [top_n] largest
    groups, has that sum when there are at most [top_n] vendors. *)
Theorem C6_group_sums_add_up (now : Z) (df0 : frame) (top_n : nat) :
  has "Amount" df0 = true ->
  Forall (fun c => numeric_cell c = true) (col Amount df0) ->
  let df := _ensure_features now (_safe_to_datetime df0) in
  (exists gs,
      ap_reports.report_aging_open df = Ok gs
      /\ (total_amount gs
          == series_sum (map Amount (filter (fun r => notna (AgingBucket r))
                                            (open_rows df))))%Q
      /\ (has "AgingBucket" df0 = false ->
          (total_amount gs == series_sum (map Amount (open_rows df)))%Q))
  /\ (has "Vendor" df0 = true ->
      exists gs,
        ap_reports.report_top_vendors df top_n = Ok gs
        /\ (total_amount (groupby_agg Vendor (rows df))
            == series_sum (map Amount (filter (fun r => notna (Vendor r)) (rows df))))%Q
        /\ (List.length (unique (col Vendor df)) <= top_n ->
            (total_amount gs
             == series_sum (map Amount (filter (fun r => notna (Vendor r))
                                               (rows df))))%Q)).
Proof.
  intros Hamt _ df.
  destruct (has_ensure_features now (_safe_to_datetime df0)) as (Hp & Hb & Hmono).
  fold df in Hp, Hb, Hmono.
  assert (Ha : has "Amount" df = true) by (apply Hmono; exact Hamt).
  split.
  - exists (sort_by (fun a b => key_leb (g_key a) (g_key b))
                    (groupby_agg AgingBucket (open_rows df))).
    split; [|split].
    + apply report_aging_open_ok; assumption.
    + rewrite (total_amount_perm (sort_by_perm _ _)).
      apply groupby_conserves_sum.
    + intros Hno. rewrite (total_amount_perm (sort_by_perm _ _)).
      rewrite groupby_conserves_sum. rewrite filter_all; [reflexivity|].
      intros r Hr. apply (synthesised_bucket_present now (_safe_to_datetime df0)).
      * exact Hno.
      * rewrite open_rows_filter in Hr. apply filter_In in Hr. apply Hr.
  - intros Hv. assert (Hv' : has "Vendor" df = true) by (apply Hmono; exact Hv).
    exists (firstn top_n
              (sort_by (fun a b => Qle_bool (g_amount b) (g_amount a))
                       (groupby_agg Vendor (rows df)))).
    split; [|split].
    + apply report_top_vendors_ok; assumption.
    + apply groupby_conserves_sum.
    + intros Hlen. rewrite firstn_all2.
      * rewrite (total_amount_perm (sort_by_perm _ _)).
        apply groupby_conserves_sum.
      * rewrite (Permutation_length (sort_by_perm _ _)), groupby_length.
        exact Hlen.
Qed.
End ReportFacts.

(** C6, as the specification words it, fails on three tables: with eleven
    vendors the top-vendors view sums ten of the eleven amounts; a row
    without a vendor is in no vendor group; an open row whose [AgingBucket]
    came blank with the table is in no bucket. *)
Lemma C6_counterexample :
  ~ @sums_conserved pandas_std mar01_morning eleven_vendors
  /\ ~ @sums_conserved pandas_std mar01_morning vendor_missing
  /\ ~ @sums_conserved pandas_std mar01_morning bucket_given.
Proof.
  repeat split; intros [Haging Hvendors].
  - specialize (Hvendors _ eq_refl). vm_compute in Hvendors. discriminate.
  - specialize (Hvendors _ eq_refl). vm_compute in Hvendors. discriminate.
  - specialize (Haging _ eq_refl). vm_compute in Haging. discriminate.
Qed.

(** The eleven vendors once more, with room for all of them in the view. *)
Lemma C6_witness :
  has "Amount" eleven_vendors = true
  /\ Forall (fun c => numeric_cell c = true) (col Amount eleven_vendors)
  /\ exists gs,
       ap_reports.report_aging_open
         (@_ensure_features pandas_std mar01_morning
            (@_safe_to_datetime pandas_std eleven_vendors)) = Ok gs
       /\ (total_amount gs == 11)%Q.
Proof.
  assert (H1 : has "Amount" eleven_vendors = true) by reflexivity.
  assert (H2 : Forall (fun c => numeric_cell c = true) (col Amount eleven_vendors))
    by (repeat constructor).
  split; [exact H1|]. split; [exact H2|].
  destruct (@C6_group_sums_add_up pandas_std mar01_morning eleven_vendors 11 H1 H2)
    as [[gs (Hgs & _ & Hsum)] _].
  exists gs. split; [exact Hgs|].
  rewrite (Hsum eq_refl). vm_compute. reflexivity.
Defined.

(** The example of the specification: due on 2024-01-31, open, seen on
    2024-03-01. *)
Lemma C3_witness :
  In thirty_days_late
     (rows (@_ensure_features pandas_std mar01_morning
              (@_safe_to_datetime pandas_std one_open_invoice)))
  /\ (0 <= DaysPastDue thirty_days_late)%Z
  /\ DaysPastDue thirty_days_late
     = Z.max 0 ((normalize mar01_morning - jan31) / ns_per_day).
Proof.
  assert (Hin : In thirty_days_late
                   (rows (@_ensure_features pandas_std mar01_morning
                            (@_safe_to_datetime pandas_std one_open_invoice))))
    by (vm_compute; left; reflexivity).
  destruct (@C3_days_past_due pandas_std mar01_morning one_open_invoice _ Hin)
    as (H0 & _ & Hopen & _).
  split; [exact Hin|]. split; [exact H0|].
  apply Hopen; reflexivity.
Defined.

Lemma C4_witness :
  (forall r,
      In r (rows (@_ensure_features pandas_std mar01_morning
                    (@_safe_to_datetime pandas_std one_open_invoice))) ->
      AgingBucket r = cut (DaysPastDue r))
  /\ col AgingBucket (@_ensure_features pandas_std mar01_morning bucket_given)
     = [Txt "Current"; NaN]
  /\ col DaysPastDue (@_ensure_features pandas_std mar01_morning
                         (@_safe_to_datetime pandas_std one_open_invoice))
     = [30%Z]
  /\ col AgingBucket (@_ensure_features pandas_std mar01_morning
                         (@_safe_to_datetime pandas_std one_open_invoice))
     = [Cat B0_30].
Proof.
  destruct (@C4_aging_bucket pandas_std mar01_morning
              (@_safe_to_datetime pandas_std one_open_invoice))
    as (_ & _ & Hrow & _ & _ & _ & Hcol & _).
  destruct (@C4_aging_bucket pandas_std mar01_morning bucket_given)
    as (_ & _ & _ & Hkeep & _).
  assert (Hd : col DaysPastDue (@_ensure_features pandas_std mar01_morning
                                  (@_safe_to_datetime pandas_std one_open_invoice))
               = [30%Z]) by (vm_compute; reflexivity).
  split; [exact (Hrow eq_refl)|]. split; [exact (Hkeep eq_refl)|].
  split; [exact Hd|]. rewrite (Hcol eq_refl), Hd. reflexivity.
Defined.

(** ** The KPI record *)

Lemma get_app (key : string) (a b : list (string * pyval)) :
  get key (a ++ b)
  = match get key a with Some v => Some v | None => get key b end.
Proof.
  induction a as [|[k v] a IH]; simpl; [reflexivity|].
  destruct (String.eqb k key); [reflexivity | exact IH].
Qed.

Ltac split_ifs :=
  repeat match goal with
         | |- context [if ?b then _ else _] => destruct b
         | |- context [match ?l with [] => _ | _ :: _ => _ end] => destruct l
         end.

Section KpiFacts.
Context {P : Coercions}.

Lemma vendor_kpis_app (df : frame) (k : list (string * pyval)) :
  ap_kpis.vendor_kpis df k = k ++ ap_kpis.vendor_kpis df [].
Proof.
  unfold ap_kpis.vendor_kpis, put.
  destruct (has "Vendor" df && has "Amount" df); simpl;
    [rewrite <- !app_assoc; reflexivity | now rewrite app_nil_r].
Qed.

Lemma days_to_pay_kpis_app (df : frame) (k : list (string * pyval)) :
  ap_kpis.days_to_pay_kpis df k = k ++ ap_kpis.days_to_pay_kpis df [].
Proof.
  unfold ap_kpis.days_to_pay_kpis, put.
  destruct (has "InvoiceDate" df && has "PaidDate" df); simpl;
    [|now rewrite app_nil_r].
  destruct (loc (col IsPaid df) (rows df)); simpl;
    [now rewrite app_nil_r | rewrite <- !app_assoc; reflexivity].
Qed.

Lemma delay_kpis_app (df : frame) (k : list (string * pyval)) :
  ap_kpis.delay_kpis df k = k ++ ap_kpis.delay_kpis df [].
Proof.
  unfold ap_kpis.delay_kpis, put.
  destruct (has "DueDate" df && has "PaidDate" df); simpl;
    [|now rewrite app_nil_r].
  destruct (loc (col IsPaid df) (rows df)); simpl;
    [now rewrite app_nil_r | rewrite <- !app_assoc; reflexivity].
Qed.

Lemma cash_out_kpis_app (today : Z) (m : list bool) (df : frame)
  (k : list (string * pyval)) :
  ap_kpis.cash_out_kpis today m df k = k ++ ap_kpis.cash_out_kpis today m df [].
Proof.
  unfold ap_kpis.cash_out_kpis, put.
  destruct (has "DueDate" df && has "Amount" df); simpl;
    [rewrite <- !app_assoc; reflexivity | now rewrite app_nil_r].
Qed.

Lemma terms_kpis_app (df : frame) (k : list (string * pyval)) :
  ap_kpis.terms_kpis df k = k ++ ap_kpis.terms_kpis df [].
Proof.
  unfold ap_kpis.terms_kpis, put.
  destruct (has "Terms" df); simpl; [|now rewrite app_nil_r].
  destruct (somes (map ap_kpis._parse_terms_days (col Terms df))); simpl;
    [now rewrite app_nil_r | rewrite <- !app_assoc; reflexivity].
Qed.

(** The guard of lines 82-84 keeps the division away from a zero
    denominator. *)
Lemma pct_overdue_total (overdue_amount open_amount : pyval) :
  exists v,
    ap_kpis.pct_overdue overdue_amount open_amount = Ok v
    /\ (forall o, open_amount = PyFloat o -> (o == 0)%Q -> v = PyNone)
    /\ (open_amount = PyNone -> v = PyNone).
Proof.
  unfold ap_kpis.pct_overdue.
  destruct open_amount as [|z|o| |s]; try (exists PyNone; repeat split; congruence).
  destruct (Qeq_bool o 0) eqn:E.
  - exists PyNone. repeat split; congruence.
  - destruct overdue_amount as [|z|v| |s];
      try (eexists; split; [reflexivity|]; split;
           [intros o' Ho Hz; injection Ho as <-; apply Qeq_bool_iff in Hz; congruence
           | discriminate]).
    unfold py_div. rewrite E. simpl.
    eexists; split; [reflexivity|]; split;
      [intros o' Ho Hz; injection Ho as <-; apply Qeq_bool_iff in Hz; congruence
      | discriminate].
Qed.

Lemma compute_kpis_shape (now : Z) (df : frame) :
  exists pct,
    ap_kpis.pct_overdue
      (ap_kpis.float_sum (has "Amount" df)
         (loc (s_and (s_not (col IsPaid df))
                     (map (fun d => (0 <? d)%Z) (col DaysPastDue df)))
              (col Amount df)))
      (ap_kpis.float_sum (has "Amount" df)
         (loc (s_not (col IsPaid df)) (col Amount df))) = Ok pct
    /\ (forall o,
           ap_kpis.float_sum (has "Amount" df)
             (loc (s_not (col IsPaid df)) (col Amount df)) = PyFloat o ->
           (o == 0)%Q -> pct = PyNone)
    /\ (ap_kpis.float_sum (has "Amount" df)
           (loc (s_not (col IsPaid df)) (col Amount df)) = PyNone ->
        pct = PyNone)
    /\ ap_kpis.compute_kpis now df
       = Ok (base_kpis df pct
             ++ ap_kpis.vendor_kpis df []
             ++ ap_kpis.days_to_pay_kpis df []
             ++ ap_kpis.delay_kpis df []
             ++ ap_kpis.cash_out_kpis (normalize now) (s_not (col IsPaid df)) df []
             ++ ap_kpis.terms_kpis df []).
Proof.
  destruct (pct_overdue_total
              (ap_kpis.float_sum (has "Amount" df)
                 (loc (s_and (s_not (col IsPaid df))
                             (map (fun d => (0 <? d)%Z) (col DaysPastDue df)))
                      (col Amount df)))
              (ap_kpis.float_sum (has "Amount" df)
                 (loc (s_not (col IsPaid df)) (col Amount df))))
    as (pct & Hpct & Hzero & Hnone).
  exists pct. split; [exact Hpct|]. split; [exact Hzero|]. split; [exact Hnone|].
  unfold ap_kpis.compute_kpis. rewrite Hpct. unfold bind.
  rewrite terms_kpis_app, cash_out_kpis_app, delay_kpis_app,
    days_to_pay_kpis_app, vendor_kpis_app.
  rewrite <- !app_assoc. reflexivity.
Qed.

(** C7, as the code has it.  The KPI computation returns a record for
    every featured table with a numeric [Amount] column, it never raises.
    The two ratios are guarded: when the open amount is zero, or there is
    no [Amount] column, [pct_overdue_amount] is [None], and when the
    vendor total is zero [top10_vendor_share_pct] is [None].  The averages
    and medians are not: with no paid invoice the days-to-pay and delay
    entries are left out of the record, and so are the terms entries when
    no term holds a number; with paid invoices none of which has the two
    dates, the averages and the median are not-a-number and the share of
    late payments is 0. *)
Theorem C7_zero_denominator_yields_null (now : Z) (df0 : frame) :
  Forall (fun c => numeric_cell c = true) (col Amount df0) ->
  let df := _ensure_features now (_safe_to_datetime df0) in
  exists k,
    ap_kpis.compute_kpis now df = Ok k
    /\ (forall o, get "open_amount" k = Some (PyFloat o) -> (o == 0)%Q ->
                  get "pct_overdue_amount" k = Some PyNone)
    /\ (get "open_amount" k = Some PyNone ->
        get "pct_overdue_amount" k = Some PyNone)
    /\ (has "Vendor" df = true -> has "Amount" df = true ->
        (total_amount (groupby_agg Vendor (rows df)) == 0)%Q ->
        get "top10_vendor_share_pct" k = Some PyNone)
    /\ (loc (col IsPaid df) (rows df) = [] ->
        get "days_to_pay_avg" k = None /\ get "days_to_pay_median" k = None
        /\ get "delay_vs_due_avg" k = None /\ get "delay_vs_due_pct_late" k = None)
    /\ (Forall (fun c => ascii_text (astype_str c) = true) (col Terms df) ->
        somes (map ap_kpis._parse_terms_days (col Terms df)) = [] ->
        get "terms_days_avg" k = None /\ get "terms_days_median" k = None)
    /\ (has "InvoiceDate" df = true -> has "PaidDate" df = true ->
        loc (col IsPaid df) (rows df) <> [] ->
        somes (map (fun r => sub_days (PaidDate r) (InvoiceDate r))
                   (loc (col IsPaid df) (rows df))) = [] ->
        get "days_to_pay_avg" k = Some PyNaN
        /\ get "days_to_pay_median" k = Some PyNaN)
    /\ (has "DueDate" df = true -> has "PaidDate" df = true ->
        loc (col IsPaid df) (rows df) <> [] ->
        somes (map (fun r => sub_days (PaidDate r) (DueDate r))
                   (loc (col IsPaid df) (rows df))) = [] ->
        get "delay_vs_due_avg" k = Some PyNaN
        /\ exists late, get "delay_vs_due_pct_late" k = Some (PyFloat late)
                        /\ (late == 0)%Q).
Proof.
  intros _ df.
  destruct (compute_kpis_shape now df) as (v & _ & Hzero & Hnone & Hk).
  eexists. split; [exact Hk|].
  assert (Hopen : forall rest,
             get "open_amount" (base_kpis df v ++ rest)
             = Some (ap_kpis.float_sum (has "Amount" df)
                       (loc (s_not (col IsPaid df)) (col Amount df))))
    by (intros rest; rewrite get_app; reflexivity).
  assert (Hget : forall rest,
             get "pct_overdue_amount" (base_kpis df v ++ rest) = Some v)
    by (intros rest; rewrite get_app; reflexivity).
  split; [|split; [|split; [|split; [|split; [|split]]]]].
  - intros o Ho Hz. rewrite Hopen in Ho. injection Ho as Ho.
    rewrite Hget. f_equal. now apply (Hzero o).
  - intros Ho. rewrite Hopen in Ho. injection Ho as Ho.
    rewrite Hget. f_equal. now apply Hnone.
  - intros Hvd Ha Htot. rewrite get_app. cbn [get base_kpis String.eqb].
    change (get "top10_vendor_share_pct" (base_kpis df v)) with (@None pyval).
    cbv beta iota. rewrite get_app.
    unfold ap_kpis.vendor_kpis. rewrite Hvd, Ha. cbn [andb].
    assert (Htot' : (total_amount
                       (sort_by (fun a b => Qle_bool (g_amount b) (g_amount a))
                                (groupby_agg Vendor (rows df))) == 0)%Q)
      by (rewrite (total_amount_perm (sort_by_perm _ _)); exact Htot).
    unfold put. cbn [app get]. rewrite String.eqb_refl.
    rewrite (Qeq_eq_bool _ _ Htot'). reflexivity.
  - intros Hpaid.
    repeat split; rewrite !get_app;
      unfold ap_kpis.vendor_kpis, ap_kpis.days_to_pay_kpis, ap_kpis.delay_kpis,
        ap_kpis.cash_out_kpis, ap_kpis.terms_kpis; rewrite Hpaid;
      split_ifs; reflexivity.
  - intros _ Hterms.
    repeat split; rewrite !get_app;
      unfold ap_kpis.vendor_kpis, ap_kpis.days_to_pay_kpis, ap_kpis.delay_kpis,
        ap_kpis.cash_out_kpis, ap_kpis.terms_kpis; rewrite Hterms;
      split_ifs; reflexivity.
  - intros Hi Hp Hpaid Hdates.
    assert (Hb : forall key, key = "days_to_pay_avg"%string
                             \/ key = "days_to_pay_median"%string ->
                 get key (base_kpis df v) = None)
      by (intros key [-> | ->]; reflexivity).
    assert (Hv : forall key, key = "days_to_pay_avg"%string
                             \/ key = "days_to_pay_median"%string ->
                 get key (ap_kpis.vendor_kpis df []) = None)
      by (intros key [-> | ->]; unfold ap_kpis.vendor_kpis; split_ifs; reflexivity).
    assert (Hd : ap_kpis.days_to_pay_kpis df []
                 = [("days_to_pay_avg"%string, PyNaN);
                    ("days_to_pay_median"%string, PyNaN)]).
    { unfold ap_kpis.days_to_pay_kpis. rewrite Hi, Hp. cbn [andb].
      destruct (loc (col IsPaid df) (rows df)) as [|r paid] eqn:E; [congruence|].
      unfold put, mean, median. rewrite Hdates. reflexivity. }
    split; rewrite get_app, Hb, get_app, Hv, get_app, Hd by auto; reflexivity.
  - intros Hd Hp Hpaid Hdates.
    assert (Hb : forall key, key = "delay_vs_due_avg"%string
                             \/ key = "delay_vs_due_pct_late"%string ->
                 get key (base_kpis df v) = None)
      by (intros key [-> | ->]; reflexivity).
    assert (Hv : forall key, key = "delay_vs_due_avg"%string
                             \/ key = "delay_vs_due_pct_late"%string ->
                 get key (ap_kpis.vendor_kpis df []) = None)
      by (intros key [-> | ->]; unfold ap_kpis.vendor_kpis; split_ifs; reflexivity).
    assert (Ht : forall key, key = "delay_vs_due_avg"%string
                             \/ key = "delay_vs_due_pct_late"%string ->
                 get key (ap_kpis.days_to_pay_kpis df []) = None)
      by (intros key [-> | ->]; unfold ap_kpis.days_to_pay_kpis; split_ifs;
          reflexivity).
    assert (Hnolate :
              filter (fun v0 : option Z =>
                        match v0 with Some d => (0 <? d)%Z | None => false end)
                     (map (fun r => sub_days (PaidDate r) (DueDate r))
                          (loc (col IsPaid df) (rows df))) = []).
    { revert Hdates. generalize (map (fun r => sub_days (PaidDate r) (DueDate r))
                                     (loc (col IsPaid df) (rows df))).
      intros l. induction l as [|[d|] l IH]; simpl; [reflexivity|discriminate|exact IH]. }
    assert (Hl : exists late,
                 ap_kpis.delay_kpis df []
                 = [("delay_vs_due_avg"%string, PyNaN);
                    ("delay_vs_due_pct_late"%string, PyFloat late)]
                 /\ (late == 0)%Q).
    { unfold ap_kpis.delay_kpis. rewrite Hd, Hp. cbn [andb]. cbv zeta.
      rewrite Hnolate.
      destruct (loc (col IsPaid df) (rows df)) as [|r paid] eqn:E; [congruence|].
      unfold put, mean. rewrite Hdates. eexists. split; [reflexivity|].
      cbn [List.length]. unfold Qdiv. rewrite Qmult_0_l, Qmult_0_l. reflexivity. }
    destruct Hl as (late & Hl & Hlate).
    split; [|exists late; split; [|exact Hlate]];
      rewrite get_app, Hb, get_app, Hv, get_app, Ht, get_app, Hl by auto;
      reflexivity.
Qed.
End KpiFacts.

(** The invoice paid on its due date: nothing is open. *)
Lemma C7_witness :
  Forall (fun c => numeric_cell c = true) (col Amount one_paid_invoice)
  /\ exists k,
       @ap_kpis.compute_kpis pandas_std mar01_morning
         (@_ensure_features pandas_std mar01_morning
            (@_safe_to_datetime pandas_std one_paid_invoice)) = Ok k
       /\ get "open_amount" k = Some (PyFloat 0)
       /\ get "pct_overdue_amount" k = Some PyNone.
Proof.
  assert (H1 : Forall (fun c => numeric_cell c = true) (col Amount one_paid_invoice))
    by (repeat constructor).
  split; [exact H1|].
  destruct (@C7_zero_denominator_yields_null pandas_std mar01_morning
              one_paid_invoice H1) as (k & Hk & Hzero & _).
  exists k. split; [exact Hk|].
  assert (Hopen : get "open_amount" k = Some (PyFloat 0)).
  { revert Hk. vm_compute. intros Hk. injection Hk as <-. reflexivity. }
  split; [exact Hopen|].
  apply (Hzero 0%Q Hopen). reflexivity.
Defined.

(** The wording of the specification does not hold: an invoice marked as
    paid without a payment date makes the average not-a-number, and with
    no paid invoice at all the entry is not in the record. *)
Lemma C7_counterexample :
  ~ @undefined_is_null pandas_std mar01_morning paid_without_date
  /\ ~ @undefined_is_null pandas_std mar01_morning nobody_paid.
Proof.
  split; intros H.
  - assert (Hk : exists k,
               @ap_kpis.compute_kpis pandas_std mar01_morning
                 (@_ensure_features pandas_std mar01_morning
                    (@_safe_to_datetime pandas_std paid_without_date)) = Ok k
               /\ get "days_to_pay_avg" k = Some PyNaN)
      by (eexists; split; vm_compute; reflexivity).
    destruct Hk as (k & Hk & Hnan).
    specialize (H k Hk eq_refl). rewrite Hnan in H. discriminate.
  - assert (Hk : exists k,
               @ap_kpis.compute_kpis pandas_std mar01_morning
                 (@_ensure_features pandas_std mar01_morning
                    (@_safe_to_datetime pandas_std nobody_paid)) = Ok k
               /\ get "days_to_pay_avg" k = None)
      by (eexists; split; vm_compute; reflexivity).
    destruct Hk as (k & Hk & Hnan).
    specialize (H k Hk eq_refl). rewrite Hnan in H. discriminate.
Qed.

(** ** Saving the cleaned table *)

Lemma path_eqb_refl (p : path) : path_eqb p p = true.
Proof. unfold path_eqb. now rewrite !String.eqb_refl. Qed.

Lemma sleeps_of_app (a b : list event) : sleeps_of (a ++ b) = sleeps_of a ++ sleeps_of b.
Proof. unfold sleeps_of. apply flat_map_app. Qed.

Lemma writes_of_app (a b : list event) : writes_of (a ++ b) = writes_of a ++ writes_of b.
Proof. unfold writes_of. apply flat_map_app. Qed.

Lemma prints_of_app (a b : list event) : prints_of (a ++ b) = prints_of a ++ prints_of b.
Proof. unfold prints_of. apply flat_map_app. Qed.

Section SaveFacts.
Variable content : Type.
Variables (e : env) (df : content) (tmp out_path : path) (sleep_s : Q).

(** One failed pass: what the handler adds to the trace. *)
Lemma handler_trace (u : bool) (w : world content) :
  exists evs,
    trace (handler tmp u sleep_s w) = trace w ++ evs
    /\ sleeps_of evs = [sleep_s] /\ writes_of evs = [] /\ prints_of evs = [].
Proof.
  unfold handler. destruct (files w tmp); [destruct u|]; simpl.
  - exists [EvUnlink tmp; EvSleep sleep_s]. rewrite <- app_assoc. auto.
  - exists [EvSleep sleep_s]. auto.
  - exists [EvSleep sleep_s]. auto.
Qed.

(** The loop, from any pass on: either some pass replaced the destination,
    after as many sleeps as passes failed before it, or all passes failed
    and each of them slept. *)
Lemma retry_loop_spec (todo : nat) :
  forall (i : nat) (w : world content),
    let res := retry_loop e df tmp out_path sleep_s todo i w in
    exists evs,
      trace (fst res) = trace w ++ evs
      /\ Forall (fun p => p = tmp) (writes_of evs)
      /\ prints_of evs = []
      /\ (snd res = true ->
          exists n, n < todo
                    /\ attempts e (i + n) = Replaced
                    /\ (forall j, j < n -> attempts e (i + j) <> Replaced)
                    /\ files (fst res) out_path = Some df
                    /\ sleeps_of evs = repeat sleep_s n
                    /\ exists pre, evs = pre ++ [EvWrite tmp; EvReplace tmp out_path])
      /\ (snd res = false ->
          (forall j, j < todo -> attempts e (i + j) <> Replaced)
          /\ sleeps_of evs = repeat sleep_s todo).
Proof.
  induction todo as [|todo IH]; intros i w; cbn zeta.
  - simpl. exists []. rewrite app_nil_r. repeat split; auto; try discriminate.
    intros j Hj. lia.
  - cbn [retry_loop]. destruct (attempts e i) eqn:Ha.
    + exists [EvWrite tmp; EvReplace tmp out_path]. cbn [fst snd].
      split; [simpl; now rewrite <- app_assoc|].
      split; [repeat constructor|]. split; [reflexivity|].
      split; [|discriminate]. intros _. exists 0.
      rewrite Nat.add_0_r. repeat split; auto; try lia.
      * simpl. now rewrite !path_eqb_refl.
      * exists []. reflexivity.
    + destruct (handler_trace unlink_ok w) as (h & Hh & Hs & Hw & Hp).
      destruct (IH (S i) (handler tmp unlink_ok sleep_s w))
        as (evs & Ht & Hwr & Hpr & Hyes & Hno).
      exists (h ++ evs).
      split; [rewrite Ht, Hh; now rewrite app_assoc|].
      split; [rewrite writes_of_app, Hw; exact Hwr|].
      split; [rewrite prints_of_app, Hp, Hpr; reflexivity|].
      split.
      * intros Hres. destruct (Hyes Hres) as (n & Hn & Hrep & Hbefore & Hf & Hsl & pre & Hpre).
        exists (S n). repeat split; auto; try lia.
        -- now rewrite Nat.add_succ_r.
        -- intros [|j] Hj; [rewrite Nat.add_0_r; congruence|].
           rewrite Nat.add_succ_r. apply Hbefore. lia.
        -- rewrite sleeps_of_app, Hs, Hsl. reflexivity.
        -- exists (h ++ pre). rewrite Hpre. now rewrite app_assoc.
      * intros Hres. destruct (Hno Hres) as (Hall & Hsl). split.
        -- intros [|j] Hj; [rewrite Nat.add_0_r; congruence|].
           rewrite Nat.add_succ_r. apply Hall. lia.
        -- rewrite sleeps_of_app, Hs, Hsl. reflexivity.
    + destruct (handler_trace unlink_ok (fs_write tmp df w)) as (h & Hh & Hs & Hw & Hp).
      destruct (IH (S i) (handler tmp unlink_ok sleep_s (fs_write tmp df w)))
        as (evs & Ht & Hwr & Hpr & Hyes & Hno).
      exists (EvWrite tmp :: h ++ evs).
      split; [rewrite Ht, Hh; simpl; now rewrite <- !app_assoc|].
      split; [simpl; constructor; [reflexivity|];
              rewrite writes_of_app, Hw; exact Hwr|].
      split; [simpl; rewrite prints_of_app, Hp, Hpr; reflexivity|].
      split.
      * intros Hres. destruct (Hyes Hres) as (n & Hn & Hrep & Hbefore & Hf & Hsl & pre & Hpre).
        exists (S n). repeat split; auto; try lia.
        -- now rewrite Nat.add_succ_r.
        -- intros [|j] Hj; [rewrite Nat.add_0_r; congruence|].
           rewrite Nat.add_succ_r. apply Hbefore. lia.
        -- simpl. rewrite sleeps_of_app, Hs, Hsl. reflexivity.
        -- exists (EvWrite tmp :: h ++ pre). rewrite Hpre. simpl.
           now rewrite app_assoc.
      * intros Hres. destruct (Hno Hres) as (Hall & Hsl). split.
        -- intros [|j] Hj; [rewrite Nat.add_0_r; congruence|].
           rewrite Nat.add_succ_r. apply Hall. lia.
        -- simpl. rewrite sleeps_of_app, Hs, Hsl. reflexivity.
Qed.
End SaveFacts.

Section SaveClaim.
Variable content : Type.

(** C8, as the code has it.  [safe_save_csv] with its default arguments
    makes at most five passes; a pass writes the temporary file and then
    replaces the destination, and the destination is written in no other
    way; after each failed pass it sleeps the same delay; when a pass
    succeeds the destination holds the table and nothing is printed; when
    all five fail it writes the table to the fallback path, whose stem
    ends in the time stamp, prints one warning and returns normally,
    unless that last write fails too: it stands outside the loop and is
    not guarded, so that the call then raises [PermissionError].  The
    table is on one of the two paths in every outcome in which the write
    of the fallback file does not fail. *)
Theorem C8_table_is_saved_on_some_path
  (e : env) (df : content) (out_path : path) (w : world content) :
  let tmp := with_suffix ".tmp" out_path in
  let fallback := with_stem_extra ("_" ++ str_int (clock e)) out_path in
  let res := safe_save_csv e df out_path default_retries default_sleep_s w in
  default_retries = 5
  /\ (exists evs,
        trace (snd res) = trace w ++ evs
        /\ ((exists n, n < 5
                       /\ attempts e n = Replaced
                       /\ (forall j, j < n -> attempts e j <> Replaced)
                       /\ fst res = Ok tt
                       /\ files (snd res) out_path = Some df
                       /\ sleeps_of evs = repeat default_sleep_s n
                       /\ Forall (fun p => p = tmp) (writes_of evs)
                       /\ prints_of evs = []
                       /\ exists pre, evs = pre ++ [EvWrite tmp; EvReplace tmp out_path])
            \/ ((forall j, j < 5 -> attempts e j <> Replaced)
                /\ sleeps_of evs = repeat default_sleep_s 5
                /\ (fallback_locked e = true -> fst res = Raise PermissionError)
                /\ (fallback_locked e = false ->
                    fst res = Ok tt
                    /\ files (snd res) fallback = Some df
                    /\ Forall (fun p => p = tmp \/ p = fallback) (writes_of evs)
                    /\ prints_of evs = [warning out_path fallback]))))
  /\ (fallback_locked e = false ->
      fst res = Ok tt
      /\ (files (snd res) out_path = Some df \/ files (snd res) fallback = Some df)).
Proof.
  intros tmp fallback res.
  assert (Hmain : exists evs,
        trace (snd res) = trace w ++ evs
        /\ ((exists n, n < 5
                       /\ attempts e n = Replaced
                       /\ (forall j, j < n -> attempts e j <> Replaced)
                       /\ fst res = Ok tt
                       /\ files (snd res) out_path = Some df
                       /\ sleeps_of evs = repeat default_sleep_s n
                       /\ Forall (fun p => p = tmp) (writes_of evs)
                       /\ prints_of evs = []
                       /\ exists pre, evs = pre ++ [EvWrite tmp; EvReplace tmp out_path])
            \/ ((forall j, j < 5 -> attempts e j <> Replaced)
                /\ sleeps_of evs = repeat default_sleep_s 5
                /\ (fallback_locked e = true -> fst res = Raise PermissionError)
                /\ (fallback_locked e = false ->
                    fst res = Ok tt
                    /\ files (snd res) fallback = Some df
                    /\ Forall (fun p => p = tmp \/ p = fallback) (writes_of evs)
                    /\ prints_of evs = [warning out_path fallback])))).
  { subst res. unfold safe_save_csv. fold tmp.
    destruct (retry_loop_spec e df tmp out_path default_sleep_s default_retries 0 w)
      as (evs & Ht & Hwr & Hpr & Hyes & Hno).
    destruct (retry_loop e df tmp out_path default_sleep_s default_retries 0 w)
      as [w1 returned] eqn:Hloop.
    cbn [fst snd] in *. destruct returned.
    - exists evs. split; [exact Ht|]. left.
      destruct (Hyes eq_refl) as (n & Hn & Hrep & Hbefore & Hf & Hsl & Hpre).
      exists n. cbn [fst snd]. repeat split; auto.
    - destruct (Hno eq_refl) as (Hall & Hsl).
      unfold fallback_path. fold fallback.
      destruct (fallback_locked e) eqn:Hlock; cbn [fst snd].
      + exists evs. split; [exact Ht|]. right.
        repeat split; auto; discriminate.
      + exists (evs ++ [EvWrite fallback; EvPrint (warning out_path fallback)]).
        split; [simpl; rewrite Ht; now rewrite <- !app_assoc|].
        right. split; [exact Hall|].
        split; [rewrite sleeps_of_app, Hsl; reflexivity|].
        split; [discriminate|]. intros _. repeat split.
        * simpl. now rewrite path_eqb_refl.
        * rewrite writes_of_app. apply Forall_app. split.
          -- eapply Forall_impl; [|exact Hwr]. intros p Hp. now left.
          -- simpl. constructor; [now right | constructor].
        * rewrite prints_of_app, Hpr. reflexivity. }
  split; [reflexivity|]. split; [exact Hmain|].
  intros Hlock. destruct Hmain as (evs & _ & [Hok | Hfail]).
  - destruct Hok as (n & _ & _ & _ & Hres & Hf & _). auto.
  - destruct Hfail as (_ & _ & _ & Hfb). destruct (Hfb Hlock) as (Hres & Hf & _). auto.
Qed.
End SaveClaim.

(** A viewer holds the destination for the whole run: the table ends up in
    [ap_clean_1700000000.csv]. *)
Lemma C8_witness :
  fallback_locked viewer_holds_destination = false
  /\ fst (safe_save_csv viewer_holds_destination twins out_csv
                        default_retries default_sleep_s empty_world) = Ok tt
  /\ files (snd (safe_save_csv viewer_holds_destination twins out_csv
                               default_retries default_sleep_s empty_world))
           (mkPath "data/processed" "ap_clean_1700000000" ".csv") = Some twins.
Proof.
  assert (H : fallback_locked viewer_holds_destination = false) by reflexivity.
  split; [exact H|].
  destruct (@C8_table_is_saved_on_some_path frame viewer_holds_destination twins
              out_csv empty_world) as (_ & _ & Hsaved).
  destruct (Hsaved H) as (Hres & _).
  split; [exact Hres|]. vm_compute. reflexivity.
Defined.

(** Not in every outcome: when the destination stays locked and the
    fallback file cannot be written, the call raises, prints no warning
    and leaves the table on neither path. *)
Lemma C8_counterexample :
  ~ saved_in_every_outcome everything_locked twins out_csv empty_world
  /\ fst (safe_save_csv everything_locked twins out_csv
                        default_retries default_sleep_s empty_world)
     = Raise PermissionError
  /\ files (snd (safe_save_csv everything_locked twins out_csv
                               default_retries default_sleep_s empty_world))
           out_csv = None
  /\ files (snd (safe_save_csv everything_locked twins out_csv
                               default_retries default_sleep_s empty_world))
           (fallback_path everything_locked out_csv) = None
  /\ prints_of (trace (snd (safe_save_csv everything_locked twins out_csv
                                          default_retries default_sleep_s
                                          empty_world))) = [].
Proof.
  split.
  - intros [Hres _]. vm_compute in Hres. discriminate.
  - repeat split; vm_compute; reflexivity.
Qed.

(** ** The loader *)

Lemma string_leb_trans (a b c : string) :
  String.leb a b = true -> String.leb b c = true -> String.leb a c = true.
Proof.
  unfold String.leb. revert b c.
  induction a as [|x a IH]; intros [|y b] [|z c]; simpl; try easy.
  unfold Ascii.compare.
  destruct (N.compare_spec (N_of_ascii x) (N_of_ascii y)) as [Hxy|Hxy|Hxy];
    destruct (N.compare_spec (N_of_ascii y) (N_of_ascii z)) as [Hyz|Hyz|Hyz];
    destruct (N.compare_spec (N_of_ascii x) (N_of_ascii z)) as [Hxz|Hxz|Hxz];
    try easy; try lia.
  apply IH.
Qed.

Lemma string_leb_refl (a : string) : String.leb a a = true.
Proof. destruct (String.leb_total a a); assumption. Qed.

(** The first element of a sorted list of names is the least of them. *)
Lemma sorted_head_least (l : list string) (f : string) (rest : list string) :
  sorted l = f :: rest ->
  In f l /\ forall g, In g l -> String.leb f g = true.
Proof.
  intros H. split.
  - apply (Permutation_in f (sort_by_perm String.leb l)).
    unfold sorted in H. rewrite H. now left.
  - revert f rest H. unfold sorted.
    induction l as [|x l IH]; intros f rest H g Hg; [destruct Hg|].
    simpl in H. destruct (sort_by String.leb l) as [|y S] eqn:HS.
    + simpl in H. injection H as <- _.
      assert (l = []).
      { apply Permutation_nil. rewrite <- HS. apply sort_by_perm. }
      subst l. destruct Hg as [<-|[]]. apply string_leb_refl.
    + simpl in H. destruct (String.leb x y) eqn:Hxy.
      * injection H as <- _. destruct Hg as [<-|Hg]; [apply string_leb_refl|].
        apply string_leb_trans with y; [exact Hxy|].
        now apply (IH y S eq_refl).
      * injection H as <- _. destruct Hg as [<-|Hg].
        -- destruct (String.leb_total x y); congruence.
        -- now apply (IH y S eq_refl).
Qed.

(** The first element of a list sorted by a total and transitive order is
    least in it. *)
Lemma sort_by_head_least {A} (leb : A -> A -> bool) (l : list A) :
  (forall a b, leb a b = true \/ leb b a = true) ->
  (forall a b c, leb a b = true -> leb b c = true -> leb a c = true) ->
  forall f rest,
    sort_by leb l = f :: rest ->
    In f l /\ forall g, In g l -> leb f g = true.
Proof.
  intros Htotal Htrans f rest H.
  assert (Hrefl : forall a, leb a a = true)
    by (intros a; destruct (Htotal a a); assumption).
  split.
  - apply (Permutation_in f (sort_by_perm leb l)). rewrite H. now left.
  - revert f rest H.
    induction l as [|x l IH]; intros f rest H g Hg; [destruct Hg|].
    simpl in H. destruct (sort_by leb l) as [|y S] eqn:HS.
    + simpl in H. injection H as <- _.
      assert (l = []).
      { apply Permutation_nil. rewrite <- HS. apply sort_by_perm. }
      subst l. destruct Hg as [<-|[]]. apply Hrefl.
    + simpl in H. destruct (leb x y) eqn:Hxy.
      * injection H as <- _. destruct Hg as [<-|Hg]; [apply Hrefl|].
        apply Htrans with y; [exact Hxy|]. now apply (IH y S eq_refl).
      * injection H as <- _. destruct Hg as [<-|Hg].
        -- destruct (Htotal x y); congruence.
        -- now apply (IH y S eq_refl).
Qed.

Section LoaderClaim.
Context {P : Coercions}.

(** C9, as the code has it.  Whatever the case normalisation of the path
    flavour, [find_excel] returns a name of the raw directory that ends
    in [.xlsx] once normalised and that is first, in the order of the
    normalised names, among the names that do; it raises
    [FileNotFoundError] exactly when no name does.  On a POSIX file
    system the normalisation is the identity, and this is the first name
    in the order of the code points.  When the cleaned table exists, the
    loaders of the KPI and report scripts return that table, whatever the
    raw directory holds. *)
Theorem C9_loader (normcase : string -> string) (d : disk) :
  (forall f, find_excel_on normcase d = Ok f ->
             In f (map fst (raw_dir d))
             /\ endswith ".xlsx" (normcase f) = true
             /\ forall g, In g (map fst (raw_dir d)) ->
                          endswith ".xlsx" (normcase g) = true ->
                          String.leb (normcase f) (normcase g) = true)
  /\ ((exists msg, find_excel_on normcase d = Raise (FileNotFoundError msg))
      <-> (forall g, In g (map fst (raw_dir d)) ->
                     endswith ".xlsx" (normcase g) = false))
  /\ ((exists f, find_excel_on normcase d = Ok f)
      \/ exists msg, find_excel_on normcase d = Raise (FileNotFoundError msg))
  /\ find_excel d = find_excel_on (fun s => s) d
  /\ (forall df now,
         clean_csv d = Some df ->
         ap_kpis.load_clean_or_raw d = Ok (_safe_to_datetime df)
         /\ ap_reports.load_clean_or_raw now d
            = Ok (_ensure_features now (_safe_to_datetime df))).
Proof.
  assert (Hleast : forall f rest,
             sorted_on normcase (glob_xlsx_on normcase d) = f :: rest ->
             In f (glob_xlsx_on normcase d)
             /\ forall g, In g (glob_xlsx_on normcase d) ->
                          String.leb (normcase f) (normcase g) = true).
  { intros f rest H. unfold sorted_on in H.
    apply (sort_by_head_least
             (fun a b => String.leb (normcase a) (normcase b))
             (glob_xlsx_on normcase d)) with (rest := rest); [| |exact H].
    - intros a b. apply String.leb_total.
    - intros a b c. apply string_leb_trans. }
  unfold find_excel_on. split; [|split; [|split; [|split]]].
  - intros f H.
    destruct (sorted_on normcase (glob_xlsx_on normcase d)) as [|f' rest] eqn:Hs;
      [discriminate|].
    injection H as ->. destruct (Hleast _ _ eq_refl) as [Hin Hmin].
    unfold glob_xlsx_on in Hin. apply filter_In in Hin. destruct Hin as [Hin Hx].
    repeat split; auto. intros g Hg Hgx. apply Hmin.
    unfold glob_xlsx_on. apply filter_In. now split.
  - split.
    + intros [msg H] g Hg.
      destruct (sorted_on normcase (glob_xlsx_on normcase d)) as [|f' rest] eqn:Hs;
        [|discriminate].
      assert (Hnil : glob_xlsx_on normcase d = []).
      { apply Permutation_nil. unfold sorted_on in Hs. rewrite <- Hs.
        apply sort_by_perm. }
      destruct (endswith ".xlsx" (normcase g)) eqn:Hgx; [|reflexivity].
      assert (Hin : In g (glob_xlsx_on normcase d)) by (apply filter_In; now split).
      rewrite Hnil in Hin. destruct Hin.
    + intros Hnone.
      destruct (sorted_on normcase (glob_xlsx_on normcase d)) as [|f' rest] eqn:Hs;
        [eexists; reflexivity|].
      destruct (Hleast _ _ eq_refl) as [Hin _].
      apply filter_In in Hin. destruct Hin as [Hin Hx].
      rewrite (Hnone _ Hin) in Hx. discriminate.
  - destruct (sorted_on normcase (glob_xlsx_on normcase d));
      [right | left]; eexists; reflexivity.
  - reflexivity.
  - intros df now Hc. unfold ap_kpis.load_clean_or_raw, ap_reports.load_clean_or_raw,
      load_table. rewrite Hc. split; reflexivity.
Qed.
End LoaderClaim.

(** On a POSIX machine the directory with [b.xlsx], [notes.txt] and
    [a.xlsx] gives [a.xlsx]; on a Windows machine the directory with
    [B.xlsx] and [a.xlsx] gives [a.xlsx] too; and once the cleaned table
    exists it is the one loaded. *)
Lemma C9_witness :
  find_excel raw_only = Ok "a.xlsx"%string
  /\ find_excel_on lower mixed_case_dir = Ok "a.xlsx"%string
  /\ String.leb (lower "a.xlsx") (lower "B.xlsx") = true
  /\ clean_csv with_cache = Some one_paid_invoice
  /\ @ap_kpis.load_clean_or_raw pandas_std with_cache
     = Ok (@_safe_to_datetime pandas_std one_paid_invoice).
Proof.
  assert (H0 : find_excel_on (fun s => s) raw_only = Ok "a.xlsx"%string)
    by (vm_compute; reflexivity).
  assert (H1 : find_excel_on lower mixed_case_dir = Ok "a.xlsx"%string)
    by (vm_compute; reflexivity).
  assert (H2 : clean_csv with_cache = Some one_paid_invoice) by reflexivity.
  destruct (@C9_loader pandas_std (fun s => s) raw_only) as (_ & _ & _ & Hposix & _).
  destruct (@C9_loader pandas_std lower mixed_case_dir) as (Hfirst & _).
  destruct (Hfirst _ H1) as (_ & _ & Hmin).
  destruct (@C9_loader pandas_std lower with_cache) as (_ & _ & _ & _ & Hcache).
  split; [rewrite Hposix; exact H0|]. split; [exact H1|]. split.
  - apply Hmin; [simpl; tauto | vm_compute; reflexivity].
  - split; [exact H2|]. exact (proj1 (Hcache _ 0%Z H2)).
Defined.

(** The wording of the specification does not hold on a Windows machine:
    [a.xlsx] is chosen although [B.xlsx] comes first in the order of the
    code points, and [REPORT.XLSX] is found although it does not end in
    [.xlsx] as written. *)
Lemma C9_counterexample :
  ~ picks_first_in_code_point_order lower mixed_case_dir
  /\ ~ picks_first_in_code_point_order lower upper_case_dir.
Proof.
  split; intros [Hfirst _].
  - assert (H : find_excel_on lower mixed_case_dir = Ok "a.xlsx"%string)
      by (vm_compute; reflexivity).
    destruct (Hfirst _ H) as [_ Hmin].
    assert (Hb : String.leb "a.xlsx" "B.xlsx" = true)
      by (apply Hmin; [simpl; tauto | vm_compute; reflexivity]).
    vm_compute in Hb. discriminate.
  - assert (H : find_excel_on lower upper_case_dir = Ok "REPORT.XLSX"%string)
      by (vm_compute; reflexivity).
    destruct (Hfirst _ H) as [Hx _]. vm_compute in Hx. discriminate.
Qed.

(* ================================================================== *)
(** * Further properties of the code *)

(** ** The batch cleaner *)

Lemma filter_complement_length {A} (p : A -> bool) (l : list A) :
  List.length (filter p l) + List.length (filter (fun x => negb (p x)) l)
  = List.length l.
Proof.
  induction l as [|x l IH]; simpl; [reflexivity|].
  destruct (p x); simpl; lia.
Qed.

Lemma filter_map_length {A B} (p : B -> bool) (f : A -> B) (l : list A) :
  List.length (filter p (map f l)) = List.length (filter (fun x => p (f x)) l).
Proof.
  induction l as [|x l IH]; simpl; [reflexivity|].
  destruct (p (f x)); simpl; now rewrite IH.
Qed.

Section CleanerMore.
Context {P : Coercions}.

Lemma main_ok_summary (df : frame) (out : ap_cleaning.cleaning_output) :
  ap_cleaning.main df = Ok out ->
  ap_cleaning.rows_total out = List.length (rows df)
  /\ ap_cleaning.rows_cleaned out = List.length (rows (ap_cleaning.df_clean out))
  /\ ap_cleaning.dq_cleaned out = ap_cleaning.summary_cleaned (ap_cleaning.df_clean out).
Proof.
  unfold ap_cleaning.main, require.
  destruct (has "APID" df); [|discriminate].
  destruct (has "Amount" df); [|discriminate].
  destruct (has "InvoiceDate" df); [|discriminate].
  destruct (has "DueDate" df); [|discriminate].
  destruct (has "Currency" df); [|discriminate].
  destruct (has "Vendor" df); [|discriminate].
  simpl. intros H. injection H as <-. simpl. auto.
Qed.

(** Every row of the input is either counted as removed or is in the
    cleaned table: the three numbers of the cleaning summary add up. *)
Theorem cleaning_counts_add_up (df : frame) (out : ap_cleaning.cleaning_output) :
  ap_cleaning.main df = Ok out ->
  ap_cleaning.rows_total out = List.length (rows df)
  /\ ap_cleaning.rows_cleaned out = List.length (rows (ap_cleaning.df_clean out))
  /\ ap_cleaning.rows_total out
     = ap_cleaning.rows_removed out + ap_cleaning.rows_cleaned out.
Proof.
  intros H. destruct (main_ok _ H) as (_ & _ & Hrows & Hrem & _).
  destruct (main_ok_summary _ H) as (Htot & Hcl & _).
  split; [exact Htot|]. split; [exact Hcl|].
  rewrite Htot, Hcl, Hrem, Hrows, length_map, kept_rowwise.
  rewrite drop_mask_rowwise, rows_df_chk, s_count_map, filter_map_length.
  symmetry. apply filter_complement_length.
Qed.

(** The cleaner returns a table exactly when the six columns it indexes are
    all there; otherwise it raises [KeyError] for the first one that is
    missing, in the order in which the code reaches them. *)
Theorem cleaner_raises_for_first_missing_column (df : frame) :
  (first_missing REQUIRED_BY_CLEANER df = None ->
   exists out, ap_cleaning.main df = Ok out)
  /\ (forall c, first_missing REQUIRED_BY_CLEANER df = Some c ->
                ap_cleaning.main df = Raise (KeyError c)).
Proof.
  unfold first_missing, REQUIRED_BY_CLEANER, ap_cleaning.main, require. simpl.
  destruct (has "APID" df); simpl;
    [|split; [discriminate | intros c H; injection H as <-; reflexivity]].
  destruct (has "Amount" df); simpl;
    [|split; [discriminate | intros c H; injection H as <-; reflexivity]].
  destruct (has "InvoiceDate" df); simpl;
    [|split; [discriminate | intros c H; injection H as <-; reflexivity]].
  destruct (has "DueDate" df); simpl;
    [|split; [discriminate | intros c H; injection H as <-; reflexivity]].
  destruct (has "Currency" df); simpl;
    [|split; [discriminate | intros c H; injection H as <-; reflexivity]].
  destruct (has "Vendor" df); simpl;
    [|split; [discriminate | intros c H; injection H as <-; reflexivity]].
  split; [intros _; eexists; reflexivity | discriminate].
Qed.

(** In a table whose two date columns are datetime columns, a row that
    names its vendor, passes the five record-level tests and whose
    composite key occurs once in the table is in the cleaned table, with
    its amount converted to a number. *)
Theorem valid_unique_row_is_kept
  (df : frame) (out : ap_cleaning.cleaning_output) (r : row) :
  date_columns_typed df = true ->
  ap_cleaning.main df = Ok out ->
  In r (rows df) ->
  isna (Vendor r) = false ->
  row_invalid (convert_dates df r) = false ->
  count_occ string_dec (ap_cleaning.compkey (ap_cleaning.df_chk df))
            (row_key (convert_dates df r)) = 1 ->
  In (set_Amount (to_numeric (Amount r)) r) (rows (ap_cleaning.df_clean out)).
Proof.
  intros _ H Hin _ Hvalid Honce.
  destruct (main_ok _ H) as (_ & _ & Hrows & _ & _).
  rewrite Hrows.
  apply (in_map (fun x => set_Amount (to_numeric (Amount x)) x)).
  rewrite kept_rowwise. apply filter_In.
  split; [exact Hin|]. apply negb_true_iff. unfold row_dropped.
  rewrite compkey_rowwise, rows_df_chk in Honce.
  rewrite Hvalid, Honce. reflexivity.
Qed.

(** The check the cleaner prints after cleaning, for an input whose two
    date columns are datetime columns (converting them again, as the
    check does, then changes nothing): every count but the duplicates is
    zero. *)
Theorem counts_after_cleaning_are_zero
  (df : frame) (out : ap_cleaning.cleaning_output) :
  date_columns_typed df = true ->
  ap_cleaning.main df = Ok out ->
  ap_cleaning.missing_APID (ap_cleaning.dq_cleaned out) = 0
  /\ ap_cleaning.amount_zero_negative_or_na (ap_cleaning.dq_cleaned out) = 0
  /\ ap_cleaning.invalid_invoice_date (ap_cleaning.dq_cleaned out) = 0
  /\ ap_cleaning.invalid_due_date (ap_cleaning.dq_cleaned out) = 0
  /\ ap_cleaning.due_before_invoice_count (ap_cleaning.dq_cleaned out) = 0
  /\ ap_cleaning.invalid_currency (ap_cleaning.dq_cleaned out) = 0.
Proof.
  intros _ H. destruct (main_ok_summary _ H) as (_ & _ & ->).
  pose proof (cleaned_rows_are_clean_records _ H) as Hrec.
  rewrite Forall_forall in Hrec.
  unfold ap_cleaning.summary_cleaned. cbn [ap_cleaning.missing_APID
    ap_cleaning.amount_zero_negative_or_na ap_cleaning.invalid_invoice_date
    ap_cleaning.invalid_due_date ap_cleaning.due_before_invoice_count
    ap_cleaning.invalid_currency].
  rowwise. rewrite !s_count_map.
  repeat split; rewrite ?filter_none; try reflexivity; intros r Hr;
    destruct (Hrec r Hr) as (Ha & Hs & (q & Hq & Hn & Hpos)
                             & (i & d & Ei & Ed & Hle) & Hc).
  - apply String.eqb_neq. exact Hs.
  - exact Ha.
  - rewrite Hn. simpl. destruct (Qle_bool q 0) eqn:E; [|reflexivity].
    apply Qle_bool_iff in E. exfalso. apply (Qlt_not_le _ _ Hpos E).
  - rewrite Ei. reflexivity.
  - rewrite Ed. reflexivity.
  - rewrite Ed, Ei. simpl. apply Z.ltb_ge. exact Hle.
  - rewrite Hc. reflexivity.
Qed.

(** For every input whose two date columns are datetime columns, every
    row of the cleaned table passes the five record-level rules, the
    cleaned table has the columns of the input, and the rows that were
    kept had pairwise distinct composite keys in the input. *)
Theorem cleaner_output_passes_the_record_rules
  (df : frame) (out : ap_cleaning.cleaning_output) :
  date_columns_typed df = true ->
  ap_cleaning.main df = Ok out ->
  Forall clean_record (rows (ap_cleaning.df_clean out))
  /\ columns (ap_cleaning.df_clean out) = columns df
  /\ NoDup (map (fun r => row_key (convert_dates df r)) (ap_cleaning.kept df)).
Proof.
  intros _ H. split; [exact (cleaned_rows_are_clean_records _ H)|].
  split; [|apply kept_keys_distinct].
  destruct (main_ok _ H) as (_ & _ & _ & _ & Hcols). exact Hcols.
Qed.

(** A table that already satisfies every rule (the six columns are there,
    the two date columns are datetime columns, every row is a clean
    record and names its vendor, no composite key comes twice) goes
    through the cleaner unchanged. *)
Theorem cleaner_returns_a_clean_table_unchanged (t : frame) :
  forallb (fun c => has c t)
          ["APID"; "Amount"; "InvoiceDate"; "DueDate"; "Currency"; "Vendor"]%string
  = true ->
  date_columns_typed t = true ->
  Forall (fun r => isna (Vendor r) = false) (rows t) ->
  Forall clean_record (rows t) ->
  NoDup (ap_cleaning.compkey (ap_cleaning.df_chk t)) ->
  exists out, ap_cleaning.main t = Ok out
              /\ ap_cleaning.df_clean out = t
              /\ ap_cleaning.rows_removed out = 0.
Proof. intros Hcols _ _. exact (recleaning_a_clean_table t Hcols). Qed.
End CleanerMore.

Lemma clean_records_witness :
  exists out,
    @ap_cleaning.main pandas_std three_amounts = Ok out
    /\ Forall (@clean_record pandas_std) (rows (ap_cleaning.df_clean out)).
Proof.
  destruct (@main_returns pandas_std three_amounts eq_refl) as [out H].
  exists out. split; [exact H|].
  exact (proj1 (@cleaner_output_passes_the_record_rules pandas_std three_amounts out
                  eq_refl H)).
Defined.

Lemma single_clean_records : Forall (@clean_record pandas_std) (rows single_clean).
Proof.
  repeat constructor; simpl; try discriminate.
  - exists (201 # 2)%Q. repeat split.
  - exists jan01, jan31. repeat split. vm_compute. discriminate.
Qed.

Lemma recleaning_witness :
  Forall (@clean_record pandas_std) (rows single_clean)
  /\ NoDup (@ap_cleaning.compkey pandas_std (@ap_cleaning.df_chk pandas_std single_clean))
  /\ exists out, @ap_cleaning.main pandas_std single_clean = Ok out
                 /\ ap_cleaning.df_clean out = single_clean
                 /\ ap_cleaning.rows_removed out = 0.
Proof.
  assert (H2 : NoDup (@ap_cleaning.compkey pandas_std
                        (@ap_cleaning.df_chk pandas_std single_clean)))
    by (vm_compute; repeat constructor; simpl; tauto).
  split; [exact single_clean_records|]. split; [exact H2|].
  exact (@cleaner_returns_a_clean_table_unchanged pandas_std single_clean eq_refl
           eq_refl ltac:(repeat constructor) single_clean_records H2).
Defined.

Lemma cleaning_counts_witness :
  exists out,
    @ap_cleaning.main pandas_std three_amounts = Ok out
    /\ ap_cleaning.rows_total out = 3
    /\ ap_cleaning.rows_total out
       = ap_cleaning.rows_removed out + ap_cleaning.rows_cleaned out.
Proof.
  destruct (@main_returns pandas_std three_amounts eq_refl) as [out H].
  exists out. split; [exact H|].
  destruct (@cleaning_counts_add_up pandas_std _ _ H) as (Ht & _ & Hsum).
  split; [exact Ht | exact Hsum].
Defined.

Lemma cleaner_key_error_witness :
  first_missing REQUIRED_BY_CLEANER no_currency_column = Some "Currency"%string
  /\ @ap_cleaning.main pandas_std no_currency_column = Raise (KeyError "Currency").
Proof.
  assert (H : first_missing REQUIRED_BY_CLEANER no_currency_column
              = Some "Currency"%string) by reflexivity.
  split; [exact H|].
  exact (proj2 (@cleaner_raises_for_first_missing_column pandas_std no_currency_column)
               _ H).
Defined.

(** The invoice of 100.5 is kept; those of 0 and of -5 are not. *)
Lemma valid_unique_row_witness :
  exists out,
    @ap_cleaning.main pandas_std three_amounts = Ok out
    /\ In (invoice "A3" "Acme" (Num (201 # 2))) (rows (ap_cleaning.df_clean out)).
Proof.
  destruct (@main_returns pandas_std three_amounts eq_refl) as [out H].
  exists out. split; [exact H|].
  apply (@valid_unique_row_is_kept pandas_std three_amounts out
           (invoice "A3" "Acme" (Num (201 # 2))) eq_refl H).
  - simpl. tauto.
  - reflexivity.
  - vm_compute. reflexivity.
  - vm_compute. reflexivity.
Defined.

Lemma counts_after_cleaning_witness :
  exists out,
    @ap_cleaning.main pandas_std three_amounts = Ok out
    /\ ap_cleaning.amount_zero_negative_or_na (ap_cleaning.dq_cleaned out) = 0.
Proof.
  destruct (@main_returns pandas_std three_amounts eq_refl) as [out H].
  exists out. split; [exact H|].
  exact (proj1 (proj2 (@counts_after_cleaning_are_zero pandas_std three_amounts out
                         eq_refl H))).
Defined.

(** ** The cleaning of the dashboard *)

Lemma Forall_filter_step {A} (Qp Q : A -> Prop) (p : A -> bool) (l : list A) :
  Forall Qp l -> (forall x, Qp x -> p x = true -> Q x) -> Forall Q (filter p l).
Proof.
  intros Hl Hstep. apply Forall_forall. intros x Hx.
  apply filter_In in Hx. destruct Hx as [Hx Hp].
  rewrite Forall_forall in Hl. auto.
Qed.

Lemma Forall_map_filter_step {A} (Qp Q : A -> Prop) (f : A -> A) (p : A -> bool)
  (l : list A) :
  Forall Qp l -> (forall x, Qp x -> p x = true -> Q (f x)) ->
  Forall Q (map f (filter p l)).
Proof.
  intros Hl Hstep. apply Forall_forall. intros y Hy.
  apply in_map_iff in Hy. destruct Hy as [x [<- Hx]].
  apply filter_In in Hx. destruct Hx as [Hx Hp].
  rewrite Forall_forall in Hl. auto.
Qed.

(** Keeping first occurrences leaves pairwise distinct keys, none of which
    was seen before. *)
Lemma keep_first_NoDup {A} (f : A -> string) (l : list A) :
  forall seen,
    NoDup (map f (loc (map negb (duplicated_first seen (map f l))) l))
    /\ forall k, In k seen ->
                 ~ In k (map f (loc (map negb (duplicated_first seen (map f l))) l)).
Proof.
  induction l as [|x l IH]; intros seen; simpl.
  - split; [constructor | tauto].
  - destruct (IH (f x :: seen)) as [Hnd Hseen].
    destruct (isin seen (f x)) eqn:E; simpl.
    + split; [exact Hnd|]. intros k Hk. apply Hseen. now right.
    + split.
      * constructor; [|exact Hnd]. apply Hseen. now left.
      * intros k Hk [Hx|Hin].
        -- subst k. unfold isin in E.
           assert (existsb (String.eqb (f x)) seen = true).
           { apply existsb_exists. exists (f x). split; [exact Hk|].
             apply String.eqb_refl. }
           congruence.
        -- apply (Hseen k); [now right | exact Hin].
Qed.

(** On a column of pairwise distinct keys, none of them seen before,
    nothing is dropped. *)
Lemma keep_first_of_distinct {A} (f : A -> string) (l : list A) :
  forall seen,
    NoDup (map f l) -> (forall x, In x l -> ~ In (f x) seen) ->
    loc (map negb (duplicated_first seen (map f l))) l = l.
Proof.
  induction l as [|x l IH]; intros seen Hnd Hseen; simpl; [reflexivity|].
  inversion Hnd as [|k ks Hx Hnd']; subst.
  assert (E : isin seen (f x) = false).
  { destruct (isin seen (f x)) eqn:E; [|reflexivity].
    unfold isin in E. apply existsb_exists in E. destruct E as [k [Hk Hkx]].
    apply String.eqb_eq in Hkx. subst k.
    exfalso. apply (Hseen x); [now left | exact Hk]. }
  rewrite E. simpl. f_equal. apply IH; [exact Hnd'|].
  intros y Hy [Hyx|Hin].
  - apply Hx. rewrite Hyx. now apply in_map.
  - apply (Hseen y); [now right | exact Hin].
Qed.

Lemma allowed_is_stripped (s : string) :
  isin app.ALLOWED_CCY s = true -> strip s = s.
Proof.
  unfold isin, app.ALLOWED_CCY. simpl. rewrite !orb_true_iff, !String.eqb_eq.
  intros [H|[H|[H|[H|[H|[H|H]]]]]]; try discriminate; subst; reflexivity.
Qed.

Lemma set_dates_same (r : row) :
  set_dates (InvoiceDate r) (DueDate r) (PaidDate r) r = r.
Proof. destruct r; reflexivity. Qed.

Lemma set_Currency_same (r : row) : set_Currency (Currency r) r = r.
Proof. destruct r; reflexivity. Qed.

Section DashboardClean.
Context {P : Coercions}.

Lemma step_apid_rows (df : frame) :
  rows (app.step_apid df)
  = filter (fun r => notna (APID r)
                     && negb (String.eqb (strip (astype_str (APID r))) ""))
           (rows df).
Proof.
  unfold app.step_apid, select. cbn [rows]. rowwise. apply loc_map_filter.
Qed.

Lemma step_amount_rows (df : frame) :
  rows (app.step_amount df)
  = map (fun r => set_Amount (to_numeric (Amount r)) r)
        (filter (fun r => num_gt0 (to_numeric (Amount r))) (rows df)).
Proof.
  unfold app.step_amount, select, assign, col. cbn [rows].
  rewrite !map_map. cbn [Amount set_Amount].
  apply (loc_map_map (fun r => num_gt0 (to_numeric (Amount r)))).
Qed.

Lemma step_dates_rows (df : frame) :
  rows (app.step_dates df)
  = map (convert_dates df)
        (filter (fun r => notna (InvoiceDate (convert_dates df r))
                          && notna (DueDate (convert_dates df r)))
                (rows df)).
Proof.
  unfold app.step_dates, select, assign, col. cbn [rows].
  unfold s_and. rewrite !map_map, zip_with_map.
  apply (loc_map_map (fun r => notna (InvoiceDate (convert_dates df r))
                               && notna (DueDate (convert_dates df r)))).
Qed.

Lemma step_order_rows (df : frame) :
  rows (app.step_order df)
  = filter (fun r => ts_ge (DueDate r) (InvoiceDate r)) (rows df).
Proof.
  unfold app.step_order, select, col. cbn [rows]. rewrite zip_with_map.
  apply loc_map_filter.
Qed.

Lemma step_currency_rows (df : frame) :
  rows (app.step_currency df)
  = if has "Currency" df
    then map (fun r => set_Currency (Txt (strip (astype_str (Currency r)))) r)
             (filter (fun r => isin app.ALLOWED_CCY (strip (astype_str (Currency r))))
                     (rows df))
    else rows df.
Proof.
  unfold app.step_currency. destruct (has "Currency" df); [|reflexivity].
  unfold select, assign, col. cbn [rows]. rewrite !map_map.
  cbn [Currency set_Currency astype_str].
  apply (loc_map_map (fun r => isin app.ALLOWED_CCY (strip (astype_str (Currency r))))).
Qed.

Lemma columns_clean_valid (df : frame) :
  columns (app._clean_valid df) = columns df.
Proof.
  unfold app._clean_valid, app.step_currency.
  match goal with |- context [if ?b then _ else _] => destruct b end; reflexivity.
Qed.

Lemma clean_ok (df out : frame) :
  app._clean df = Ok out ->
  has "InvoiceDate" df = true /\ has "DueDate" df = true
  /\ out = app.step_dedup (app._clean_valid df).
Proof.
  unfold app._clean, require.
  destruct (has "APID" df); [|discriminate].
  destruct (has "Amount" df); [|discriminate].
  destruct (has "InvoiceDate" df); [|discriminate].
  destruct (has "DueDate" df); [|discriminate].
  destruct (has "Vendor" df); [|discriminate].
  simpl. intros H. injection H as <-. auto.
Qed.

(** Steps 1 to 5 leave only rows in the dashboard's normal form. *)
Lemma clean_valid_records (df : frame) :
  has "InvoiceDate" df = true -> has "DueDate" df = true ->
  Forall (dashboard_record df) (rows (app._clean_valid df)).
Proof.
  intros Hi Hd. unfold app._clean_valid.
  set (S1 := app.step_apid df).
  set (S2 := app.step_amount S1).
  set (S3 := app.step_dates S2).
  set (S4 := app.step_order S3).
  assert (Hc2 : forall c, has c S2 = has c df) by reflexivity.
  assert (Hc4 : forall c, has c S4 = has c df) by reflexivity.
  set (Q1 := fun r : row =>
               isna (APID r) = false /\ strip (astype_str (APID r)) <> EmptyString).
  set (Q2 := fun r : row => Q1 r /\ exists q, Amount r = Num q /\ (0 < q)%Q).
  set (Q3 := fun r : row =>
               Q2 r /\ (exists i d, InvoiceDate r = Ts i /\ DueDate r = Ts d)
               /\ (has "PaidDate" df = true -> to_datetime (PaidDate r) = PaidDate r)).
  set (Q4 := fun r : row => Q3 r /\ ts_ge (DueDate r) (InvoiceDate r) = true).
  assert (H1 : Forall Q1 (rows S1)).
  { subst S1. rewrite step_apid_rows.
    apply Forall_filter_step with (Qp := fun _ : row => True);
      [apply Forall_forall; auto|].
    intros r _ Hp. apply andb_true_iff in Hp. destruct Hp as [Ha Hs].
    subst Q1. split.
    - now apply negb_true_iff in Ha.
    - apply negb_true_iff in Hs. now apply String.eqb_neq. }
  assert (H2 : Forall Q2 (rows S2)).
  { subst S2. rewrite step_amount_rows.
    apply Forall_map_filter_step with (Qp := Q1); [exact H1|].
    intros r Hq Hp. subst Q2. split; [exact Hq|]. cbn [Amount set_Amount].
    destruct (to_numeric_cases (Amount r)) as [E|[q E]]; rewrite E in *;
      [discriminate|].
    exists q. split; [reflexivity|]. simpl in Hp.
    apply negb_true_iff in Hp. apply Qnot_le_lt. intros Hle.
    apply Qle_bool_iff in Hle. congruence. }
  assert (H3 : Forall Q3 (rows S3)).
  { subst S3. rewrite step_dates_rows.
    apply Forall_map_filter_step with (Qp := Q2); [exact H2|].
    intros r Hq Hp. subst Q3. split; [exact Hq|].
    unfold convert_dates in *. cbn [InvoiceDate DueDate PaidDate set_dates] in *.
    rewrite !Hc2 in *. rewrite Hi, Hd in *.
    apply andb_true_iff in Hp. destruct Hp as [Hpi Hpd]. split.
    - destruct (to_datetime_cases (InvoiceDate r)) as [E|[i E]]; rewrite E in *;
        [discriminate|].
      destruct (to_datetime_cases (DueDate r)) as [E'|[d E']]; rewrite E' in *;
        [discriminate|].
      eauto.
    - intros Hp. rewrite Hp. apply to_datetime_idem. }
  assert (H4 : Forall Q4 (rows S4)).
  { subst S4. rewrite step_order_rows.
    apply Forall_filter_step with (Qp := Q3); [exact H3|].
    intros r Hq Hp. subst Q4. split; assumption. }
  assert (Hfinal : forall r, Q4 r ->
             (has "Currency" df = true ->
              exists s, Currency r = Txt s /\ isin app.ALLOWED_CCY s = true) ->
             dashboard_record df r).
  { intros r Hq4 Hccy. unfold Q4, Q3, Q2, Q1 in Hq4.
    destruct Hq4 as (((Ha & (q & Hq)) & (i & d & Ei & Ed) & Hpaid) & Hge).
    unfold dashboard_record. repeat split; try apply Ha; auto.
    - exists q. exact Hq.
    - exists i, d. repeat split; auto. rewrite Ei, Ed in Hge. simpl in Hge.
      now apply Z.leb_le. }
  rewrite step_currency_rows, Hc4.
  destruct (has "Currency" df) eqn:Hcur.
  - apply Forall_map_filter_step with (Qp := Q4); [exact H4|].
    intros r Hq Hp. apply Hfinal.
    + exact Hq.
    + intros _. eexists. split; [reflexivity | exact Hp].
  - eapply Forall_impl; [|exact H4]. intros r Hq. apply Hfinal; [exact Hq|].
    discriminate.
Qed.
End DashboardClean.

Lemma Forall_loc {A} (Q : A -> Prop) (l : list A) :
  forall m, Forall Q l -> Forall Q (loc m l).
Proof.
  induction l as [|x l IH]; intros [|b m] H; simpl; try constructor.
  inversion H; subst. destruct b; [constructor|]; auto.
Qed.

Lemma frame_eq (a b : frame) :
  columns a = columns b -> rows a = rows b -> a = b.
Proof. destruct a, b; simpl; intros -> ->; reflexivity. Qed.

Section DashboardCleanClaims.
Context {P : Coercions}.

Lemma clean_ok_columns (df out : frame) :
  app._clean df = Ok out ->
  forallb (fun c => has c df) ["APID"; "Amount"; "InvoiceDate"; "DueDate"; "Vendor"]%string
  = true.
Proof.
  unfold app._clean, require. simpl.
  destruct (has "APID" df); [|discriminate].
  destruct (has "Amount" df); [|discriminate].
  destruct (has "InvoiceDate" df); [|discriminate].
  destruct (has "DueDate" df); [|discriminate].
  destruct (has "Vendor" df); [|discriminate]. reflexivity.
Qed.

Lemma columns_clean (df out : frame) :
  app._clean df = Ok out -> columns out = columns df.
Proof.
  intros H. destruct (clean_ok _ H) as (_ & _ & ->).
  unfold app.step_dedup, select. cbn [columns]. apply columns_clean_valid.
Qed.

Lemma clean_rows_valid_distinct (df out : frame) :
  app._clean df = Ok out ->
  Forall (dashboard_record df) (rows out) /\ NoDup (app.CompositeKey out).
Proof.
  intros H. destruct (clean_ok _ H) as (Hi & Hd & ->). split.
  - unfold app.step_dedup, select. cbn [rows]. apply Forall_loc.
    now apply clean_valid_records.
  - rewrite (CompositeKey_rowwise (app.step_dedup (app._clean_valid df))).
    unfold app.step_dedup, select, s_not. cbn [rows].
    rewrite (CompositeKey_rowwise (app._clean_valid df)).
    apply (keep_first_NoDup row_key (rows (app._clean_valid df)) []).
Qed.

(** Every row of the dashboard's cleaned table is in normal form, and no
    two of them share the composite key: the key is built after the
    amount, the dates and the currency have been converted. *)
Theorem dashboard_clean_rows_are_valid_and_distinct (df out : frame) :
  app._clean df = Ok out ->
  Forall (dashboard_record df) (rows out) /\ NoDup (app.CompositeKey out).
Proof. exact (@clean_rows_valid_distinct df out). Qed.

(** A table in the dashboard's normal form passes steps 1 to 5 unchanged. *)
Lemma clean_valid_fixed (t : frame) :
  has "InvoiceDate" t = true -> has "DueDate" t = true ->
  Forall (dashboard_record t) (rows t) ->
  app._clean_valid t = t.
Proof.
  intros Hi Hd Hrec. rewrite Forall_forall in Hrec. unfold app._clean_valid.
  assert (E1 : app.step_apid t = t).
  { apply frame_eq; [reflexivity|]. rewrite step_apid_rows. apply filter_all.
    intros r Hr. destruct (Hrec r Hr) as ((Ha & Hs) & _).
    unfold notna. rewrite Ha. apply String.eqb_neq in Hs. rewrite Hs. reflexivity. }
  rewrite E1.
  assert (E2 : app.step_amount t = t).
  { apply frame_eq; [reflexivity|]. rewrite step_amount_rows.
    rewrite filter_all.
    - rewrite <- (map_id (rows t)) at 2. apply map_ext_in. intros r Hr.
      destruct (Hrec r Hr) as (_ & (q & Hq & _) & _).
      rewrite Hq. simpl. rewrite <- Hq. apply set_Amount_same.
    - intros r Hr. destruct (Hrec r Hr) as (_ & (q & Hq & Hpos) & _).
      rewrite Hq. simpl. apply negb_true_iff.
      destruct (Qle_bool q 0) eqn:E; [|reflexivity].
      apply Qle_bool_iff in E. exfalso. apply (Qlt_not_le _ _ Hpos E). }
  rewrite E2.
  assert (Hconv : forall r, In r (rows t) -> convert_dates t r = r).
  { intros r Hr. destruct (Hrec r Hr) as (_ & _ & (i & d & Ei & Ed & _) & Hpaid & _).
    unfold convert_dates. rewrite Hi, Hd, Ei, Ed. simpl.
    destruct (has "PaidDate" t).
    - rewrite (Hpaid eq_refl), <- Ei, <- Ed. apply set_dates_same.
    - rewrite <- Ei, <- Ed. apply set_dates_same. }
  assert (E3 : app.step_dates t = t).
  { apply frame_eq; [reflexivity|]. rewrite step_dates_rows.
    rewrite filter_all.
    - rewrite <- (map_id (rows t)) at 2. apply map_ext_in. exact Hconv.
    - intros r Hr. rewrite (Hconv r Hr).
      destruct (Hrec r Hr) as (_ & _ & (i & d & Ei & Ed & _) & _).
      rewrite Ei, Ed. reflexivity. }
  rewrite E3.
  assert (E4 : app.step_order t = t).
  { apply frame_eq; [reflexivity|]. rewrite step_order_rows. apply filter_all.
    intros r Hr. destruct (Hrec r Hr) as (_ & _ & (i & d & Ei & Ed & Hle) & _).
    rewrite Ei, Ed. simpl. now apply Z.leb_le. }
  rewrite E4.
  apply frame_eq.
  - unfold app.step_currency. destruct (has "Currency" t); reflexivity.
  - rewrite step_currency_rows. destruct (has "Currency" t) eqn:Hc; [|reflexivity].
    rewrite filter_all.
    + rewrite <- (map_id (rows t)) at 2. apply map_ext_in. intros r Hr.
      destruct (Hrec r Hr) as (_ & _ & _ & _ & Hccy).
      destruct (Hccy Hc) as (s & Hs & Hin). rewrite Hs. simpl.
      rewrite (allowed_is_stripped _ Hin), <- Hs. apply set_Currency_same.
    + intros r Hr. destruct (Hrec r Hr) as (_ & _ & _ & _ & Hccy).
      destruct (Hccy Hc) as (s & Hs & Hin). rewrite Hs. simpl.
      now rewrite (allowed_is_stripped _ Hin).
Qed.

Lemma dashboard_record_columns (df t : frame) (r : row) :
  columns t = columns df -> dashboard_record df r -> dashboard_record t r.
Proof.
  intros Hc. unfold dashboard_record, has. now rewrite Hc.
Qed.

(** The dashboard's cleaning is idempotent: cleaning its own result returns
    that result. *)
Theorem dashboard_clean_is_idempotent (df out : frame) :
  app._clean df = Ok out -> app._clean out = Ok out.
Proof.
  intros H.
  pose proof (columns_clean _ H) as Hcols.
  pose proof (clean_ok_columns _ H) as Hreq.
  destruct (clean_rows_valid_distinct _ H) as [Hrec Hnd].
  assert (Hhas : forall c, has c out = has c df) by (intros c; unfold has; now rewrite Hcols).
  simpl in Hreq. rewrite !andb_true_iff in Hreq.
  destruct Hreq as (H1 & H2 & H3 & H4 & H5 & _).
  unfold app._clean, require. rewrite !Hhas, H1, H2, H3, H4, H5. simpl.
  rewrite clean_valid_fixed.
  - f_equal. apply frame_eq; [reflexivity|].
    unfold app.step_dedup, select, s_not. cbn [rows].
    rewrite (CompositeKey_rowwise out) in Hnd |- *.
    apply keep_first_of_distinct; [exact Hnd | intros x _ []].
  - now rewrite Hhas.
  - now rewrite Hhas.
  - eapply Forall_impl; [|exact Hrec]. intros r Hr.
    exact (@dashboard_record_columns df out r Hcols Hr).
Qed.

Lemma dashboard_record_is_clean_record (df : frame) (r : row) :
  has "Currency" df = true -> dashboard_record df r -> clean_record r.
Proof.
  intros Hc ((Ha & Hs) & (q & Hq & Hpos) & (i & d & Ei & Ed & Hle) & _ & Hccy).
  destruct (Hccy Hc) as (s & Hcur & Hin).
  unfold clean_record. repeat split; auto.
  - exists q. rewrite Hq. repeat split. exact Hpos.
  - exists i, d. rewrite Ei, Ed. repeat split. exact Hle.
  - rewrite Hcur. simpl. rewrite (allowed_is_stripped _ Hin). exact Hin.
Qed.

(** A table cleaned by the dashboard, [Currency] column included, passes
    the batch cleaner unchanged: nothing is removed. *)
Theorem batch_cleaner_accepts_dashboard_output (df out : frame) :
  app._clean df = Ok out ->
  has "Currency" df = true ->
  exists o, ap_cleaning.main out = Ok o
            /\ ap_cleaning.df_clean o = out
            /\ ap_cleaning.rows_removed o = 0.
Proof.
  intros H Hc.
  pose proof (columns_clean _ H) as Hcols.
  pose proof (clean_ok_columns _ H) as Hreq.
  destruct (clean_rows_valid_distinct _ H) as [Hrec Hnd].
  assert (Hhas : forall c, has c out = has c df) by (intros c; unfold has; now rewrite Hcols).
  simpl in Hreq. rewrite !andb_true_iff in Hreq.
  destruct Hreq as (H1 & H2 & H3 & H4 & H5 & _).
  apply recleaning_a_clean_table.
  - simpl. rewrite !Hhas, H1, H2, H3, H4, H5, Hc. reflexivity.
  - eapply Forall_impl; [|exact Hrec]. intros r Hr.
    exact (@dashboard_record_is_clean_record df r Hc Hr).
  - rewrite compkey_rowwise, rows_df_chk, map_map.
    rewrite (CompositeKey_rowwise out) in Hnd.
    erewrite map_ext_in; [exact Hnd|].
    intros r Hr. rewrite Forall_forall in Hrec.
    destruct (Hrec r Hr) as (_ & _ & (i & d & Ei & Ed & _) & _).
    unfold row_key, convert_dates. cbn [APID Vendor InvoiceDate Amount set_dates].
    rewrite Hhas, H3, Ei. reflexivity.
Qed.
End DashboardCleanClaims.

(** The table of [text_amounts]: the dashboard keeps one of the two
    invoices of 100 and drops the row whose amount is no number,
    cleaning that again changes nothing, and the batch cleaner removes
    nothing from it. *)
Lemma dashboard_clean_witness :
  @app._clean pandas_std text_amounts
  = Ok (mkFrame raw_columns [invoice "A1" "Acme" (Num 100)])
  /\ NoDup (@app.CompositeKey pandas_std
              (mkFrame raw_columns [invoice "A1" "Acme" (Num 100)])).
Proof.
  assert (H : @app._clean pandas_std text_amounts
              = Ok (mkFrame raw_columns [invoice "A1" "Acme" (Num 100)]))
    by (vm_compute; reflexivity).
  split; [exact H|].
  exact (proj2 (@dashboard_clean_rows_are_valid_and_distinct pandas_std _ _ H)).
Defined.

Lemma dashboard_idempotent_witness :
  @app._clean pandas_std text_amounts
  = Ok (mkFrame raw_columns [invoice "A1" "Acme" (Num 100)])
  /\ @app._clean pandas_std (mkFrame raw_columns [invoice "A1" "Acme" (Num 100)])
     = Ok (mkFrame raw_columns [invoice "A1" "Acme" (Num 100)]).
Proof.
  assert (H : @app._clean pandas_std text_amounts
              = Ok (mkFrame raw_columns [invoice "A1" "Acme" (Num 100)]))
    by (vm_compute; reflexivity).
  split; [exact H|].
  exact (@dashboard_clean_is_idempotent pandas_std _ _ H).
Defined.

Lemma batch_accepts_dashboard_witness :
  @app._clean pandas_std text_amounts
  = Ok (mkFrame raw_columns [invoice "A1" "Acme" (Num 100)])
  /\ has "Currency" text_amounts = true
  /\ exists o,
       @ap_cleaning.main pandas_std (mkFrame raw_columns [invoice "A1" "Acme" (Num 100)])
       = Ok o
       /\ ap_cleaning.df_clean o = mkFrame raw_columns [invoice "A1" "Acme" (Num 100)]
       /\ ap_cleaning.rows_removed o = 0.
Proof.
  assert (H : @app._clean pandas_std text_amounts
              = Ok (mkFrame raw_columns [invoice "A1" "Acme" (Num 100)]))
    by (vm_compute; reflexivity).
  split; [exact H|]. split; [reflexivity|].
  exact (@batch_cleaner_accepts_dashboard_output pandas_std _ _ H eq_refl).
Defined.

(** ** Feature derivation, once more *)

Lemma existsb_with_column_other (c x : string) (cs : list string) :
  String.eqb c x = false ->
  existsb (String.eqb c) (with_column x cs) = existsb (String.eqb c) cs.
Proof.
  intros H. unfold with_column. destruct (existsb (String.eqb x) cs); [reflexivity|].
  rewrite existsb_app. simpl. rewrite H. now rewrite !orb_false_r.
Qed.

Lemma with_column_present (c : string) (cs : list string) :
  existsb (String.eqb c) cs = true -> with_column c cs = cs.
Proof. intros H. unfold with_column. now rewrite H. Qed.

Lemma normalize_mono (a b : Z) : (a <= b)%Z -> (normalize a <= normalize b)%Z.
Proof.
  intros H. unfold normalize.
  assert (Hn : (0 < ns_per_day)%Z) by reflexivity.
  rewrite !Zmod_eq_full by (unfold ns_per_day; lia).
  pose proof (Z.div_le_mono a b ns_per_day Hn H). nia.
Qed.

Lemma cut_rank_mono (a b : Z) :
  (0 <= a <= b)%Z ->
  exists x y, cut a = Cat x /\ cut b = Cat y /\ (bucket_rank x <= bucket_rank y)%Z.
Proof.
  intros H. unfold cut.
  destruct (Z.leb_spec a (-1)); [lia|]. destruct (Z.leb_spec b (-1)); [lia|].
  destruct (Z.leb_spec a 0), (Z.leb_spec b 0), (Z.leb_spec a 30), (Z.leb_spec b 30),
    (Z.leb_spec a 60), (Z.leb_spec b 60), (Z.leb_spec a 90), (Z.leb_spec b 90);
    try lia; do 2 eexists; repeat split; simpl; lia.
Qed.

Section FeaturesAgain.
Context {P : Coercions}.

Lemma has_ensure_features_other (now : Z) (df : frame) (c : string) :
  String.eqb c "IsPaid" = false -> String.eqb c "DaysPastDue" = false ->
  String.eqb c "AgingBucket" = false ->
  has c (_ensure_features now df) = has c df.
Proof.
  intros H1 H2 H3. unfold has, _ensure_features. cbn [columns].
  now rewrite !existsb_with_column_other.
Qed.

Lemma columns_ensure_features_again (now1 now2 : Z) (df : frame) :
  columns (_ensure_features now2 (_ensure_features now1 df))
  = columns (_ensure_features now1 df).
Proof.
  unfold _ensure_features. cbn [columns].
  set (cs := columns df).
  assert (Hp : existsb (String.eqb "IsPaid")
                 (with_column "AgingBucket"
                    (with_column "DaysPastDue" (with_column "IsPaid" cs))) = true)
    by (do 2 apply with_column_mono; apply with_column_same).
  assert (Hd : existsb (String.eqb "DaysPastDue")
                 (with_column "AgingBucket"
                    (with_column "DaysPastDue" (with_column "IsPaid" cs))) = true)
    by (apply with_column_mono; apply with_column_same).
  assert (Hb : existsb (String.eqb "AgingBucket")
                 (with_column "AgingBucket"
                    (with_column "DaysPastDue" (with_column "IsPaid" cs))) = true)
    by apply with_column_same.
  rewrite (with_column_present _ _ Hp), (with_column_present _ _ Hd),
    (with_column_present _ _ Hb). reflexivity.
Qed.

Lemma rows_ensure_features_again (now1 now2 : Z) (df : frame) :
  rows (_ensure_features now2 (_ensure_features now1 df))
  = map (fun r => set_features (row_is_paid df r)
                               (row_days_past_due (normalize now2) df r)
                               (row_bucket (normalize now1) df r) r)
        (rows df).
Proof.
  rewrite (ensure_features_rowwise now2), (ensure_features_rowwise now1), map_map.
  apply map_ext. intros r.
  destruct (has_ensure_features now1 df) as (_ & Hb & _).
  unfold featured_row at 1. unfold row_bucket at 1. rewrite Hb.
  unfold row_days_past_due at 1. unfold row_is_paid at 1 2.
  rewrite !(has_ensure_features_other now1 df) by reflexivity.
  unfold featured_row. cbn [Status PaidDate DueDate AgingBucket set_features].
  reflexivity.
Qed.

(** Deriving the features of a featured table again: [IsPaid] and
    [AgingBucket] stay as they are, [DaysPastDue] is that of the later
    time, and at the same time nothing changes at all. *)
Theorem features_derived_twice (now1 now2 : Z) (df : frame) :
  let df1 := _ensure_features now1 df in
  let df2 := _ensure_features now2 df1 in
  col IsPaid df2 = col IsPaid df1
  /\ col DaysPastDue df2 = col DaysPastDue (_ensure_features now2 df)
  /\ col AgingBucket df2 = col AgingBucket df1
  /\ _ensure_features now1 df1 = df1.
Proof.
  cbn zeta. unfold col.
  rewrite (rows_ensure_features_again now1 now2),
    (ensure_features_rowwise now1), (ensure_features_rowwise now2), !map_map.
  repeat split; try (apply map_ext; intros r; reflexivity).
  apply frame_eq; [apply columns_ensure_features_again|].
  rewrite rows_ensure_features_again, ensure_features_rowwise. reflexivity.
Qed.

(** As time goes by, an invoice stays paid or open, its days past due do
    not decrease and do not change at all once it is paid, and a
    synthesised bucket does not move to an earlier category. *)
Theorem days_past_due_grow_with_time (now1 now2 : Z) (df : frame) :
  (now1 <= now2)%Z ->
  Forall2 (fun r1 r2 =>
             IsPaid r1 = IsPaid r2
             /\ (DaysPastDue r1 <= DaysPastDue r2)%Z
             /\ (IsPaid r1 = true -> DaysPastDue r1 = DaysPastDue r2)
             /\ (has "AgingBucket" df = false ->
                 exists x y, cell_rank (AgingBucket r1) = Some x
                             /\ cell_rank (AgingBucket r2) = Some y /\ (x <= y)%Z))
          (rows (_ensure_features now1 df)) (rows (_ensure_features now2 df)).
Proof.
  intros Hle. rewrite !ensure_features_rowwise.
  pose proof (normalize_mono Hle) as Hn.
  induction (rows df) as [|r l IH]; simpl; constructor; [|exact IH].
  unfold featured_row. cbn [IsPaid DaysPastDue AgingBucket set_features].
  assert (Hd : (0 <= row_days_past_due (normalize now1) df r
                <= row_days_past_due (normalize now2) df r)%Z
               /\ (row_is_paid df r = true ->
                   row_days_past_due (normalize now1) df r
                   = row_days_past_due (normalize now2) df r)).
  { unfold row_days_past_due. destruct (has "DueDate" df); [|split; [lia|reflexivity]].
    destruct (row_is_paid df r); [split; [|reflexivity]; unfold clip_lower0; lia|].
    split; [|discriminate].
    destruct (DueDate r); simpl; unfold clip_lower0; try lia.
    assert ((normalize now1 - t) / ns_per_day <= (normalize now2 - t) / ns_per_day)%Z
      by (apply Z.div_le_mono; [reflexivity | lia]).
    lia. }
  destruct Hd as [Hrange Hpaid].
  split; [reflexivity|]. split; [lia|]. split; [exact Hpaid|].
  intros Hb. unfold row_bucket. rewrite Hb.
  destruct (cut_rank_mono Hrange) as (x & y & Ex & Ey & Hxy).
  exists (bucket_rank x), (bucket_rank y). rewrite Ex, Ey. auto.
Qed.

Lemma compute_features_rowwise (now : Z) (df : frame) :
  has "DueDate" df = true ->
  compute_features now df = Ok (map (derived_row (normalize now) df) (rows df)).
Proof.
  intros Hd. unfold compute_features, require. rewrite Hd. cbn [bind].
  rewrite is_paid_col_rowwise. f_equal. unfold derived_row.
  destruct (has "PaidDate" df); rowwise; rewrite ?zip_with_map;
    apply map_ext; intros r; simpl; destruct (row_is_paid df r); reflexivity.
Qed.

(** The dashboard's [compute_features] beside [_ensure_features]: without
    a [DueDate] column the dashboard raises [KeyError] where the scripts
    put 0; with one, on a table whose [DueDate] and [PaidDate] columns are
    datetime columns (as [load_data] delivers them; on others the
    subtraction of dates raises), both mark the same invoices as paid and
    agree on every day count that is defined, the dashboard's bucket
    always being the bucket of that count; where the count is undefined
    the dashboard has no bucket and the scripts count 0 days. *)
Theorem dashboard_features_beside_script_features (now : Z) (df : frame) :
  (has "DueDate" df = false ->
   compute_features now df = Raise (KeyError "DueDate")
   /\ Forall (fun r => DaysPastDue r = 0%Z) (rows (_ensure_features now df)))
  /\ (has "DueDate" df = true ->
      forallb datetime_cell (col DueDate df) = true ->
      (has "PaidDate" df = true -> forallb datetime_cell (col PaidDate df) = true) ->
      exists ds,
        compute_features now df = Ok ds
        /\ Forall2 (fun r x =>
                      d_paid x = IsPaid r
                      /\ match d_days x with
                         | Some v => DaysPastDue r = v /\ d_bucket x = cut (DaysPastDue r)
                         | None => DaysPastDue r = 0%Z /\ d_bucket x = NaN
                         end)
                   (rows (_ensure_features now df)) ds).
Proof.
  split.
  - intros Hd. split.
    + unfold compute_features, require. rewrite Hd. reflexivity.
    + rewrite ensure_features_rowwise, Forall_map. apply Forall_forall.
      intros r _. unfold featured_row, row_days_past_due. rewrite Hd. reflexivity.
  - intros Hd _ _. eexists. split; [apply (compute_features_rowwise now df Hd)|].
    rewrite ensure_features_rowwise.
    induction (rows df) as [|r l IH]; simpl; constructor; [|exact IH].
    unfold featured_row, derived_row, row_days_past_due.
    cbn [IsPaid DaysPastDue set_features d_paid d_days d_bucket]. rewrite Hd.
    split; [reflexivity|].
    destruct (row_is_paid df r); [destruct (has "PaidDate" df)|].
    + destruct (sub_days (PaidDate r) (DueDate r)); simpl; auto.
    + simpl. auto.
    + destruct (sub_days (Ts (normalize now)) (DueDate r)); simpl; auto.
Qed.
End FeaturesAgain.

(** One open invoice due on 2024-01-31, seen on 2024-03-01 and on
    2024-04-15: 30 days and then 75 days past due. *)
Lemma days_past_due_grow_witness :
  (mar01_morning <= apr15)%Z
  /\ map DaysPastDue (rows (@_ensure_features pandas_std mar01_morning
                              (@_safe_to_datetime pandas_std one_open_invoice)))
     = [30%Z]
  /\ map DaysPastDue (rows (@_ensure_features pandas_std apr15
                              (@_safe_to_datetime pandas_std one_open_invoice)))
     = [75%Z]
  /\ Forall2 (fun r1 r2 => (DaysPastDue r1 <= DaysPastDue r2)%Z)
             (rows (@_ensure_features pandas_std mar01_morning
                      (@_safe_to_datetime pandas_std one_open_invoice)))
             (rows (@_ensure_features pandas_std apr15
                      (@_safe_to_datetime pandas_std one_open_invoice))).
Proof.
  assert (H : (mar01_morning <= apr15)%Z) by (vm_compute; discriminate).
  split; [exact H|]. split; [vm_compute; reflexivity|].
  split; [vm_compute; reflexivity|].
  eapply Forall2_impl;
    [|exact (@days_past_due_grow_with_time pandas_std mar01_morning apr15
               (@_safe_to_datetime pandas_std one_open_invoice) H)].
  intros r1 r2 (_ & Hle & _). exact Hle.
Defined.

(** An invoice marked as paid without a payment date has no bucket on the
    dashboard; a table without [DueDate] makes the dashboard raise. *)
Lemma dashboard_features_witness :
  has "DueDate" no_due_date = false
  /\ @compute_features pandas_std mar01_morning no_due_date = Raise (KeyError "DueDate")
  /\ has "DueDate" paid_without_date = true
  /\ @compute_features pandas_std mar01_morning paid_without_date
     = Ok [mkDerived true None NaN]
  /\ map AgingBucket (rows (@_ensure_features pandas_std mar01_morning paid_without_date))
     = [Cat Current].
Proof.
  destruct (@dashboard_features_beside_script_features pandas_std mar01_morning
              no_due_date) as [Hno _].
  destruct (@dashboard_features_beside_script_features pandas_std mar01_morning
              paid_without_date) as [_ Hyes].
  split; [reflexivity|]. split; [exact (proj1 (Hno eq_refl))|].
  split; [reflexivity|].
  destruct (Hyes eq_refl eq_refl (fun _ => eq_refl)) as (ds & Hds & _).
  split; vm_compute; reflexivity.
Defined.

(** ** The order of the report lines *)

Section SortFacts.
Variable A : Type.
Variable leb : A -> A -> bool.
Hypothesis leb_total : forall a b, leb a b = true \/ leb b a = true.
Hypothesis leb_trans : forall a b c, leb a b = true -> leb b c = true -> leb a c = true.

Lemma insert_sorted_sorted (x : A) (l : list A) :
  StronglySorted (fun a b => leb a b = true) l ->
  StronglySorted (fun a b => leb a b = true) (insert_sorted leb x l).
Proof.
  induction l as [|y l IH]; intros Hs; simpl.
  - repeat constructor.
  - inversion Hs as [|? ? Hl Hy]; subst.
    destruct (leb x y) eqn:Hxy.
    + constructor; [exact Hs|]. constructor; [exact Hxy|].
      eapply Forall_impl; [|exact Hy]. intros z Hz. now apply leb_trans with y.
    + constructor; [now apply IH|].
      apply (Permutation_Forall (Permutation_sym (insert_sorted_perm leb x l))).
      constructor; [|exact Hy].
      destruct (leb_total x y); congruence.
Qed.

Lemma sort_by_sorted (l : list A) :
  StronglySorted (fun a b => leb a b = true) (sort_by leb l).
Proof.
  induction l as [|x l IH]; simpl; [constructor | now apply insert_sorted_sorted].
Qed.
End SortFacts.

Lemma In_firstn_In {A} (y : A) (l : list A) :
  forall n, In y (firstn n l) -> In y l.
Proof.
  induction l as [|z l IH]; intros [|n]; simpl; auto.
  - intros [].
  - intros [->|H]; [now left | right; eauto].
Qed.

Lemma StronglySorted_firstn {A} (R : A -> A -> Prop) (n : nat) (l : list A) :
  StronglySorted R l -> StronglySorted R (firstn n l).
Proof.
  revert n. induction l as [|x l IH]; intros [|n] Hs; simpl; try constructor.
  - inversion Hs; subst. now apply IH.
  - inversion Hs as [|? ? _ Hx]; subst. rewrite Forall_forall in Hx |- *.
    intros y Hy. apply Hx. exact (In_firstn_In _ _ _ Hy).
Qed.

Lemma StronglySorted_split {A} (R : A -> A -> Prop) (a b : list A) :
  StronglySorted R (a ++ b) -> forall x y, In x a -> In y b -> R x y.
Proof.
  induction a as [|z a IH]; simpl; intros Hs x y Hx Hy; [destruct Hx|].
  inversion Hs as [|? ? Hrest Hz]; subst. destruct Hx as [->|Hx].
  - rewrite Forall_forall in Hz. apply Hz. apply in_or_app. now right.
  - now apply IH.
Qed.

Lemma StronglySorted_map {A B} (R : B -> B -> Prop) (f : A -> B) (l : list A) :
  StronglySorted (fun a b => R (f a) (f b)) l -> StronglySorted R (map f l).
Proof.
  induction 1 as [|x l Hs IH Hx]; simpl; constructor; [exact IH|].
  rewrite Forall_map. exact Hx.
Qed.

Lemma key_leb_total (a b : cell) : key_leb a b = true \/ key_leb b a = true.
Proof.
  destruct a as [|s|p|x|u], b as [|t|q|y|v]; simpl; auto.
  - apply String.leb_total.
  - destruct (Qlt_le_dec q p) as [H|H].
    + right. apply Qle_bool_iff. now apply Qlt_le_weak.
    + left. now apply Qle_bool_iff.
  - destruct (Z.leb_spec x y); [now left | right; apply Z.leb_le; lia].
  - destruct (Z.leb_spec (bucket_rank u) (bucket_rank v));
      [now left | right; apply Z.leb_le; lia].
Qed.

Lemma key_leb_trans (a b c : cell) :
  key_leb a b = true -> key_leb b c = true -> key_leb a c = true.
Proof.
  destruct a as [|s|p|x|u], b as [|t|q|y|v], c as [|r|o|z|w]; simpl;
    try reflexivity; try discriminate.
  - apply string_leb_trans.
  - rewrite !Qle_bool_iff. apply Qle_trans.
  - rewrite !Z.leb_le. lia.
  - rewrite !Z.leb_le. lia.
Qed.

Lemma Qle_bool_total (a b : Q) : Qle_bool a b = true \/ Qle_bool b a = true.
Proof.
  destruct (Qlt_le_dec b a) as [H|H].
  - right. apply Qle_bool_iff. now apply Qlt_le_weak.
  - left. now apply Qle_bool_iff.
Qed.

Lemma Qle_bool_trans (a b c : Q) :
  Qle_bool a b = true -> Qle_bool b c = true -> Qle_bool a c = true.
Proof. rewrite !Qle_bool_iff. apply Qle_trans. Qed.

Lemma matches_perm (k : cell) (U V : list cell) :
  Permutation U V -> matches k U = matches k V.
Proof.
  unfold matches. induction 1; simpl; auto.
  - destruct (key_eqb k x); simpl; auto.
  - destruct (key_eqb k x), (key_eqb k y); reflexivity.
  - congruence.
Qed.

Lemma matches_firstn (k : cell) (n : nat) (U : list cell) :
  matches k (firstn n U) <= matches k U.
Proof.
  unfold matches. revert n. induction U as [|x U IH]; intros [|n]; simpl; try lia.
  specialize (IH n). destruct (key_eqb k x); simpl; lia.
Qed.

Lemma unique_each_key_once (keys : list cell) : each_key_once (unique keys).
Proof.
  intros k. rewrite matches_unique. destruct (existsb (key_eqb k) keys); lia.
Qed.

Lemma groupby_keys (key : row -> cell) (rws : list row) :
  map g_key (groupby_agg key rws) = sort_by key_leb (unique (map key rws)).
Proof.
  unfold groupby_agg. rewrite map_map. cbn [g_key]. apply map_id.
Qed.

Lemma groupby_each_key_once (key : row -> cell) (rws : list row) :
  each_key_once (map g_key (groupby_agg key rws)).
Proof.
  intros k. rewrite groupby_keys, (matches_perm k (sort_by_perm key_leb _)).
  apply unique_each_key_once.
Qed.

Lemma groupby_key_order (key : row -> cell) (rws : list row) :
  key_order (map g_key (groupby_agg key rws)).
Proof.
  rewrite groupby_keys. apply sort_by_sorted; [exact key_leb_total | exact key_leb_trans].
Qed.

Lemma total_count_perm (gs gs' : list group) :
  Permutation gs gs' -> total_count gs = total_count gs'.
Proof. unfold total_count. induction 1; simpl; lia. Qed.

Lemma total_count_groups (key : row -> cell) (U : list cell) (rws : list row) :
  total_count
    (map (fun k =>
            let members := filter (fun r => key_eqb (key r) k) rws in
            mkGroup k (series_sum (map Amount members)) (List.length members)) U)
  = List.length (flat_map (fun r => filter (key_eqb (key r)) U) rws).
Proof.
  induction rws as [|r rws IH]; simpl.
  - induction U as [|k U IHU]; simpl; auto.
  - rewrite length_app, <- IH. clear IH.
    induction U as [|k U IHU]; simpl; [reflexivity|].
    cbn [g_count] in *. destruct (key_eqb (key r) k); simpl; lia.
Qed.

(** The counts of the groups of a key column add up to the number of rows
    that have a key. *)
Lemma groupby_conserves_count (key : row -> cell) (rws : list row) :
  total_count (groupby_agg key rws)
  = List.length (filter (fun r => notna (key r)) rws).
Proof.
  unfold groupby_agg.
  rewrite (total_count_perm
             (Permutation_map _ (sort_by_perm key_leb (unique (map key rws))))).
  rewrite total_count_groups.
  assert (H : forall l, (forall r, In r l -> In r rws) ->
              List.length (flat_map (fun r => filter (key_eqb (key r))
                                                     (unique (map key rws))) l)
              = List.length (filter (fun r => notna (key r)) l)).
  { induction l as [|r l IH]; intros Hsub; simpl; [reflexivity|].
    rewrite length_app, IH by (intros x Hx; apply Hsub; now right).
    fold (matches (key r) (unique (map key rws))). rewrite matches_unique.
    unfold notna. destruct (isna (key r)) eqn:Hna; simpl.
    - destruct (key r); try discriminate.
      replace (existsb (key_eqb NaN) (map key rws)) with false; [reflexivity|].
      symmetry. clear. induction (map key rws); simpl; auto.
    - replace (existsb (key_eqb (key r)) (map key rws)) with true; [reflexivity|].
      symmetry. apply existsb_exists. exists (key r). split.
      + apply in_map. apply Hsub. now left.
      + now apply key_eqb_refl. }
  apply H. auto.
Qed.

Lemma week_start_spec (t : Z) :
  monday_midnight (week_start t)
  /\ (week_start t <= t < week_start t + 7 * ns_per_day)%Z.
Proof.
  unfold monday_midnight, week_start. cbn zeta.
  assert (Hn : (0 < ns_per_day)%Z) by reflexivity.
  set (d := (t / ns_per_day)%Z).
  pose proof (Z.mod_pos_bound (d + 3) 7 ltac:(lia)) as Hk.
  set (k := ((d + 3) mod 7)%Z) in *.
  pose proof (Z.mul_div_le t ns_per_day Hn) as Hlo.
  pose proof (Z.mul_succ_div_gt t ns_per_day Hn) as Hhi.
  fold d in Hlo, Hhi.
  repeat split.
  - apply Z_mod_mult.
  - rewrite Z_div_mult by lia.
    replace (d - k + 3)%Z with ((d + 3) - k)%Z by lia.
    unfold k. rewrite Zminus_mod, Zmod_mod, Z.sub_diag. reflexivity.
  - nia.
  - nia.
Qed.

Section ReportLines.

(** [report_top_vendors] lists at most [top_n] vendors, the largest total
    first, each vendor once; the groups it leaves out are no larger than
    any it lists, and none is left out when there are at most [top_n]
    vendors. *)
Theorem top_vendors_are_the_largest (df : frame) (top_n : nat) (gs : list group) :
  ap_reports.report_top_vendors df top_n = Ok gs ->
  List.length gs = Nat.min top_n (List.length (unique (col Vendor df)))
  /\ descending gs
  /\ each_key_once (map g_key gs)
  /\ exists rest,
       Permutation (gs ++ rest) (groupby_agg Vendor (rows df))
       /\ (forall g g', In g gs -> In g' rest -> (g_amount g' <= g_amount g)%Q)
       /\ (List.length (unique (col Vendor df)) <= top_n -> rest = []).
Proof.
  unfold ap_reports.report_top_vendors, require.
  destruct (has "Vendor" df); [|discriminate].
  destruct (has "Amount" df); [|discriminate].
  cbn [bind]. intros H. injection H as <-.
  set (leb := fun a b : group => Qle_bool (g_amount b) (g_amount a)).
  set (G := groupby_agg Vendor (rows df)).
  assert (Hsorted : StronglySorted (fun a b => leb a b = true) (sort_by leb G)).
  { apply sort_by_sorted; unfold leb.
    - intros a b. apply Qle_bool_total.
    - intros a b c Hab Hbc. exact (Qle_bool_trans _ _ _ Hbc Hab). }
  assert (Hlen : List.length (sort_by leb G) = List.length (unique (col Vendor df))).
  { rewrite (Permutation_length (sort_by_perm leb G)). apply groupby_length. }
  split; [rewrite length_firstn, Hlen; reflexivity|].
  split.
  { apply StronglySorted_firstn.
    eapply StronglySorted_ind with (P := fun l => StronglySorted _ l);
      [constructor| |exact Hsorted].
    intros a l _ IH Ha. constructor; [exact IH|].
    eapply Forall_impl; [|exact Ha]. intros b Hb. now apply Qle_bool_iff. }
  split.
  { intros k. eapply Nat.le_trans.
    - rewrite <- firstn_map. apply matches_firstn.
    - rewrite (matches_perm k (Permutation_map g_key (sort_by_perm leb G))).
      apply groupby_each_key_once. }
  exists (skipn top_n (sort_by leb G)). split; [|split].
  - rewrite firstn_skipn. apply sort_by_perm.
  - intros g g' Hg Hg'. apply Qle_bool_iff.
    rewrite <- (firstn_skipn top_n (sort_by leb G)) in Hsorted.
    exact (@StronglySorted_split _ _ _ _ Hsorted _ _ Hg Hg').
  - intros Hle. apply skipn_all2. lia.
Qed.

(** [report_aging_open] lists the buckets in category order, each bucket
    once, and its counts add up to the number of open invoices that have
    a bucket. *)
Theorem aging_report_lines (df : frame) (gs : list group) :
  ap_reports.report_aging_open df = Ok gs ->
  key_order (map g_key gs)
  /\ each_key_once (map g_key gs)
  /\ total_count gs
     = List.length (filter (fun r => notna (AgingBucket r)) (open_rows df)).
Proof.
  unfold ap_reports.report_aging_open, require.
  destruct (has "IsPaid" df); [|discriminate].
  destruct (has "AgingBucket" df); [|discriminate].
  destruct (has "Amount" df); [|discriminate].
  cbn [bind]. intros H. injection H as <-.
  unfold select. cbn [rows]. fold (open_rows df).
  set (leb := fun a b : group => key_leb (g_key a) (g_key b)).
  set (G := groupby_agg AgingBucket (open_rows df)).
  split; [|split].
  - apply StronglySorted_map. apply (sort_by_sorted leb); unfold leb.
    + intros a b. apply key_leb_total.
    + intros a b c. apply key_leb_trans.
  - intros k. rewrite (matches_perm k (Permutation_map g_key (sort_by_perm leb G))).
    apply groupby_each_key_once.
  - rewrite (total_count_perm (sort_by_perm leb G)). apply groupby_conserves_count.
Qed.

Lemma total_of_perm (a b : list (cell * Q)) :
  Permutation a b -> (total_of a == total_of b)%Q.
Proof.
  unfold total_of. induction 1; simpl.
  - reflexivity.
  - now rewrite IHPermutation.
  - ring.
  - now rewrite IHPermutation1.
Qed.

Lemma total_of_groups (gs : list group) :
  (total_of (map (fun g => (g_key g, g_amount g)) gs) == total_amount gs)%Q.
Proof.
  induction gs as [|g gs IH]; simpl; [reflexivity|]. now rewrite IH.
Qed.

(** The lines of [report_cash_weekly] on a table whose [DueDate] column
    is a datetime column. *)
Lemma cash_weekly_lines (df : frame) (ws : list (cell * Q)) :
  forallb datetime_cell (col DueDate df) = true ->
  report_cash_weekly df = Ok ws ->
  Forall (fun w => exists m, fst w = Ts m /\ monday_midnight m) ws
  /\ key_order (map fst ws)
  /\ each_key_once (map fst ws)
  /\ (forall r t, In r (open_rows df) -> DueDate r = Ts t ->
        exists m, In (Ts m) (map fst ws)
                  /\ (m <= t < m + 7 * ns_per_day)%Z)
  /\ (total_of ws
      == series_sum (map Amount (filter (fun r => notna (DueDate r))
                                        (open_rows df))))%Q.
Proof.
  intros Hdt.
  unfold report_cash_weekly, require, select. cbn [columns rows].
  destruct (has "IsPaid" df); [|discriminate]. cbn [bind].
  unfold has at 1 2. cbn [columns]. fold (has "DueDate" df) (has "Amount" df).
  destruct (has "DueDate" df); [|discriminate].
  destruct (has "Amount" df); [|discriminate].
  cbn [bind]. intros H. injection H as <-. fold (open_rows df).
  set (key := fun r => due_week (DueDate r)).
  set (G := groupby_agg key (open_rows df)).
  set (leb := fun a b : cell * Q => key_leb (fst a) (fst b)).
  set (L := map (fun g => (g_key g, g_amount g)) G).
  assert (Hkeys : Permutation (map fst (sort_by leb L)) (unique (map key (open_rows df)))).
  { rewrite (Permutation_map fst (sort_by_perm leb L)). unfold L.
    rewrite map_map. cbn [fst]. fold (map g_key G). unfold G.
    rewrite groupby_keys. apply sort_by_perm. }
  assert (Hin : forall k, In k (unique (map key (open_rows df))) ->
                          In k (map key (open_rows df))).
  { intros k. generalize (map key (open_rows df)). intros l.
    induction l as [|x l IH]; simpl; [auto|].
    destruct (isna x); [auto|]. intros [->|Hk]; [now left|].
    apply filter_In in Hk. right. apply IH, Hk. }
  split; [|split; [|split; [|split]]].
  - apply Forall_forall. intros w Hw.
    assert (Hk : In (fst w) (unique (map key (open_rows df)))).
    { apply (Permutation_in _ Hkeys). now apply in_map. }
    assert (Hna : isna (fst w) = false).
    { revert Hk. generalize (map key (open_rows df)). intros l.
      induction l as [|x l IH]; simpl; [tauto|].
      destruct (isna x) eqn:Hx; [exact IH|]. intros [<-|Hk]; [exact Hx|].
      apply filter_In in Hk. apply IH, Hk. }
    apply Hin in Hk. apply in_map_iff in Hk. destruct Hk as (r & Hr & _).
    unfold key, due_week in Hr. rewrite <- Hr in Hna |- *.
    destruct (DueDate r); try discriminate.
    eexists. split; [reflexivity|]. apply week_start_spec.
  - apply StronglySorted_map. apply (sort_by_sorted leb); unfold leb.
    + intros a b. apply key_leb_total.
    + intros a b c. apply key_leb_trans.
  - intros k. rewrite (matches_perm k Hkeys). apply unique_each_key_once.
  - intros r t Hr Ht. exists (week_start t). split; [|apply week_start_spec].
    assert (Hm : matches (Ts (week_start t)) (unique (map key (open_rows df))) = 1).
    { rewrite matches_unique.
      replace (existsb (key_eqb (Ts (week_start t))) (map key (open_rows df)))
        with true; [reflexivity|].
      symmetry. apply existsb_exists. exists (key r). split; [now apply in_map|].
      unfold key. rewrite Ht. simpl. apply Z.eqb_refl. }
    rewrite <- (matches_perm _ Hkeys) in Hm. unfold matches in Hm.
    destruct (filter (key_eqb (Ts (week_start t))) (map fst (sort_by leb L)))
      as [|c rest] eqn:Hf; [discriminate|].
    assert (Hc : In c (filter (key_eqb (Ts (week_start t)))
                              (map fst (sort_by leb L)))) by (rewrite Hf; now left).
    apply filter_In in Hc. destruct Hc as [Hc Heq].
    destruct c; simpl in Heq; try discriminate.
    apply Z.eqb_eq in Heq. now subst.
  - rewrite (total_of_perm (sort_by_perm leb L)). unfold L.
    rewrite total_of_groups. unfold G. rewrite groupby_conserves_sum.
    rewrite (filter_ext_in (fun r => notna (key r)) (fun r => notna (DueDate r)));
      [reflexivity|].
    intros r Hr. unfold key.
    rewrite open_rows_filter in Hr. apply filter_In in Hr. destruct Hr as [Hr _].
    rewrite forallb_forall in Hdt.
    specialize (Hdt (DueDate r) (in_map DueDate _ _ Hr)).
    destruct (DueDate r); try reflexivity; discriminate.
Qed.

End ReportLines.

(** The table of [due_in_two_weeks], seen on 2024-03-01. *)
Lemma top_vendors_witness :
  ap_reports.report_top_vendors due_in_two_weeks 1 = Ok [mkGroup (Txt "Bolt") 80 1]
  /\ descending [mkGroup (Txt "Bolt") 80 1]
  /\ exists rest,
       Permutation ([mkGroup (Txt "Bolt") 80 1] ++ rest)
                   (groupby_agg Vendor (rows due_in_two_weeks)).
Proof.
  assert (H : ap_reports.report_top_vendors due_in_two_weeks 1
              = Ok [mkGroup (Txt "Bolt") 80 1]) by (vm_compute; reflexivity).
  destruct (top_vendors_are_the_largest _ _ H) as (_ & Hd & _ & rest & Hperm & _).
  split; [exact H|]. split; [exact Hd|]. exists rest. exact Hperm.
Defined.

Lemma aging_report_witness :
  ap_reports.report_aging_open
    (@_ensure_features pandas_std mar01_morning
       (@_safe_to_datetime pandas_std due_in_two_weeks))
  = Ok [mkGroup (Cat Current) 80 1; mkGroup (Cat B0_30) 70 3]
  /\ total_count [mkGroup (Cat Current) 80 1; mkGroup (Cat B0_30) 70 3]
     = List.length
         (filter (fun r => notna (AgingBucket r))
                 (open_rows (@_ensure_features pandas_std mar01_morning
                               (@_safe_to_datetime pandas_std due_in_two_weeks)))).
Proof.
  assert (H : ap_reports.report_aging_open
                (@_ensure_features pandas_std mar01_morning
                   (@_safe_to_datetime pandas_std due_in_two_weeks))
              = Ok [mkGroup (Cat Current) 80 1; mkGroup (Cat B0_30) 70 3])
    by (vm_compute; reflexivity).
  split; [exact H|]. exact (proj2 (proj2 (aging_report_lines _ H))).
Defined.


(** ** The KPI record, once more *)

Lemma filter_length_mono {A} (p q : A -> bool) (l : list A) :
  (forall x, In x l -> p x = true -> q x = true) ->
  List.length (filter p l) <= List.length (filter q l).
Proof.
  induction l as [|x l IH]; intros H; simpl; [lia|].
  assert (IH' := IH (fun y Hy => H y (or_intror Hy))).
  destruct (p x) eqn:Hp.
  - rewrite (H x (or_introl eq_refl) Hp). simpl. lia.
  - destruct (q x); simpl; lia.
Qed.

Lemma series_sum_nonneg (l : list cell) :
  forallb nonneg_cell l = true -> (0 <= series_sum l)%Q.
Proof.
  induction l as [|c l IH]; simpl; intros H; [apply Qle_refl|].
  apply andb_true_iff in H. destruct H as [Hc Hl]. specialize (IH Hl).
  destruct c; try discriminate; try exact IH.
  simpl in Hc. apply Qle_bool_iff in Hc.
  setoid_replace 0%Q with (0 + 0)%Q by ring. now apply Qplus_le_compat.
Qed.

Lemma series_sum_filter_mono (p q : row -> bool) (l : list row) :
  (forall r, In r l -> p r = true -> q r = true) ->
  forallb nonneg_cell (map Amount l) = true ->
  (0 <= series_sum (map Amount (filter p l))
   /\ series_sum (map Amount (filter p l)) <= series_sum (map Amount (filter q l)))%Q.
Proof.
  induction l as [|r l IH]; intros H Hnn; simpl.
  - split; apply Qle_refl.
  - simpl in Hnn. apply andb_true_iff in Hnn. destruct Hnn as [Hr Hl].
    destruct (IH (fun y Hy => H y (or_intror Hy)) Hl) as [IH0 IH1].
    assert (Hamt : (0 <= amt (Amount r))%Q).
    { destruct (Amount r); simpl; try apply Qle_refl.
      simpl in Hr. now apply Qle_bool_iff. }
    destruct (p r) eqn:Hp.
    + rewrite (H r (or_introl eq_refl) Hp). cbn [map].
      rewrite !series_sum_cons. split.
      * setoid_replace 0%Q with (0 + 0)%Q by ring. now apply Qplus_le_compat.
      * apply Qplus_le_compat; [apply Qle_refl | exact IH1].
    + split; [exact IH0|]. destruct (q r); [|exact IH1].
      cbn [map]. rewrite series_sum_cons.
      setoid_replace (series_sum (map Amount (filter p l)))
        with (0 + series_sum (map Amount (filter p l)))%Q by ring.
      now apply Qplus_le_compat.
Qed.

Lemma series_sum_filter_le_all (p : row -> bool) (l : list row) :
  forallb nonneg_cell (map Amount l) = true ->
  (series_sum (map Amount (filter p l)) <= series_sum (map Amount l))%Q.
Proof.
  intros Hnn.
  destruct (series_sum_filter_mono p (fun _ => true) l (fun _ _ _ => eq_refl) Hnn)
    as [_ H].
  rewrite (filter_all (fun _ : row => true) l) in H by reflexivity. exact H.
Qed.

Lemma share_between_0_and_100 (v o : Q) :
  (0 <= v)%Q -> (v <= o)%Q -> ~ (o == 0)%Q ->
  (0 <= v / o * 100 /\ v / o * 100 <= 100)%Q.
Proof.
  intros Hv Hvo Ho.
  assert (Hpos : (0 < o)%Q).
  { apply Qle_lteq in Hvo. assert (H0 : (0 <= o)%Q) by (eapply Qle_trans; eauto;
      destruct Hvo as [H|H]; [now apply Qlt_le_weak | rewrite H; apply Qle_refl]).
    apply Qle_lteq in H0. destruct H0 as [H0|H0]; [exact H0|].
    exfalso. apply Ho. now symmetry. }
  assert (H0 : (0 <= v / o)%Q).
  { apply Qle_shift_div_l; [exact Hpos|]. now rewrite Qmult_0_l. }
  assert (H1 : (v / o <= 1)%Q).
  { apply Qle_shift_div_r; [exact Hpos|]. now rewrite Qmult_1_l. }
  split.
  - apply Qmult_le_0_compat; [exact H0 | discriminate].
  - setoid_replace 100%Q with (1 * 100)%Q at 2 by ring.
    apply Qmult_le_compat_r; [exact H1 | discriminate].
Qed.

Section KpiOrder.
Context {P : Coercions}.

Lemma open_amounts_rowwise (df : frame) :
  loc (s_not (col IsPaid df)) (col Amount df)
  = map Amount (filter (fun r => negb (IsPaid r)) (rows df)).
Proof. rowwise. apply loc_map_map. Qed.

Lemma overdue_amounts_rowwise (df : frame) :
  loc (s_and (s_not (col IsPaid df)) (map (fun d => (0 <? d)%Z) (col DaysPastDue df)))
      (col Amount df)
  = map Amount (filter (fun r => negb (IsPaid r) && (0 <? DaysPastDue r)%Z) (rows df)).
Proof. rowwise. apply loc_map_map. Qed.

Lemma cash_out_rowwise (today n : Z) (df : frame) :
  loc (s_and (s_not (col IsPaid df))
             (map (between 0 n)
                  (map (fun d => sub_days d (Ts today)) (col DueDate df))))
      (col Amount df)
  = map Amount
        (filter (fun r => negb (IsPaid r)
                          && between 0 n (sub_days (DueDate r) (Ts today)))
                (rows df)).
Proof. rowwise. apply loc_map_map. Qed.

(** In every KPI record the overdue invoices are counted among the open
    ones, and the open ones among all. *)
Theorem kpi_counts_are_nested (now : Z) (df : frame) (k : list (string * pyval)) :
  ap_kpis.compute_kpis now df = Ok k ->
  exists t o v,
    get "invoices_total" k = Some (PyInt t)
    /\ get "open_count" k = Some (PyInt o)
    /\ get "overdue_count" k = Some (PyInt v)
    /\ (0 <= v <= o)%Z /\ (o <= t)%Z
    /\ t = Z.of_nat (List.length (rows df)).
Proof.
  intros Hk. destruct (compute_kpis_shape now df) as (pct & _ & _ & _ & Hshape).
  rewrite Hshape in Hk.
  match type of Hk with Ok ?K = Ok _ => assert (Ek : k = K) by congruence end.
  subst k. clear Hk.
  do 3 eexists.
  split; [rewrite get_app; reflexivity|].
  split; [rewrite get_app; reflexivity|].
  split; [rewrite get_app; reflexivity|].
  unfold s_not, s_and, col. rewrite !map_map, zip_with_map, !s_count_map.
  pose proof (filter_length_mono
                (fun r => negb (IsPaid r) && (0 <? DaysPastDue r)%Z)
                (fun r => negb (IsPaid r)) (rows df)) as H1.
  pose proof (filter_length (fun r => negb (IsPaid r)) (rows df)) as H2.
  assert (H1' := H1 (fun r _ H => proj1 (proj1 (andb_true_iff _ _) H))).
  split; [split; [apply Nat2Z.is_nonneg | apply Nat2Z.inj_le; exact H1']|].
  split; [apply Nat2Z.inj_le; rewrite <- H2; apply Nat.le_add_r | reflexivity].
Qed.

(** When no amount is negative, the overdue amount lies between 0 and the
    open amount, the open amount is at most the total, a percentage of
    overdue amount lies between 0 and 100, and what falls due within 7
    days is part of what falls due within 30 days, which is part of the
    open amount. *)
Theorem kpi_amounts_are_nested (now : Z) (df : frame) (k : list (string * pyval)) :
  has "Amount" df = true ->
  forallb nonneg_cell (col Amount df) = true ->
  ap_kpis.compute_kpis now df = Ok k ->
  exists total open overdue,
    get "amount_total" k = Some (PyFloat total)
    /\ get "open_amount" k = Some (PyFloat open)
    /\ get "overdue_amount" k = Some (PyFloat overdue)
    /\ (0 <= overdue)%Q /\ (overdue <= open)%Q /\ (open <= total)%Q
    /\ (forall p, get "pct_overdue_amount" k = Some (PyFloat p) ->
                  (0 <= p)%Q /\ (p <= 100)%Q)
    /\ (has "DueDate" df = true ->
        exists c7 c30,
          get "cash_out_next_7" k = Some (PyFloat c7)
          /\ get "cash_out_next_30" k = Some (PyFloat c30)
          /\ (0 <= c7)%Q /\ (c7 <= c30)%Q /\ (c30 <= open)%Q).
Proof.
  intros Ha Hnn Hk.
  destruct (compute_kpis_shape now df) as (pct & Hpct & _ & _ & Hshape).
  rewrite Hshape in Hk.
  match type of Hk with Ok ?K = Ok _ => assert (Ek : k = K) by congruence end.
  subst k. clear Hk.
  unfold base_kpis. rewrite Ha in *. unfold ap_kpis.float_sum in *.
  rewrite open_amounts_rowwise, overdue_amounts_rowwise in *.
  unfold col in Hnn.
  set (open := series_sum (map Amount (filter (fun r => negb (IsPaid r)) (rows df)))) in *.
  set (overdue := series_sum
                    (map Amount (filter (fun r => negb (IsPaid r)
                                                  && (0 <? DaysPastDue r)%Z) (rows df)))) in *.
  destruct (series_sum_filter_mono
              (fun r => negb (IsPaid r) && (0 <? DaysPastDue r)%Z)
              (fun r => negb (IsPaid r)) (rows df)
              (fun r _ H => proj1 (proj1 (andb_true_iff _ _) H)) Hnn) as [Hov0 Hov1].
  fold overdue in Hov0, Hov1. fold open in Hov1.
  pose proof (series_sum_filter_le_all (fun r => negb (IsPaid r)) (rows df) Hnn) as Hopen.
  fold open in Hopen.
  exists (series_sum (col Amount df)), open, overdue.
  split; [rewrite get_app; reflexivity|].
  split; [rewrite get_app; reflexivity|].
  split; [rewrite get_app; reflexivity|].
  split; [exact Hov0|]. split; [exact Hov1|]. split; [exact Hopen|].
  split.
  - intros p Hp. rewrite get_app in Hp.
    change (Some pct = Some (PyFloat p)) in Hp. injection Hp as ->.
    unfold ap_kpis.pct_overdue in Hpct.
    destruct (Qeq_bool open 0) eqn:E; [discriminate|].
    unfold py_div in Hpct. rewrite E in Hpct. cbn [bind] in Hpct.
    injection Hpct as <-.
    apply share_between_0_and_100; auto.
    intros Hz. apply Qeq_bool_iff in Hz. congruence.
  - intros Hd.
    assert (Hb : forall key, key = "cash_out_next_7"%string \/ key = "cash_out_next_30"%string ->
                 get key
                   ([("invoices_total"%string, PyInt (Z.of_nat (List.length (rows df))));
                     ("amount_total"%string, PyFloat (series_sum (map Amount (rows df))));
                     ("open_count"%string,
                      PyInt (Z.of_nat (s_count (s_not (map IsPaid (rows df))))));
                     ("open_amount"%string, PyFloat open);
                     ("overdue_count"%string,
                      PyInt (Z.of_nat
                               (s_count (s_and (s_not (map IsPaid (rows df)))
                                               (map (fun d => (0 <? d)%Z)
                                                    (map DaysPastDue (rows df)))))));
                     ("overdue_amount"%string, PyFloat overdue);
                     ("pct_overdue_amount"%string, pct)]) = None)
      by (intros key [-> | ->]; reflexivity).
    assert (Hv : forall key, key = "cash_out_next_7"%string \/ key = "cash_out_next_30"%string ->
                 get key (ap_kpis.vendor_kpis df []) = None)
      by (intros key [-> | ->]; unfold ap_kpis.vendor_kpis; split_ifs; reflexivity).
    assert (Hp : forall key, key = "cash_out_next_7"%string \/ key = "cash_out_next_30"%string ->
                 get key (ap_kpis.days_to_pay_kpis df []) = None)
      by (intros key [-> | ->]; unfold ap_kpis.days_to_pay_kpis; split_ifs; reflexivity).
    assert (Hl : forall key, key = "cash_out_next_7"%string \/ key = "cash_out_next_30"%string ->
                 get key (ap_kpis.delay_kpis df []) = None)
      by (intros key [-> | ->]; unfold ap_kpis.delay_kpis; split_ifs; reflexivity).
    set (due_in := fun n : Z =>
           series_sum
             (map Amount
                  (filter (fun r => negb (IsPaid r)
                                    && between 0 n (sub_days (DueDate r)
                                                             (Ts (normalize now))))
                          (rows df)))).
    assert (Hc : ap_kpis.cash_out_kpis (normalize now) (s_not (col IsPaid df)) df []
                 = [("cash_out_next_7"%string, PyFloat (due_in 7%Z));
                    ("cash_out_next_30"%string, PyFloat (due_in 30%Z))]).
    { unfold ap_kpis.cash_out_kpis. rewrite Hd, Ha. cbn [andb].
      rewrite !cash_out_rowwise. reflexivity. }
    exists (due_in 7%Z), (due_in 30%Z).
    split; [rewrite get_app, Hb, get_app, Hv, get_app, Hp, get_app, Hl, get_app, Hc
              by auto; reflexivity|].
    split; [rewrite get_app, Hb, get_app, Hv, get_app, Hp, get_app, Hl, get_app, Hc
              by auto; reflexivity|].
    destruct (series_sum_filter_mono
                (fun r => negb (IsPaid r)
                          && between 0 7 (sub_days (DueDate r) (Ts (normalize now))))
                (fun r => negb (IsPaid r)
                          && between 0 30 (sub_days (DueDate r) (Ts (normalize now))))
                (rows df)) as [H7 H730]; [|exact Hnn|].
    { intros r _ H. apply andb_true_iff in H. destruct H as [H1 H2].
      rewrite H1. simpl. unfold between in *.
      destruct (sub_days (DueDate r) (Ts (normalize now))); [|discriminate].
      apply andb_true_iff in H2. destruct H2 as [Hlo Hhi].
      rewrite Hlo. simpl. apply Z.leb_le in Hhi. apply Z.leb_le. lia. }
    destruct (series_sum_filter_mono
                (fun r => negb (IsPaid r)
                          && between 0 30 (sub_days (DueDate r) (Ts (normalize now))))
                (fun r => negb (IsPaid r)) (rows df)
                (fun r _ H => proj1 (proj1 (andb_true_iff _ _) H)) Hnn) as [_ H30].
    repeat split; assumption.
Qed.
End KpiOrder.

(** The table of [three_invoices], seen on 2024-03-01: of 60 in total, 40
    are open, 10 are overdue, and 30 fall due within seven days. *)
Lemma kpi_counts_witness :
  exists k,
    @ap_kpis.compute_kpis pandas_std mar01_morning
      (@_ensure_features pandas_std mar01_morning
         (@_safe_to_datetime pandas_std three_invoices)) = Ok k
    /\ get "invoices_total" k = Some (PyInt 3)
    /\ get "open_count" k = Some (PyInt 2)
    /\ get "overdue_count" k = Some (PyInt 1)
    /\ exists t o v,
         get "invoices_total" k = Some (PyInt t)
         /\ get "open_count" k = Some (PyInt o)
         /\ get "overdue_count" k = Some (PyInt v)
         /\ (0 <= v <= o)%Z /\ (o <= t)%Z.
Proof.
  destruct (@ap_kpis.compute_kpis pandas_std mar01_morning
              (@_ensure_features pandas_std mar01_morning
                 (@_safe_to_datetime pandas_std three_invoices)))
    as [k|e] eqn:Hk; [|vm_compute in Hk; discriminate].
  exists k. split; [reflexivity|].
  destruct (@kpi_counts_are_nested pandas_std _ _ _ Hk)
    as (t & o & v & Ht & Ho & Hv & H1 & H2 & _).
  assert (Hc := Hk). vm_compute in Hc. injection Hc as <-.
  split; [reflexivity|]. split; [reflexivity|]. split; [reflexivity|].
  exists t, o, v. auto.
Defined.

Lemma kpi_amounts_witness :
  has "Amount" (@_ensure_features pandas_std mar01_morning
                  (@_safe_to_datetime pandas_std three_invoices)) = true
  /\ forallb nonneg_cell
             (col Amount (@_ensure_features pandas_std mar01_morning
                            (@_safe_to_datetime pandas_std three_invoices))) = true
  /\ exists k,
       @ap_kpis.compute_kpis pandas_std mar01_morning
         (@_ensure_features pandas_std mar01_morning
            (@_safe_to_datetime pandas_std three_invoices)) = Ok k
       /\ (exists p, get "pct_overdue_amount" k = Some (PyFloat p) /\ (p == 25)%Q)
       /\ get "cash_out_next_7" k = Some (PyFloat 30)
       /\ exists total open overdue,
            get "amount_total" k = Some (PyFloat total)
            /\ get "open_amount" k = Some (PyFloat open)
            /\ get "overdue_amount" k = Some (PyFloat overdue)
            /\ (0 <= overdue)%Q /\ (overdue <= open)%Q /\ (open <= total)%Q.
Proof.
  assert (Ha : has "Amount" (@_ensure_features pandas_std mar01_morning
                               (@_safe_to_datetime pandas_std three_invoices)) = true)
    by reflexivity.
  assert (Hnn : forallb nonneg_cell
                  (col Amount (@_ensure_features pandas_std mar01_morning
                                 (@_safe_to_datetime pandas_std three_invoices))) = true)
    by reflexivity.
  split; [exact Ha|]. split; [exact Hnn|].
  destruct (@ap_kpis.compute_kpis pandas_std mar01_morning
              (@_ensure_features pandas_std mar01_morning
                 (@_safe_to_datetime pandas_std three_invoices)))
    as [k|e] eqn:Hk; [|vm_compute in Hk; discriminate].
  exists k. split; [reflexivity|].
  destruct (@kpi_amounts_are_nested pandas_std _ _ _ Ha Hnn Hk)
    as (t & o & v & Ht & Ho & Hv & H0 & H1 & H2 & _).
  assert (Hc := Hk). vm_compute in Hc. injection Hc as <-.
  split; [|split; [|exists t, o, v; auto 10]].
  - eexists. split; reflexivity.
  - reflexivity.
Defined.

(** ** Payment terms *)

Lemma first_int_none (s : string) :
  first_int s = None <-> all_chars (fun c => negb (is_digit c)) s = true.
Proof.
  induction s as [|c r IH]; simpl; [tauto|].
  destruct (is_digit c); simpl; [split; discriminate | exact IH].
Qed.

Lemma digits_prefix_nonneg (s : string) :
  forall acc, (0 <= acc)%Z -> (0 <= digits_prefix s acc)%Z.
Proof.
  induction s as [|c r IH]; cbn [digits_prefix]; intros acc H; [exact H|].
  destruct (is_digit c); [|exact H]. apply IH. unfold digit_val.
  pose proof (Nat2Z.is_nonneg (nat_of_ascii c - 48)). lia.
Qed.

Lemma first_int_nonneg (s : string) (v : Z) : first_int s = Some v -> (0 <= v)%Z.
Proof.
  induction s as [|c r IH]; [discriminate|].
  change (first_int (String c r))
    with (if is_digit c then Some (digits_prefix (String c r) 0) else first_int r).
  destruct (is_digit c) eqn:E; [|exact IH].
  intros H. assert (Hv : digits_prefix (String c r) 0 = v) by congruence.
  rewrite <- Hv. apply digits_prefix_nonneg. lia.
Qed.

Lemma first_int_skips (pre t : string) :
  all_chars (fun c => negb (is_digit c)) pre = true ->
  first_int (pre ++ t) = first_int t.
Proof.
  induction pre as [|c r IH]; simpl; intros H; [reflexivity|].
  apply andb_true_iff in H. destruct H as [Hc Hr].
  apply negb_true_iff in Hc. rewrite Hc. now apply IH.
Qed.

Lemma digits_prefix_stops (ds rest : string) :
  all_chars is_digit ds = true -> starts_with_digit rest = false ->
  forall acc, digits_prefix (ds ++ rest) acc = digits_prefix ds acc.
Proof.
  intros Hds Hrest. induction ds as [|c r IH]; simpl; intros acc.
  - destruct rest as [|x rest]; [reflexivity|]. simpl in *. now rewrite Hrest.
  - simpl in Hds. apply andb_true_iff in Hds. destruct Hds as [Hc Hr].
    rewrite Hc. now apply IH.
Qed.

Section Terms.
Context {P : Coercions}.

(** [_parse_terms_days] has no value for a missing cell; on a cell whose
    text is plain ASCII (where the digits of the regular expression are 0
    to 9) it has no value exactly when the text holds no digit, and its
    value is the number written by the first run of digits of the text,
    whatever comes before and after that run; a value is never
    negative. *)
Theorem terms_days_is_the_first_number (s : cell) :
  (isna s = true -> ap_kpis._parse_terms_days s = None)
  /\ (isna s = false -> ascii_text (astype_str s) = true ->
      (ap_kpis._parse_terms_days s = None
       <-> all_chars (fun c => negb (is_digit c)) (astype_str s) = true))
  /\ (forall v, ap_kpis._parse_terms_days s = Some v -> (0 <= v)%Z)
  /\ (forall pre ds rest,
         isna s = false -> ascii_text (astype_str s) = true ->
         astype_str s = (pre ++ ds ++ rest)%string ->
         all_chars (fun c => negb (is_digit c)) pre = true ->
         ds <> EmptyString -> all_chars is_digit ds = true ->
         starts_with_digit rest = false ->
         ap_kpis._parse_terms_days s = Some (digits_prefix ds 0)).
Proof.
  unfold ap_kpis._parse_terms_days. split; [|split; [|split]].
  - intros ->. reflexivity.
  - intros -> _. apply first_int_none.
  - intros v. destruct (isna s); [discriminate | apply first_int_nonneg].
  - intros pre ds rest -> _ -> Hpre Hne Hds Hrest.
    rewrite first_int_skips by exact Hpre.
    destruct ds as [|c r]; [congruence|].
    assert (Hc : is_digit c = true)
      by (simpl in Hds; apply andb_true_iff in Hds; tauto).
    change (first_int (String c r ++ rest))
      with (if is_digit c then Some (digits_prefix (String c r ++ rest) 0)
            else first_int (r ++ rest)).
    rewrite Hc. f_equal. now apply digits_prefix_stops.
Qed.
End Terms.

(** The term [2% 10, net 45] counts as 2 days. *)
Lemma terms_days_witness :
  isna (Txt "2% 10, net 45") = false
  /\ @ap_kpis._parse_terms_days pandas_std (Txt "2% 10, net 45") = Some 2%Z.
Proof.
  split; [reflexivity|].
  exact (proj2 (proj2 (proj2 (@terms_days_is_the_first_number pandas_std
                                (Txt "2% 10, net 45"))))
           EmptyString "2"%string "% 10, net 45"%string
           eq_refl eq_refl eq_refl eq_refl ltac:(discriminate) eq_refl eq_refl).
Defined.

(** ** What [safe_save_csv] leaves on the disk *)

Lemma path_eqb_sym (p q : path) : path_eqb p q = path_eqb q p.
Proof.
  unfold path_eqb.
  now rewrite (String.eqb_sym (parent p)), (String.eqb_sym (stem p)),
    (String.eqb_sym (suffix p)).
Qed.

Lemma append_length (a b : string) :
  String.length (a ++ b) = String.length a + String.length b.
Proof. induction a as [|c a IH]; simpl; [reflexivity | now rewrite IH]. Qed.

Lemma fallback_is_another_path (e : env) (out_path : path) :
  path_eqb out_path (fallback_path e out_path) = false.
Proof.
  unfold path_eqb, fallback_path, with_stem_extra. cbn [parent stem suffix].
  destruct (String.eqb (stem out_path)
              (stem out_path ++ "_" ++ str_int (clock e))) eqn:E.
  - apply String.eqb_eq in E. apply (f_equal String.length) in E.
    rewrite append_length in E. simpl in E. lia.
  - now rewrite andb_false_r.
Qed.

Section SaveDisk.
Variable content : Type.
Variables (e : env) (df : content) (out_path : path) (sleep_s : Q).

Let tmp := with_suffix ".tmp" out_path.

Lemma handler_files (u : bool) (w : world content) (q : path) :
  path_eqb q tmp = false ->
  files (handler tmp u sleep_s w) q = files w q.
Proof.
  intros Hq. unfold handler. destruct (files w tmp); [destruct u|]; simpl;
    try reflexivity. now rewrite Hq.
Qed.

Lemma retry_loop_files (todo : nat) :
  forall (i : nat) (w : world content),
    let res := retry_loop e df tmp out_path sleep_s todo i w in
    (forall q, path_eqb q out_path = false -> path_eqb q tmp = false ->
               files (fst res) q = files w q)
    /\ (path_eqb out_path tmp = false ->
        (snd res = true ->
         files (fst res) out_path = Some df /\ files (fst res) tmp = None)
        /\ (snd res = false -> files (fst res) out_path = files w out_path)).
Proof.
  induction todo as [|todo IH]; intros i w; cbn zeta.
  - simpl. split; [reflexivity|]. intros _. split; [discriminate | reflexivity].
  - cbn [retry_loop]. destruct (attempts e i).
    + cbn [fst snd]. split.
      * intros q Ho Ht. simpl. now rewrite Ho, Ht.
      * intros Hne. split; [|discriminate]. intros _. simpl.
        rewrite !path_eqb_refl. rewrite (path_eqb_sym tmp out_path), Hne.
        split; reflexivity.
    + destruct (IH (S i) (handler tmp unlink_ok sleep_s w)) as [Hq Hd].
      split.
      * intros q Ho Ht. rewrite (Hq q Ho Ht). now apply handler_files.
      * intros Hne. destruct (Hd Hne) as [Hyes Hno]. split; [exact Hyes|].
        intros Hres. rewrite (Hno Hres). now apply handler_files.
    + destruct (IH (S i) (handler tmp unlink_ok sleep_s (fs_write tmp df w)))
        as [Hq Hd].
      split.
      * intros q Ho Ht. rewrite (Hq q Ho Ht), handler_files by exact Ht.
        simpl. now rewrite Ht.
      * intros Hne. destruct (Hd Hne) as [Hyes Hno]. split; [exact Hyes|].
        intros Hres. rewrite (Hno Hres), handler_files by exact Hne.
        simpl. now rewrite Hne.
Qed.

(** [safe_save_csv] touches three paths at most: the destination, the
    temporary file beside it and the fallback file.  Unless the
    destination itself ends in [.tmp], it holds the whole new table or
    still what it held before, and a pass that succeeds leaves no
    temporary file behind. *)
Theorem save_leaves_old_table_or_new (retries : nat) (w : world content) :
  let fallback := fallback_path e out_path in
  let res := safe_save_csv e df out_path retries sleep_s w in
  (forall q, path_eqb q out_path = false -> path_eqb q tmp = false ->
             path_eqb q fallback = false ->
             files (snd res) q = files w q)
  /\ (path_eqb out_path tmp = false ->
      (files (snd res) out_path = Some df
       \/ files (snd res) out_path = files w out_path)
      /\ ((exists n, n < retries /\ attempts e n = Replaced) ->
          fst res = Ok tt
          /\ files (snd res) out_path = Some df
          /\ files (snd res) tmp = None)
      /\ ((forall n, n < retries -> attempts e n <> Replaced) ->
          files (snd res) out_path = files w out_path)).
Proof.
  cbn zeta. unfold safe_save_csv. fold tmp.
  destruct (retry_loop_files retries 0 w) as [Hq Hd].
  destruct (retry_loop_spec e df tmp out_path sleep_s retries 0 w)
    as (evs & _ & _ & _ & Hyes & Hno).
  destruct (retry_loop e df tmp out_path sleep_s retries 0 w) as [w1 returned].
  cbn [fst snd] in *.
  assert (Hfb : forall q, path_eqb q (fallback_path e out_path) = false ->
                files (snd (if fallback_locked e
                            then (Raise PermissionError, w1)
                            else (Ok tt,
                                  log (EvPrint (warning out_path (fallback_path e out_path)))
                                      (fs_write (fallback_path e out_path) df w1)))) q
                = files w1 q).
  { intros q Hf. destruct (fallback_locked e); simpl; [reflexivity|]. now rewrite Hf. }
  split.
  - intros q Ho Ht Hf. destruct returned; cbn [snd]; [now apply Hq|].
    rewrite (Hfb q Hf). now apply Hq.
  - intros Hne. destruct (Hd Hne) as [Hret Hnot].
    pose proof (fallback_is_another_path e out_path) as Hother.
    destruct returned; cbn [fst snd].
    + destruct (Hret eq_refl) as [Hdst Htmp].
      split; [now left|]. split; [intros _; auto|].
      intros Hall. destruct (Hyes eq_refl) as (n & Hn & Hrep & _).
      exfalso. exact (Hall n Hn Hrep).
    + rewrite (Hfb out_path Hother), (Hnot eq_refl).
      split; [now right|]. split; [|reflexivity].
      intros (n & Hn & Hrep). destruct (Hno eq_refl) as [Hall _].
      exfalso. exact (Hall n Hn Hrep).
Qed.
End SaveDisk.

(** A viewer holds [ap_clean.csv] for the whole run: the file still holds
    the older table afterwards. *)
Lemma save_old_table_witness :
  path_eqb out_csv (with_suffix ".tmp" out_csv) = false
  /\ (forall n, n < default_retries -> attempts viewer_holds_destination n <> Replaced)
  /\ files (snd (safe_save_csv viewer_holds_destination text_amounts out_csv
                               default_retries default_sleep_s world_with_old_table))
           out_csv = Some twins.
Proof.
  assert (H1 : path_eqb out_csv (with_suffix ".tmp" out_csv) = false) by reflexivity.
  assert (H2 : forall n, n < default_retries ->
                         attempts viewer_holds_destination n <> Replaced)
    by (intros n _; discriminate).
  split; [exact H1|]. split; [exact H2|].
  destruct (@save_leaves_old_table_or_new frame viewer_holds_destination text_amounts
              out_csv default_sleep_s default_retries world_with_old_table)
    as (_ & Hdst).
  destruct (Hdst H1) as (_ & _ & Hold).
  rewrite (Hold H2). reflexivity.
Defined.

(** ** The order in which the raw directory is listed *)

Lemma Permutation_filter {A} (p : A -> bool) (l l' : list A) :
  Permutation l l' -> Permutation (filter p l) (filter p l').
Proof.
  induction 1; simpl.
  - constructor.
  - destruct (p x); [now constructor | assumption].
  - destruct (p x), (p y); try apply Permutation_refl. apply perm_swap.
  - eapply Permutation_trans; eauto.
Qed.

(** The spreadsheet that [find_excel] picks does not depend on the order
    in which the directory lists its entries. *)
Theorem find_excel_ignores_listing_order (d d' : disk) :
  Permutation (raw_dir d) (raw_dir d') ->
  find_excel d = find_excel d'.
Proof.
  intros Hperm.
  assert (Hglob : Permutation (glob_xlsx d) (glob_xlsx d'))
    by (unfold glob_xlsx; apply Permutation_filter, Permutation_map, Hperm).
  unfold find_excel.
  destruct (sorted (glob_xlsx d)) as [|f rest] eqn:Hs;
    destruct (sorted (glob_xlsx d')) as [|f' rest'] eqn:Hs'.
  - reflexivity.
  - exfalso. assert (Hnil : glob_xlsx d = []).
    { apply Permutation_nil. unfold sorted in Hs. rewrite <- Hs. apply sort_by_perm. }
    rewrite Hnil in Hglob. apply Permutation_nil in Hglob.
    destruct (sorted_head_least _ Hs') as [Hin _]. rewrite Hglob in Hin. destruct Hin.
  - exfalso. assert (Hnil : glob_xlsx d' = []).
    { apply Permutation_nil. unfold sorted in Hs'. rewrite <- Hs'. apply sort_by_perm. }
    rewrite Hnil in Hglob. apply Permutation_sym, Permutation_nil in Hglob.
    destruct (sorted_head_least _ Hs) as [Hin _]. rewrite Hglob in Hin. destruct Hin.
  - destruct (sorted_head_least _ Hs) as [Hin Hmin].
    destruct (sorted_head_least _ Hs') as [Hin' Hmin'].
    f_equal. apply String.leb_antisym.
    + apply Hmin. apply (Permutation_in _ (Permutation_sym Hglob)). exact Hin'.
    + apply Hmin'. apply (Permutation_in _ Hglob). exact Hin.
Qed.

Lemma find_excel_order_witness :
  Permutation (raw_dir raw_only) (raw_dir raw_only_reordered)
  /\ find_excel raw_only = find_excel raw_only_reordered.
Proof.
  assert (H : Permutation (raw_dir raw_only) (raw_dir raw_only_reordered)).
  { simpl. apply Permutation_sym. apply Permutation_cons_app with (l1 := [_; _]) (l2 := []).
    simpl. apply Permutation_refl. }
  split; [exact H | exact (find_excel_ignores_listing_order _ _ H)].
Defined.

(** ** The conversion of the dates *)

Section Dates.
Context {P : Coercions}.

Lemma to_datetime_is_datetime (c : cell) : datetime_cell (to_datetime c) = true.
Proof.
  destruct (to_datetime_cases c) as [-> | [t ->]]; reflexivity.
Qed.

Lemma convert_dates_idem (df : frame) (r : row) :
  convert_dates df (convert_dates df r) = convert_dates df r.
Proof.
  unfold convert_dates. cbn [InvoiceDate DueDate PaidDate set_dates].
  destruct (has "InvoiceDate" df), (has "DueDate" df), (has "PaidDate" df);
    rewrite ?to_datetime_idem; reflexivity.
Qed.

(** [_safe_to_datetime] converts the date columns that are there and
    nothing else: afterwards each of them holds time stamps and missing
    values only, the other columns are as before, and a second conversion
    changes nothing. *)
Theorem dates_are_converted_once (df : frame) :
  _safe_to_datetime (_safe_to_datetime df) = _safe_to_datetime df
  /\ columns (_safe_to_datetime df) = columns df
  /\ (has "InvoiceDate" df = true ->
      forallb datetime_cell (col InvoiceDate (_safe_to_datetime df)) = true)
  /\ (has "DueDate" df = true ->
      forallb datetime_cell (col DueDate (_safe_to_datetime df)) = true)
  /\ (has "PaidDate" df = true ->
      forallb datetime_cell (col PaidDate (_safe_to_datetime df)) = true)
  /\ (has "DueDate" df = false ->
      col DueDate (_safe_to_datetime df) = col DueDate df)
  /\ col APID (_safe_to_datetime df) = col APID df
  /\ col Vendor (_safe_to_datetime df) = col Vendor df
  /\ col Amount (_safe_to_datetime df) = col Amount df
  /\ col Currency (_safe_to_datetime df) = col Currency df
  /\ col Status (_safe_to_datetime df) = col Status df
  /\ col Terms (_safe_to_datetime df) = col Terms df.
Proof.
  unfold _safe_to_datetime, assign, col. cbn [rows columns].
  split.
  { f_equal. rewrite map_map. apply map_ext. intros r.
    change (convert_dates (mkFrame (columns df) (map (convert_dates df) (rows df))))
      with (convert_dates df). apply convert_dates_idem. }
  split; [reflexivity|].
  rewrite !map_map. unfold convert_dates.
  cbn [InvoiceDate DueDate PaidDate APID Vendor Amount Currency Status Terms set_dates].
  repeat split; try (intros ->); try reflexivity;
    apply forallb_forall; intros c Hc; apply in_map_iff in Hc;
    destruct Hc as (r & <- & _); apply to_datetime_is_datetime.
Qed.

Lemma due_dates_are_datetime (now : Z) (df : frame) :
  has "DueDate" df = true ->
  forallb datetime_cell (col DueDate (_ensure_features now (_safe_to_datetime df)))
  = true.
Proof.
  intros Hd. unfold col. rewrite ensure_features_rowwise, map_map.
  unfold featured_row. cbn [DueDate set_features].
  unfold _safe_to_datetime, assign. cbn [rows]. rewrite map_map.
  unfold convert_dates. cbn [DueDate set_dates]. rewrite Hd.
  apply forallb_forall. intros c Hc. apply in_map_iff in Hc.
  destruct Hc as (r & <- & _). apply to_datetime_is_datetime.
Qed.

(** The weekly cash report of the report script.  Whichever table [df0]
    its loader reads, the loader converts the dates and derives the
    features before it hands the table on; on that table, when [Amount]
    is a numeric column: one line per week in which an open invoice falls
    due, dated on the Monday of that week at midnight, the weeks in order
    of time and none of them twice; every open invoice with a due date
    falls into the seven days of one of the lines, and the amounts, added
    up exactly (without the rounding of [float64] addition), give the
    exact total of the open invoices that have a due date. *)
Theorem weekly_report_of_the_script
  (now : Z) (df0 : frame) (ws : list (cell * Q)) :
  let df := _ensure_features now (_safe_to_datetime df0) in
  Forall (fun c => numeric_cell c = true) (col Amount df) ->
  report_cash_weekly df = Ok ws ->
  Forall (fun w => exists m, fst w = Ts m /\ monday_midnight m) ws
  /\ key_order (map fst ws)
  /\ each_key_once (map fst ws)
  /\ (forall r t, In r (open_rows df) -> DueDate r = Ts t ->
        exists m, In (Ts m) (map fst ws)
                  /\ (m <= t < m + 7 * ns_per_day)%Z)
  /\ (total_of ws
      == series_sum (map Amount (filter (fun r => notna (DueDate r))
                                        (open_rows df))))%Q.
Proof.
  intros df _ Hrep. apply cash_weekly_lines; [|exact Hrep].
  unfold df in *. apply due_dates_are_datetime.
  destruct (has "DueDate" df0) eqn:Hd; [reflexivity|].
  exfalso. revert Hrep. unfold report_cash_weekly, require, select.
  destruct (has_ensure_features now (_safe_to_datetime df0)) as (Hp & _).
  rewrite Hp. cbn [bind]. unfold has at 1. cbn [columns].
  fold (has "DueDate" (_ensure_features now (_safe_to_datetime df0))).
  rewrite has_ensure_features_other by reflexivity.
  rewrite has_safe_to_datetime, Hd. discriminate.
Qed.

(** What the loader of the report script returns is such a table. *)
Lemma loader_returns_a_featured_table (now : Z) (d : disk) (df : frame) :
  ap_reports.load_clean_or_raw now d = Ok df ->
  exists df0, df = _ensure_features now (_safe_to_datetime df0).
Proof.
  unfold ap_reports.load_clean_or_raw, load_table. intros Hload.
  destruct (clean_csv d) as [t|].
  - exists t. cbn [bind] in Hload. congruence.
  - destruct (sorted (glob_xlsx d)) as [|f rest]; [discriminate|].
    exists (read_excel f (raw_dir d)). cbn [bind] in Hload. congruence.
Qed.
End Dates.

(** The dates of [dates_as_text]: the first is read, the second is no date
    and becomes a missing value. *)
Lemma dates_converted_witness :
  has "DueDate" dates_as_text = true
  /\ col InvoiceDate (@_safe_to_datetime pandas_std dates_as_text) = [Ts jan01]
  /\ col DueDate (@_safe_to_datetime pandas_std dates_as_text) = [NaN]
  /\ forallb datetime_cell (col DueDate (@_safe_to_datetime pandas_std dates_as_text))
     = true.
Proof.
  split; [reflexivity|]. split; [vm_compute; reflexivity|].
  split; [vm_compute; reflexivity|].
  destruct (@dates_are_converted_once pandas_std dates_as_text)
    as (_ & _ & _ & H & _).
  exact (H eq_refl).
Defined.

(** The table of [due_in_two_weeks], seen on 2024-03-01: two weeks,
    beginning on Monday 2024-01-29 and on Monday 2024-02-05. *)
Lemma weekly_report_witness :
  Forall (fun c => numeric_cell c = true)
         (col Amount (@_ensure_features pandas_std mar01_morning
                        (@_safe_to_datetime pandas_std due_in_two_weeks)))
  /\ report_cash_weekly
       (@_ensure_features pandas_std mar01_morning
          (@_safe_to_datetime pandas_std due_in_two_weeks))
     = Ok [(Ts (19751 * ns_per_day), 30%Q); (Ts (19758 * ns_per_day), 40%Q)]
  /\ Forall (fun w => exists m, fst w = Ts m /\ monday_midnight m)
            [(Ts (19751 * ns_per_day), 30%Q); (Ts (19758 * ns_per_day), 40%Q)].
Proof.
  assert (Hnum : Forall (fun c => numeric_cell c = true)
                   (col Amount (@_ensure_features pandas_std mar01_morning
                                  (@_safe_to_datetime pandas_std due_in_two_weeks))))
    by (repeat constructor).
  assert (H : report_cash_weekly
                (@_ensure_features pandas_std mar01_morning
                   (@_safe_to_datetime pandas_std due_in_two_weeks))
              = Ok [(Ts (19751 * ns_per_day), 30%Q); (Ts (19758 * ns_per_day), 40%Q)])
    by (vm_compute; reflexivity).
  split; [exact Hnum|]. split; [exact H|].
  exact (proj1 (@weekly_report_of_the_script pandas_std mar01_morning
                  due_in_two_weeks _ Hnum H)).
Defined.
